(** * core-mission-control: the ops specialist and the health record store

    A shallow embedding of
    - [orchestrator/ops-specialist/index.ts] (conflict resolution, delivery
      report, final QA), and
    - [orchestrator/worker/entrypoints/HealthOps.ts] (CRUD over the two
      health tables),
    followed by the properties the specification states about them.

    JavaScript numbers that hold counts, limits, offsets, row identifiers and
    epoch timestamps are integers ([Z], or [nat] for an array length); health
    scores are rationals ([Q]) and are only stored and read back.  Strings are
    byte strings.  An [async] function is a computation over an explicit world
    that either returns a value or throws. *)

From Stdlib Require Import List String Ascii Bool ZArith QArith Lia.
From Stdlib Require Import Sorting.Sorted Sorting.Permutation DecimalString.
Import ListNotations.

#[local] Open Scope string_scope.
#[local] Open Scope Z_scope.

(* ===================================================================== *)
(** * Part I: the program *)
(* ===================================================================== *)

(** ** JavaScript values and async computations *)
Module JS.

(** [a ?? d]: the left operand unless it is [null] or [undefined]. *)
Definition nullish {A : Type} (a : option A) (d : A) : A :=
  match a with
  | Some v => v
  | None => d
  end.

(** Truthiness of an optional string: [undefined] and the empty string are falsy. *)
Definition truthy (s : option string) : bool :=
  match s with
  | Some v => negb (v =? EmptyString)%string
  | None => false
  end.

(** [Array.prototype.join]. *)
Definition join (sep : string) (l : list string) : string :=
  String.concat sep l.

(** A non-negative integer inside a template literal. *)
Definition number_to_string (n : nat) : string :=
  NilEmpty.string_of_uint (Nat.to_uint n).

(** A thrown value: an [Error] with its name and message. *)
Record Error : Type := mkError { name : string; message : string }.

(** How a promise settles. *)
Inductive Outcome (A : Type) : Type :=
| Returned (a : A)
| Thrown (e : Error).
Arguments Returned {A} a.
Arguments Thrown {A} e.

(** An async function over a world of type [W]. *)
Definition Async (W A : Type) : Type := W -> Outcome A * W.

Definition ret {W A : Type} (a : A) : Async W A :=
  fun w => (Returned a, w).

Definition throw {W A : Type} (e : Error) : Async W A :=
  fun w => (Thrown e, w).

(** [const x = await m; k x]: a rejection of [m] rejects the caller. *)
Definition bind {W A B : Type} (m : Async W A) (k : A -> Async W B)
  : Async W B :=
  fun w =>
    match m w with
    | (Returned a, w') => k a w'
    | (Thrown e, w') => (Thrown e, w')
    end.

(** Read the world without changing it. *)
Definition gets {W A : Type} (f : W -> A) : Async W A :=
  fun w => (Returned (f w), w).

Definition returned {A : Type} (o : Outcome A) : option A :=
  match o with
  | Returned a => Some a
  | Thrown _ => None
  end.

End JS.

Declare Scope async_scope.
Delimit Scope async_scope with async.
Notation "x <- m ;; k" := (JS.bind m (fun x => k))
  (at level 61, m at next level, right associativity) : async_scope.
Notation "m ;;; k" := (JS.bind m (fun _ => k))
  (at level 61, right associativity) : async_scope.
Notation "a ?? d" := (JS.nullish a d) (at level 45, left associativity).

(** ** The relational operations the queries use (SQLite semantics) *)
Module Sql.

Section OrderBy.
Context {A : Type}.
Variable leb : A -> A -> bool.

Fixpoint insert (x : A) (l : list A) : list A :=
  match l with
  | [] => [x]
  | y :: t => if leb x y then x :: y :: t else y :: insert x t
  end.

(** [ORDER BY]: the rows in the order [leb], ties in table order. *)
Fixpoint order_by (l : list A) : list A :=
  match l with
  | [] => []
  | x :: t => insert x (order_by t)
  end.
End OrderBy.

(** Comparison of nullable integers: [NULL] sorts before every value. *)
Definition null_leb (a b : option Z) : bool :=
  match a, b with
  | None, _ => true
  | Some _, None => false
  | Some x, Some y => x <=? y
  end.

(** [ORDER BY key ASC] and [ORDER BY key DESC] on a nullable integer. *)
Definition asc {A : Type} (key : A -> option Z) (a b : A) : bool :=
  null_leb (key a) (key b).
Definition desc {A : Type} (key : A -> option Z) (a b : A) : bool :=
  null_leb (key b) (key a).

(** [LIMIT n]: a negative [n] means no upper bound. *)
Definition limit {A : Type} (n : Z) (l : list A) : list A :=
  if n <? 0 then l else firstn (Z.to_nat n) l.

(** [OFFSET n]: a negative [n] is the same as zero. *)
Definition offset {A : Type} (n : Z) (l : list A) : list A :=
  skipn (Z.to_nat n) l.

(** [column = value] on a nullable text column: [NULL] matches nothing. *)
Definition eq_text (column : option string) (value : string) : bool :=
  match column with
  | Some v => (v =? value)%string
  | None => false
  end.

End Sql.

(** ** orchestrator/ops-specialist/index.ts *)
Module OpsSpecialist.
Import JS.
#[local] Open Scope async_scope.

(** Modelled from the spec: the [followups] and [operation_logs] tables of
    the order database, whose schema is not part of the sources.  A followup
    carries an order identifier, a type, an impact level, an associated file
    path and a message; an operation log entry records an action taken for
    an order. *)
Record Followup : Type := {
  fu_order_id : string;
  fu_type : string;
  fu_impact_level : Z;
  fu_file_path : option string;
  fu_message : string
}.

Record OperationLog : Type := {
  ol_order_id : string;
  ol_action : string
}.

Record D1 : Type := {
  followups : list Followup;
  operation_logs : list OperationLog
}.

(** The context object handed to [githubRemediation.createIssue]. *)
Record RemediationContext : Type := {
  ctx_order_id : option string;
  ctx_file_path : string;
  ctx_error_code : string;
  ctx_message : string
}.

(** One call of [createIssue]: the context and the note. *)
Definition IssueCall : Type := (RemediationContext * string)%type.

Record Summary : Type := {
  issues : nat;
  ops_count : nat;
  last_updated : string
}.

Record DeliveryReport : Type := {
  order_id : string;
  summary : Summary;
  report_followups : list Followup;
  operations : list OperationLog
}.

Record QAResult : Type := {
  report : DeliveryReport;
  status : string
}.

Definition of_order (orderId : string) (f : Followup) : bool :=
  (fu_order_id f =? orderId)%string.

Definition is_blocked (f : Followup) : bool :=
  (fu_type f =? "blocked")%string.

(** At least one followup of type [blocked] exists for the order. *)
Definition has_blocked (db : D1) (orderId : string) : Prop :=
  exists f, In f (followups db) /\ fu_order_id f = orderId /\ fu_type f = "blocked".

(** The blocked followups of the order, in table order. *)
Definition blockers (db : D1) (orderId : string) : list Followup :=
  filter is_blocked (filter (of_order orderId) (followups db)).

Section WithTracker.
(** The external issue tracker: its state, and what one issue-creation
    request does to it (accept it, or fail with an error). *)
Variable Tracker : Type.
Variable tracker_create :
  RemediationContext -> string -> Tracker -> Outcome unit * Tracker.

(** What [env] gives access to, and the calls made so far. *)
Record World : Type := {
  DB : D1;
  clock_iso : string;
  tracker : Tracker;
  dispatched : list IssueCall
}.

(** A call of [githubRemediation.createIssue], which is imported from a
    module outside the sources: the call is recorded in [dispatched] and
    settles as the tracker's [tracker_create] does, returning when the issue
    is opened and throwing when issue creation fails. *)
Definition createIssue (ctx : RemediationContext) (note : string)
  : Async World unit :=
  fun w =>
    let (r, t') := tracker_create ctx note (tracker w) in
    (r, {| DB := DB w; clock_iso := clock_iso w; tracker := t';
           dispatched := dispatched w ++ [(ctx, note)] |}).

(** [SELECT * FROM followups WHERE order_id = ? ORDER BY impact_level ASC] *)
Definition select_followups (orderId : string) : Async World (list Followup) :=
  gets (fun w =>
    Sql.order_by (Sql.asc (fun f => Some (fu_impact_level f)))
      (filter (of_order orderId) (followups (DB w)))).

(** [SELECT * FROM operation_logs WHERE order_id = ?] *)
Definition select_operation_logs (orderId : string)
  : Async World (list OperationLog) :=
  gets (fun w =>
    filter (fun o => (ol_order_id o =? orderId)%string)
           (operation_logs (DB w))).

Definition resolveConflict (repo branch : string) (conflictFiles : list string)
  : Async World unit :=
  let note := "Conflict detected in " ++ repo ++ ":" ++ branch ++ " → "
              ++ join ", " conflictFiles in
  createIssue
    {| ctx_order_id := None;
       ctx_file_path := nth_error conflictFiles 0 ?? "unknown";
       ctx_error_code := "merge_conflict";
       ctx_message := note |}
    "Ops Specialist auto-detected conflict and opened an issue.".

Definition generateDeliveryReport (orderId : string)
  : Async World DeliveryReport :=
  results <- select_followups orderId ;;
  ops <- select_operation_logs orderId ;;
  now <- gets clock_iso ;;
  ret {| order_id := orderId;
         summary := {| issues := List.length results;
                       ops_count := List.length ops;
                       last_updated := now |};
         report_followups := results;
         operations := ops |}.

Definition finalQA (orderId : string) : Async World QAResult :=
  report <- generateDeliveryReport orderId ;;
  let blocked := filter is_blocked (report_followups report) in
  (if (0 <? List.length blocked)%nat then
     match nth_error blocked 0 with
     | Some first =>
         createIssue
           {| ctx_order_id := Some orderId;
              ctx_file_path := fu_file_path first ?? "unknown";
              ctx_error_code := "final_qa_blocked";
              ctx_message :=
                number_to_string (List.length blocked) ++ " unresolved blockers." |}
           "Final QA failed — unresolved followups remain."
     | None => throw (mkError "TypeError" "blocked[0] is undefined")
     end
   else ret tt) ;;;
  ret {| report := report;
         status := if negb (List.length blocked =? 0)%nat
                   then "failed" else "passed" |}.

(** Used by the proofs: the value [generateDeliveryReport] returns, written
    without the monad. *)
Definition report_of (w : World) (orderId : string) : DeliveryReport :=
  let results :=
    Sql.order_by (Sql.asc (fun f => Some (fu_impact_level f)))
      (filter (of_order orderId) (followups (DB w))) in
  let ops :=
    filter (fun o => (ol_order_id o =? orderId)%string) (operation_logs (DB w)) in
  {| order_id := orderId;
     summary := {| issues := List.length results;
                   ops_count := List.length ops;
                   last_updated := clock_iso w |};
     report_followups := results;
     operations := ops |}.

(** Used by the proofs: the call [finalQA] makes when [first] heads [n]
    blocked followups. *)
Definition qa_call (orderId : string) (first : Followup) (n : nat) : IssueCall :=
  ({| ctx_order_id := Some orderId;
      ctx_file_path := fu_file_path first ?? "unknown";
      ctx_error_code := "final_qa_blocked";
      ctx_message := number_to_string n ++ " unresolved blockers." |},
   "Final QA failed — unresolved followups remain.").

End WithTracker.

Arguments DB {Tracker} w.
Arguments clock_iso {Tracker} w.
Arguments tracker {Tracker} w.
Arguments dispatched {Tracker} w.
Arguments report_of {Tracker} w orderId.

End OpsSpecialist.


(** ** orchestrator/worker/database/health/schema *)
Module schema.

(** Modelled from the spec: the two tables of the health database, whose
    schema module is not part of the sources.  The rows are keyed by a string
    UUID distinct from the auto-incrementing row identifier, timestamps are
    integer epoch milliseconds, and a column is nullable exactly where
    [HealthOps.ts] supplies a fallback when reading it. *)
Module healthChecks.
Record Row : Type := {
  id : Z;
  healthCheckUuid : string;
  triggerType : string;
  triggerSource : option string;
  status : option string;
  totalWorkers : option Z;
  completedWorkers : option Z;
  passedWorkers : option Z;
  failedWorkers : option Z;
  overallHealthScore : option Q;
  aiAnalysis : option string;
  aiRecommendations : option string;
  startedAt : option Z;
  completedAt : option Z;
  timeoutAt : option Z;
  createdAt : option Z
}.
End healthChecks.

Module workerHealthChecks.
Record Row : Type := {
  id : Z;
  workerCheckUuid : string;
  healthCheckUuid : string;
  workerName : string;
  workerType : string;
  workerUrl : option string;
  status : option string;
  overallStatus : option string;
  healthScore : option Q;
  createdAt : option Z;
  completedAt : option Z
}.
End workerHealthChecks.

End schema.

(** ** orchestrator/worker/entrypoints/HealthOps.ts *)
Module HealthOps.
Import JS.
#[local] Open Scope async_scope.

Module HealthCheckResponse.
Record t : Type := {
  id : Z;
  healthCheckUuid : string;
  triggerType : string;
  triggerSource : option string;
  status : string;
  totalWorkers : Z;
  completedWorkers : Z;
  passedWorkers : Z;
  failedWorkers : Z;
  overallHealthScore : Q;
  aiAnalysis : option string;
  aiRecommendations : option string;
  startedAt : Z;
  completedAt : option Z;
  timeoutAt : option Z;
  createdAt : Z
}.
End HealthCheckResponse.

Module WorkerHealthCheckResponse.
Record t : Type := {
  id : Z;
  workerCheckUuid : string;
  healthCheckUuid : string;
  workerName : string;
  workerType : string;
  workerUrl : option string;
  status : string;
  overallStatus : option string;
  healthScore : Q;
  createdAt : Z;
  completedAt : option Z
}.
End WorkerHealthCheckResponse.

Record Pagination : Type := {
  limit : Z;
  offset : Z;
  total : Z;
  hasMore : bool
}.

Record PaginatedResponse (T : Type) : Type := {
  data : list T;
  pagination : Pagination
}.
Arguments data {T} p.
Arguments pagination {T} p.

(** The parameter objects of the write operations; an optional property is
    an [option], [None] standing for [undefined]. *)
Module CreateHealthCheck.
Record params : Type := {
  healthCheckUuid : string;
  triggerType : string;
  triggerSource : option string;
  totalWorkers : option Z;
  timeoutAt : option Z
}.
End CreateHealthCheck.

Module UpdateHealthCheck.
Record params : Type := {
  healthCheckUuid : string;
  status : option string;
  completedWorkers : option Z;
  passedWorkers : option Z;
  failedWorkers : option Z;
  overallHealthScore : option Q;
  aiAnalysis : option string;
  aiRecommendations : option string;
  completedAt : option Z
}.
End UpdateHealthCheck.

Module CreateWorkerHealthCheck.
Record params : Type := {
  workerCheckUuid : string;
  healthCheckUuid : string;
  workerName : string;
  workerType : string;
  workerUrl : option string
}.
End CreateWorkerHealthCheck.

Module UpdateWorkerHealthCheck.
Record params : Type := {
  workerCheckUuid : string;
  status : option string;
  overallStatus : option string;
  healthScore : option Q;
  completedAt : option Z
}.
End UpdateWorkerHealthCheck.

(** The [updateData] objects: the columns an update may set. *)
Module HealthCheckUpdate.
Record t : Type := {
  status : option string;
  completedWorkers : option Z;
  passedWorkers : option Z;
  failedWorkers : option Z;
  overallHealthScore : option Q;
  aiAnalysis : option string;
  aiRecommendations : option string;
  completedAt : option Z
}.
End HealthCheckUpdate.

Module WorkerHealthCheckUpdate.
Record t : Type := {
  status : option string;
  overallStatus : option string;
  healthScore : option Q;
  completedAt : option Z
}.
End WorkerHealthCheckUpdate.

Record OkResponse : Type := { ok : bool }.
Record IdResponse : Type := { id : Z }.

(** The health database behind [this.dbService.health]. *)
Record Database : Type := {
  healthChecks : list schema.healthChecks.Row;
  workerHealthChecks : list schema.workerHealthChecks.Row
}.

(** The database and the reading of [Date.now()]. *)
Record World : Type := {
  health : Database;
  Date_now : Z
}.

Definition empty : Database :=
  {| healthChecks := []; workerHealthChecks := [] |}.

(** The row identifier an insert assigns: one more than the largest in use. *)
Definition next_id (ids : list Z) : Z :=
  1 + fold_right Z.max 0 ids.

(** [.set(updateData)] on one column: a key present in [updateData]
    overwrites the stored value, an absent key leaves it. *)
Definition assign {A : Type} (new old : option A) : option A :=
  match new with
  | Some v => Some v
  | None => old
  end.

Definition is_some {A : Type} (o : option A) : bool :=
  match o with
  | Some _ => true
  | None => false
  end.

(** [.set(updateData)] refuses an object without a key: the query builder
    throws before any statement is sent. *)
Definition no_values_to_set : Error := mkError "Error" "No values to set".

Definition no_values (updateData : HealthCheckUpdate.t) : bool :=
  negb (is_some (HealthCheckUpdate.status updateData)
        || is_some (HealthCheckUpdate.completedWorkers updateData)
        || is_some (HealthCheckUpdate.passedWorkers updateData)
        || is_some (HealthCheckUpdate.failedWorkers updateData)
        || is_some (HealthCheckUpdate.overallHealthScore updateData)
        || is_some (HealthCheckUpdate.aiAnalysis updateData)
        || is_some (HealthCheckUpdate.aiRecommendations updateData)
        || is_some (HealthCheckUpdate.completedAt updateData)).

Definition no_worker_values (updateData : WorkerHealthCheckUpdate.t) : bool :=
  negb (is_some (WorkerHealthCheckUpdate.status updateData)
        || is_some (WorkerHealthCheckUpdate.overallStatus updateData)
        || is_some (WorkerHealthCheckUpdate.healthScore updateData)
        || is_some (WorkerHealthCheckUpdate.completedAt updateData)).

(** The update supplies at least one of its optional fields. *)
Definition supplies_a_field (p : UpdateHealthCheck.params) : Prop :=
  UpdateHealthCheck.status p <> None \/
  UpdateHealthCheck.completedWorkers p <> None \/
  UpdateHealthCheck.passedWorkers p <> None \/
  UpdateHealthCheck.failedWorkers p <> None \/
  UpdateHealthCheck.overallHealthScore p <> None \/
  UpdateHealthCheck.aiAnalysis p <> None \/
  UpdateHealthCheck.aiRecommendations p <> None \/
  UpdateHealthCheck.completedAt p <> None.

Definition supplies_a_worker_field (p : UpdateWorkerHealthCheck.params) : Prop :=
  UpdateWorkerHealthCheck.status p <> None \/
  UpdateWorkerHealthCheck.overallStatus p <> None \/
  UpdateWorkerHealthCheck.healthScore p <> None \/
  UpdateWorkerHealthCheck.completedAt p <> None.

(** Modelled from the spec: the constraints of the schema, which is not part
    of the sources.  The run identifier and the check identifier are unique,
    and a result is foreign-keyed to its parent run by the run identifier;
    the store rejects an insert that breaks one of them. *)
Definition constraint_failed (constraint : string) : Error :=
  mkError "Error" ("D1_ERROR: " ++ constraint ++ " constraint failed").

(** The first element of a destructured array ([const [check] = ...]). *)
Definition first {A : Type} (l : list A) : option A := nth_error l 0.

(** The response object built from a stored run. *)
Definition toHealthCheckResponse (now : Z) (check : schema.healthChecks.Row)
  : HealthCheckResponse.t :=
  {| HealthCheckResponse.id := schema.healthChecks.id check;
     HealthCheckResponse.healthCheckUuid := schema.healthChecks.healthCheckUuid check;
     HealthCheckResponse.triggerType := schema.healthChecks.triggerType check;
     HealthCheckResponse.triggerSource := schema.healthChecks.triggerSource check;
     HealthCheckResponse.status := schema.healthChecks.status check ?? "running";
     HealthCheckResponse.totalWorkers := schema.healthChecks.totalWorkers check ?? 0;
     HealthCheckResponse.completedWorkers := schema.healthChecks.completedWorkers check ?? 0;
     HealthCheckResponse.passedWorkers := schema.healthChecks.passedWorkers check ?? 0;
     HealthCheckResponse.failedWorkers := schema.healthChecks.failedWorkers check ?? 0;
     HealthCheckResponse.overallHealthScore :=
       schema.healthChecks.overallHealthScore check ?? 0%Q;
     HealthCheckResponse.aiAnalysis := schema.healthChecks.aiAnalysis check;
     HealthCheckResponse.aiRecommendations := schema.healthChecks.aiRecommendations check;
     HealthCheckResponse.startedAt := schema.healthChecks.startedAt check ?? now;
     HealthCheckResponse.completedAt := schema.healthChecks.completedAt check;
     HealthCheckResponse.timeoutAt := schema.healthChecks.timeoutAt check;
     HealthCheckResponse.createdAt := schema.healthChecks.createdAt check ?? now |}.

(** The response object built from a stored worker result. *)
Definition toWorkerHealthCheckResponse (now : Z)
  (check : schema.workerHealthChecks.Row) : WorkerHealthCheckResponse.t :=
  {| WorkerHealthCheckResponse.id := schema.workerHealthChecks.id check;
     WorkerHealthCheckResponse.workerCheckUuid :=
       schema.workerHealthChecks.workerCheckUuid check;
     WorkerHealthCheckResponse.healthCheckUuid :=
       schema.workerHealthChecks.healthCheckUuid check;
     WorkerHealthCheckResponse.workerName := schema.workerHealthChecks.workerName check;
     WorkerHealthCheckResponse.workerType := schema.workerHealthChecks.workerType check;
     WorkerHealthCheckResponse.workerUrl := schema.workerHealthChecks.workerUrl check;
     WorkerHealthCheckResponse.status := schema.workerHealthChecks.status check ?? "pending";
     WorkerHealthCheckResponse.overallStatus :=
       schema.workerHealthChecks.overallStatus check;
     WorkerHealthCheckResponse.healthScore :=
       schema.workerHealthChecks.healthScore check ?? 0%Q;
     WorkerHealthCheckResponse.createdAt := schema.workerHealthChecks.createdAt check ?? now;
     WorkerHealthCheckResponse.completedAt := schema.workerHealthChecks.completedAt check |}.

(** *** Health check operations *)

Definition hasUuid (uuid : string) (r : schema.healthChecks.Row) : bool :=
  (schema.healthChecks.healthCheckUuid r =? uuid)%string.

Definition getHealthCheck (healthCheckUuid : string)
  : Async World (option HealthCheckResponse.t) :=
  rows <- gets (fun w =>
            Sql.limit 1 (filter (hasUuid healthCheckUuid) (healthChecks (health w)))) ;;
  now <- gets Date_now ;;
  match first rows with
  | None => ret None
  | Some check => ret (Some (toHealthCheckResponse now check))
  end.

(** The [conditions] array of [getHealthChecks]. *)
Definition conditions (triggerType status : option string)
  : list (schema.healthChecks.Row -> bool) :=
  (if truthy triggerType
   then [fun r => (schema.healthChecks.triggerType r =? triggerType ?? EmptyString)%string]
   else [])
  ++
  (if truthy status
   then [fun r => Sql.eq_text (schema.healthChecks.status r) (status ?? EmptyString)]
   else []).

(** [conditions.length > 0 ? and(...conditions) : undefined] as the predicate
    the [where] clause applies to a row; no clause keeps every row. *)
Definition where_ {A : Type} (conds : list (A -> bool)) (r : A) : bool :=
  if (0 <? List.length conds)%nat then forallb (fun c => c r) conds else true.

(** The error of a statement the store refuses to run. *)
Definition query_rejected : Error :=
  mkError "Error" "D1_ERROR: near OFFSET: syntax error".

(** [.limit(limit).offset(offset)] as the query builder writes the
    statement: a [LIMIT] clause when [limit] is not negative, an [OFFSET]
    clause when [offset] is not zero.  SQLite has no [OFFSET] without a
    [LIMIT], so the store rejects the statement of a negative limit with a
    non-zero offset; every other statement returns the rows past the offset,
    up to the limit. *)
Definition paged {A : Type} (limit offset : Z) (rows : World -> list A)
  : Async World (list A) :=
  fun w =>
    if (limit <? 0) && negb (offset =? 0)
    then (Thrown query_rejected, w)
    else (Returned (Sql.limit limit (Sql.offset offset (rows w))), w).

Definition getHealthChecks (triggerType status : option string)
  (limit offset : option Z)
  : Async World (PaginatedResponse HealthCheckResponse.t) :=
  let limit := limit ?? 50 in
  let offset := offset ?? 0 in
  let conditions := conditions triggerType status in
  checks <- paged limit offset (fun w =>
              Sql.order_by (Sql.desc schema.healthChecks.startedAt)
                (filter (where_ conditions) (healthChecks (health w)))) ;;
  allChecks <- gets (fun w =>
                 filter (where_ conditions) (healthChecks (health w))) ;;
  let total := Z.of_nat (List.length allChecks) in
  now <- gets Date_now ;;
  ret {| data := map (toHealthCheckResponse now) checks;
         pagination := {| limit := limit;
                          offset := offset;
                          total := total;
                          hasMore := offset + limit <? total |} |}.

(** Used by the proofs: the response of a run listing the store accepts. *)
Definition healthChecks_listing (w : World) (triggerType status : option string)
  (lim off : Z) : PaginatedResponse HealthCheckResponse.t :=
  let matching :=
    filter (where_ (conditions triggerType status)) (healthChecks (health w)) in
  {| data :=
       map (toHealthCheckResponse (Date_now w))
         (Sql.limit lim (Sql.offset off
            (Sql.order_by (Sql.desc schema.healthChecks.startedAt) matching)));
     pagination := {| limit := lim;
                      offset := off;
                      total := Z.of_nat (List.length matching);
                      hasMore := off + lim <? Z.of_nat (List.length matching) |} |}.

Section WithSchemaDefaults.
(** What the schema stores in the columns an insert leaves out, given the
    time of the insert: the missing schema module decides these values.  The
    identifier and the columns every insert provides are not read from it. *)
Variable healthChecks_defaults : Z -> schema.healthChecks.Row.
Variable workerHealthChecks_defaults : Z -> schema.workerHealthChecks.Row.

(** [insert(schema.healthChecks).values({...}).returning()]: the new row is
    appended and returned, unless a stored run already has the identifier. *)
Definition insert_healthCheck (p : CreateHealthCheck.params)
  : Async World (list schema.healthChecks.Row) :=
  fun w =>
    let rows := healthChecks (health w) in
    let d := healthChecks_defaults (Date_now w) in
    let row :=
      {| schema.healthChecks.id := next_id (map schema.healthChecks.id rows);
         schema.healthChecks.healthCheckUuid := CreateHealthCheck.healthCheckUuid p;
         schema.healthChecks.triggerType := CreateHealthCheck.triggerType p;
         schema.healthChecks.triggerSource := CreateHealthCheck.triggerSource p;
         schema.healthChecks.status := Some "running";
         schema.healthChecks.totalWorkers :=
           Some (CreateHealthCheck.totalWorkers p ?? 0);
         schema.healthChecks.completedWorkers := schema.healthChecks.completedWorkers d;
         schema.healthChecks.passedWorkers := schema.healthChecks.passedWorkers d;
         schema.healthChecks.failedWorkers := schema.healthChecks.failedWorkers d;
         schema.healthChecks.overallHealthScore :=
           schema.healthChecks.overallHealthScore d;
         schema.healthChecks.aiAnalysis := schema.healthChecks.aiAnalysis d;
         schema.healthChecks.aiRecommendations :=
           schema.healthChecks.aiRecommendations d;
         schema.healthChecks.startedAt := schema.healthChecks.startedAt d;
         schema.healthChecks.completedAt := schema.healthChecks.completedAt d;
         schema.healthChecks.timeoutAt := CreateHealthCheck.timeoutAt p;
         schema.healthChecks.createdAt := schema.healthChecks.createdAt d |} in
    if existsb (hasUuid (CreateHealthCheck.healthCheckUuid p)) rows
    then (Thrown (constraint_failed "UNIQUE"), w) else
    (Returned [row],
     {| health := {| healthChecks := rows ++ [row];
                     workerHealthChecks := workerHealthChecks (health w) |};
        Date_now := Date_now w |}).

Definition createHealthCheck (p : CreateHealthCheck.params)
  : Async World IdResponse :=
  rows <- insert_healthCheck p ;;
  match first rows with
  | Some check => ret {| id := schema.healthChecks.id check |}
  | None => throw (mkError "TypeError" "check is undefined")
  end.

(** [update(schema.healthChecks).set(updateData).where(eq(uuid, ...))]: the
    rows the condition selects get the columns of [updateData], the others
    stay; an [updateData] without a key is refused. *)
Definition set_healthCheck (updateData : HealthCheckUpdate.t)
  (r : schema.healthChecks.Row) : schema.healthChecks.Row :=
  {| schema.healthChecks.id := schema.healthChecks.id r;
     schema.healthChecks.healthCheckUuid := schema.healthChecks.healthCheckUuid r;
     schema.healthChecks.triggerType := schema.healthChecks.triggerType r;
     schema.healthChecks.triggerSource := schema.healthChecks.triggerSource r;
     schema.healthChecks.status :=
       assign (HealthCheckUpdate.status updateData) (schema.healthChecks.status r);
     schema.healthChecks.totalWorkers := schema.healthChecks.totalWorkers r;
     schema.healthChecks.completedWorkers :=
       assign (HealthCheckUpdate.completedWorkers updateData)
              (schema.healthChecks.completedWorkers r);
     schema.healthChecks.passedWorkers :=
       assign (HealthCheckUpdate.passedWorkers updateData)
              (schema.healthChecks.passedWorkers r);
     schema.healthChecks.failedWorkers :=
       assign (HealthCheckUpdate.failedWorkers updateData)
              (schema.healthChecks.failedWorkers r);
     schema.healthChecks.overallHealthScore :=
       assign (HealthCheckUpdate.overallHealthScore updateData)
              (schema.healthChecks.overallHealthScore r);
     schema.healthChecks.aiAnalysis :=
       assign (HealthCheckUpdate.aiAnalysis updateData)
              (schema.healthChecks.aiAnalysis r);
     schema.healthChecks.aiRecommendations :=
       assign (HealthCheckUpdate.aiRecommendations updateData)
              (schema.healthChecks.aiRecommendations r);
     schema.healthChecks.startedAt := schema.healthChecks.startedAt r;
     schema.healthChecks.completedAt :=
       assign (HealthCheckUpdate.completedAt updateData)
              (schema.healthChecks.completedAt r);
     schema.healthChecks.timeoutAt := schema.healthChecks.timeoutAt r;
     schema.healthChecks.createdAt := schema.healthChecks.createdAt r |}.

Definition update_healthChecks (updateData : HealthCheckUpdate.t)
  (cond : schema.healthChecks.Row -> bool) : Async World unit :=
  fun w =>
    if no_values updateData then (Thrown no_values_to_set, w) else
    (Returned tt,
     {| health :=
          {| healthChecks :=
               map (fun r => if cond r then set_healthCheck updateData r else r)
                   (healthChecks (health w));
             workerHealthChecks := workerHealthChecks (health w) |};
        Date_now := Date_now w |}).

(** [if (params.x !== undefined) updateData.x = params.x], for each
    property: [updateData] has the key exactly when the parameter is
    defined. *)
Definition updateHealthCheck (params : UpdateHealthCheck.params)
  : Async World OkResponse :=
  let updateData :=
    {| HealthCheckUpdate.status := UpdateHealthCheck.status params;
       HealthCheckUpdate.completedWorkers := UpdateHealthCheck.completedWorkers params;
       HealthCheckUpdate.passedWorkers := UpdateHealthCheck.passedWorkers params;
       HealthCheckUpdate.failedWorkers := UpdateHealthCheck.failedWorkers params;
       HealthCheckUpdate.overallHealthScore :=
         UpdateHealthCheck.overallHealthScore params;
       HealthCheckUpdate.aiAnalysis := UpdateHealthCheck.aiAnalysis params;
       HealthCheckUpdate.aiRecommendations :=
         UpdateHealthCheck.aiRecommendations params;
       HealthCheckUpdate.completedAt := UpdateHealthCheck.completedAt params |} in
  update_healthChecks updateData
    (hasUuid (UpdateHealthCheck.healthCheckUuid params)) ;;;
  ret {| ok := true |}.

(** Used by the proofs: the [updateData] object [updateHealthCheck] builds. *)
Definition updateData_of (params : UpdateHealthCheck.params) : HealthCheckUpdate.t :=
  {| HealthCheckUpdate.status := UpdateHealthCheck.status params;
     HealthCheckUpdate.completedWorkers := UpdateHealthCheck.completedWorkers params;
     HealthCheckUpdate.passedWorkers := UpdateHealthCheck.passedWorkers params;
     HealthCheckUpdate.failedWorkers := UpdateHealthCheck.failedWorkers params;
     HealthCheckUpdate.overallHealthScore :=
       UpdateHealthCheck.overallHealthScore params;
     HealthCheckUpdate.aiAnalysis := UpdateHealthCheck.aiAnalysis params;
     HealthCheckUpdate.aiRecommendations :=
       UpdateHealthCheck.aiRecommendations params;
     HealthCheckUpdate.completedAt := UpdateHealthCheck.completedAt params |}.

(** *** Worker health check operations *)

Definition hasWorkerUuid (uuid : string) (r : schema.workerHealthChecks.Row)
  : bool :=
  (schema.workerHealthChecks.workerCheckUuid r =? uuid)%string.

Definition ofRun (uuid : string) (r : schema.workerHealthChecks.Row) : bool :=
  (schema.workerHealthChecks.healthCheckUuid r =? uuid)%string.

Definition getWorkerHealthCheck (workerCheckUuid : string)
  : Async World (option WorkerHealthCheckResponse.t) :=
  rows <- gets (fun w =>
            Sql.limit 1 (filter (hasWorkerUuid workerCheckUuid)
                                (workerHealthChecks (health w)))) ;;
  now <- gets Date_now ;;
  match first rows with
  | None => ret None
  | Some check => ret (Some (toWorkerHealthCheckResponse now check))
  end.

Definition getWorkerHealthChecks (healthCheckUuid : string)
  (limit offset : option Z)
  : Async World (PaginatedResponse WorkerHealthCheckResponse.t) :=
  let limit := limit ?? 100 in
  let offset := offset ?? 0 in
  checks <- paged limit offset (fun w =>
              Sql.order_by (Sql.desc schema.workerHealthChecks.createdAt)
                (filter (ofRun healthCheckUuid)
                        (workerHealthChecks (health w)))) ;;
  allChecks <- gets (fun w =>
                 filter (ofRun healthCheckUuid) (workerHealthChecks (health w))) ;;
  let total := Z.of_nat (List.length allChecks) in
  now <- gets Date_now ;;
  ret {| data := map (toWorkerHealthCheckResponse now) checks;
         pagination := {| limit := limit;
                          offset := offset;
                          total := total;
                          hasMore := offset + limit <? total |} |}.

(** Used by the proofs: the response of a result listing the store
    accepts. *)
Definition workerHealthChecks_listing (w : World) (healthCheckUuid : string)
  (lim off : Z) : PaginatedResponse WorkerHealthCheckResponse.t :=
  let matching := filter (ofRun healthCheckUuid) (workerHealthChecks (health w)) in
  {| data :=
       map (toWorkerHealthCheckResponse (Date_now w))
         (Sql.limit lim (Sql.offset off
            (Sql.order_by (Sql.desc schema.workerHealthChecks.createdAt) matching)));
     pagination := {| limit := lim;
                      offset := off;
                      total := Z.of_nat (List.length matching);
                      hasMore := off + lim <? Z.of_nat (List.length matching) |} |}.

(** [insert(schema.workerHealthChecks).values({...}).returning()]: the new
    row is appended and returned, unless a stored result already has the check
    identifier or no stored run has the run identifier. *)
Definition insert_workerHealthCheck (p : CreateWorkerHealthCheck.params)
  : Async World (list schema.workerHealthChecks.Row) :=
  fun w =>
    let rows := workerHealthChecks (health w) in
    let d := workerHealthChecks_defaults (Date_now w) in
    let row :=
      {| schema.workerHealthChecks.id :=
           next_id (map schema.workerHealthChecks.id rows);
         schema.workerHealthChecks.workerCheckUuid :=
           CreateWorkerHealthCheck.workerCheckUuid p;
         schema.workerHealthChecks.healthCheckUuid :=
           CreateWorkerHealthCheck.healthCheckUuid p;
         schema.workerHealthChecks.workerName := CreateWorkerHealthCheck.workerName p;
         schema.workerHealthChecks.workerType := CreateWorkerHealthCheck.workerType p;
         schema.workerHealthChecks.workerUrl := CreateWorkerHealthCheck.workerUrl p;
         schema.workerHealthChecks.status := Some "pending";
         schema.workerHealthChecks.overallStatus :=
           schema.workerHealthChecks.overallStatus d;
         schema.workerHealthChecks.healthScore :=
           schema.workerHealthChecks.healthScore d;
         schema.workerHealthChecks.createdAt := schema.workerHealthChecks.createdAt d;
         schema.workerHealthChecks.completedAt :=
           schema.workerHealthChecks.completedAt d |} in
    if existsb (hasWorkerUuid (CreateWorkerHealthCheck.workerCheckUuid p)) rows
    then (Thrown (constraint_failed "UNIQUE"), w) else
    if negb (existsb (hasUuid (CreateWorkerHealthCheck.healthCheckUuid p))
                     (healthChecks (health w)))
    then (Thrown (constraint_failed "FOREIGN KEY"), w) else
    (Returned [row],
     {| health := {| healthChecks := healthChecks (health w);
                     workerHealthChecks := rows ++ [row] |};
        Date_now := Date_now w |}).

Definition createWorkerHealthCheck (p : CreateWorkerHealthCheck.params)
  : Async World IdResponse :=
  rows <- insert_workerHealthCheck p ;;
  match first rows with
  | Some check => ret {| id := schema.workerHealthChecks.id check |}
  | None => throw (mkError "TypeError" "check is undefined")
  end.

(** [update(schema.workerHealthChecks).set(updateData).where(eq(uuid, ...))] *)
Definition set_workerHealthCheck (updateData : WorkerHealthCheckUpdate.t)
  (r : schema.workerHealthChecks.Row) : schema.workerHealthChecks.Row :=
  {| schema.workerHealthChecks.id := schema.workerHealthChecks.id r;
     schema.workerHealthChecks.workerCheckUuid :=
       schema.workerHealthChecks.workerCheckUuid r;
     schema.workerHealthChecks.healthCheckUuid :=
       schema.workerHealthChecks.healthCheckUuid r;
     schema.workerHealthChecks.workerName := schema.workerHealthChecks.workerName r;
     schema.workerHealthChecks.workerType := schema.workerHealthChecks.workerType r;
     schema.workerHealthChecks.workerUrl := schema.workerHealthChecks.workerUrl r;
     schema.workerHealthChecks.status :=
       assign (WorkerHealthCheckUpdate.status updateData)
              (schema.workerHealthChecks.status r);
     schema.workerHealthChecks.overallStatus :=
       assign (WorkerHealthCheckUpdate.overallStatus updateData)
              (schema.workerHealthChecks.overallStatus r);
     schema.workerHealthChecks.healthScore :=
       assign (WorkerHealthCheckUpdate.healthScore updateData)
              (schema.workerHealthChecks.healthScore r);
     schema.workerHealthChecks.createdAt := schema.workerHealthChecks.createdAt r;
     schema.workerHealthChecks.completedAt :=
       assign (WorkerHealthCheckUpdate.completedAt updateData)
              (schema.workerHealthChecks.completedAt r) |}.

Definition update_workerHealthChecks (updateData : WorkerHealthCheckUpdate.t)
  (cond : schema.workerHealthChecks.Row -> bool) : Async World unit :=
  fun w =>
    if no_worker_values updateData then (Thrown no_values_to_set, w) else
    (Returned tt,
     {| health :=
          {| healthChecks := healthChecks (health w);
             workerHealthChecks :=
               map (fun r => if cond r then set_workerHealthCheck updateData r else r)
                   (workerHealthChecks (health w)) |};
        Date_now := Date_now w |}).

Definition updateWorkerHealthCheck (params : UpdateWorkerHealthCheck.params)
  : Async World OkResponse :=
  let updateData :=
    {| WorkerHealthCheckUpdate.status := UpdateWorkerHealthCheck.status params;
       WorkerHealthCheckUpdate.overallStatus :=
         UpdateWorkerHealthCheck.overallStatus params;
       WorkerHealthCheckUpdate.healthScore := UpdateWorkerHealthCheck.healthScore params;
       WorkerHealthCheckUpdate.completedAt :=
         UpdateWorkerHealthCheck.completedAt params |} in
  update_workerHealthChecks updateData
    (hasWorkerUuid (UpdateWorkerHealthCheck.workerCheckUuid params)) ;;;
  ret {| ok := true |}.

(** Used by the proofs: the [updateData] object [updateWorkerHealthCheck]
    builds. *)
Definition worker_updateData_of (params : UpdateWorkerHealthCheck.params)
  : WorkerHealthCheckUpdate.t :=
  {| WorkerHealthCheckUpdate.status := UpdateWorkerHealthCheck.status params;
     WorkerHealthCheckUpdate.overallStatus :=
       UpdateWorkerHealthCheck.overallStatus params;
     WorkerHealthCheckUpdate.healthScore := UpdateWorkerHealthCheck.healthScore params;
     WorkerHealthCheckUpdate.completedAt :=
       UpdateWorkerHealthCheck.completedAt params |}.

(** *** The store states the write operations produce *)

Inductive Write : Type :=
| WCreateHealthCheck (p : CreateHealthCheck.params)
| WUpdateHealthCheck (p : UpdateHealthCheck.params)
| WCreateWorkerHealthCheck (p : CreateWorkerHealthCheck.params)
| WUpdateWorkerHealthCheck (p : UpdateWorkerHealthCheck.params).

Definition perform (op : Write) (w : World) : World :=
  match op with
  | WCreateHealthCheck p => snd (createHealthCheck p w)
  | WUpdateHealthCheck p => snd (updateHealthCheck p w)
  | WCreateWorkerHealthCheck p => snd (createWorkerHealthCheck p w)
  | WUpdateWorkerHealthCheck p => snd (updateWorkerHealthCheck p w)
  end.

(** A database is reachable when a sequence of write operations, each at
    some time, leads to it from the empty database. *)
Inductive reachable : Database -> Prop :=
| reachable_empty : reachable empty
| reachable_write (db : Database) (now : Z) (op : Write) :
    reachable db ->
    reachable (health (perform op {| health := db; Date_now := now |})).

End WithSchemaDefaults.



(** The write is a creation or an update under the run identifier [uuid],
    respectively under the check identifier [uuid]. *)
Definition writes_run (op : Write) (uuid : string) : Prop :=
  match op with
  | WCreateHealthCheck p => CreateHealthCheck.healthCheckUuid p = uuid
  | WUpdateHealthCheck p => UpdateHealthCheck.healthCheckUuid p = uuid
  | _ => False
  end.

Definition writes_result (op : Write) (uuid : string) : Prop :=
  match op with
  | WCreateWorkerHealthCheck p => CreateWorkerHealthCheck.workerCheckUuid p = uuid
  | WUpdateWorkerHealthCheck p => UpdateWorkerHealthCheck.workerCheckUuid p = uuid
  | _ => False
  end.

End HealthOps.


(** ** Sample data for the scenarios *)
Module Samples.
Import JS.

(** An issue tracker that accepts every request and counts them. *)
Definition accepting (_ : OpsSpecialist.RemediationContext) (_ : string) (n : nat)
  : Outcome unit * nat :=
  (Returned tt, S n).

(** An issue tracker whose issue creation fails. *)
Definition remediation_error : Error :=
  mkError "RemediationError" "issue creation failed".

Definition failing (_ : OpsSpecialist.RemediationContext) (_ : string) (n : nat)
  : Outcome unit * nat :=
  (Thrown remediation_error, n).

Definition followup (orderId type : string) (impact : Z) (path : option string)
  : OpsSpecialist.Followup :=
  {| OpsSpecialist.fu_order_id := orderId;
     OpsSpecialist.fu_type := type;
     OpsSpecialist.fu_impact_level := impact;
     OpsSpecialist.fu_file_path := path;
     OpsSpecialist.fu_message := EmptyString |}.

(** Order ORD-1 has two blocked followups and one advisory, ORD-2 has one
    advisory, ORD-3 has nothing. *)
Definition orders : OpsSpecialist.D1 :=
  {| OpsSpecialist.followups :=
       [ followup "ORD-1" "blocked" 3 (Some "src/b.ts");
         followup "ORD-2" "advisory" 1 (Some "src/c.ts");
         followup "ORD-1" "advisory" 1 (Some "docs/readme.md");
         followup "ORD-1" "blocked" 2 (Some "src/a.ts") ];
     OpsSpecialist.operation_logs :=
       [ {| OpsSpecialist.ol_order_id := "ORD-1"; OpsSpecialist.ol_action := "build" |};
         {| OpsSpecialist.ol_order_id := "ORD-2"; OpsSpecialist.ol_action := "deploy" |} ] |}.

Definition ops_world : OpsSpecialist.World nat :=
  {| OpsSpecialist.DB := orders;
     OpsSpecialist.clock_iso := "2025-01-01T00:00:00.000Z";
     OpsSpecialist.tracker := 0%nat;
     OpsSpecialist.dispatched := [] |}.

(** A schema without column defaults: an insert leaves the columns it does
    not provide [NULL]. *)
Definition healthChecks_null (_ : Z) : schema.healthChecks.Row :=
  {| schema.healthChecks.id := 0;
     schema.healthChecks.healthCheckUuid := EmptyString;
     schema.healthChecks.triggerType := EmptyString;
     schema.healthChecks.triggerSource := None;
     schema.healthChecks.status := None;
     schema.healthChecks.totalWorkers := None;
     schema.healthChecks.completedWorkers := None;
     schema.healthChecks.passedWorkers := None;
     schema.healthChecks.failedWorkers := None;
     schema.healthChecks.overallHealthScore := None;
     schema.healthChecks.aiAnalysis := None;
     schema.healthChecks.aiRecommendations := None;
     schema.healthChecks.startedAt := None;
     schema.healthChecks.completedAt := None;
     schema.healthChecks.timeoutAt := None;
     schema.healthChecks.createdAt := None |}.

Definition workerHealthChecks_null (_ : Z) : schema.workerHealthChecks.Row :=
  {| schema.workerHealthChecks.id := 0;
     schema.workerHealthChecks.workerCheckUuid := EmptyString;
     schema.workerHealthChecks.healthCheckUuid := EmptyString;
     schema.workerHealthChecks.workerName := EmptyString;
     schema.workerHealthChecks.workerType := EmptyString;
     schema.workerHealthChecks.workerUrl := None;
     schema.workerHealthChecks.status := None;
     schema.workerHealthChecks.overallStatus := None;
     schema.workerHealthChecks.healthScore := None;
     schema.workerHealthChecks.createdAt := None;
     schema.workerHealthChecks.completedAt := None |}.

(** A schema that stamps the time of the insert and zeroes the counters. *)
Definition healthChecks_stamped (now : Z) : schema.healthChecks.Row :=
  {| schema.healthChecks.id := 0;
     schema.healthChecks.healthCheckUuid := EmptyString;
     schema.healthChecks.triggerType := EmptyString;
     schema.healthChecks.triggerSource := None;
     schema.healthChecks.status := Some "running";
     schema.healthChecks.totalWorkers := Some 0;
     schema.healthChecks.completedWorkers := Some 0;
     schema.healthChecks.passedWorkers := Some 0;
     schema.healthChecks.failedWorkers := Some 0;
     schema.healthChecks.overallHealthScore := None;
     schema.healthChecks.aiAnalysis := None;
     schema.healthChecks.aiRecommendations := None;
     schema.healthChecks.startedAt := Some now;
     schema.healthChecks.completedAt := None;
     schema.healthChecks.timeoutAt := None;
     schema.healthChecks.createdAt := Some now |}.

Definition workerHealthChecks_stamped (now : Z) : schema.workerHealthChecks.Row :=
  {| schema.workerHealthChecks.id := 0;
     schema.workerHealthChecks.workerCheckUuid := EmptyString;
     schema.workerHealthChecks.healthCheckUuid := EmptyString;
     schema.workerHealthChecks.workerName := EmptyString;
     schema.workerHealthChecks.workerType := EmptyString;
     schema.workerHealthChecks.workerUrl := None;
     schema.workerHealthChecks.status := Some "pending";
     schema.workerHealthChecks.overallStatus := None;
     schema.workerHealthChecks.healthScore := None;
     schema.workerHealthChecks.createdAt := Some now;
     schema.workerHealthChecks.completedAt := None |}.

Definition new_run (uuid : string) : HealthOps.CreateHealthCheck.params :=
  {| HealthOps.CreateHealthCheck.healthCheckUuid := uuid;
     HealthOps.CreateHealthCheck.triggerType := "manual";
     HealthOps.CreateHealthCheck.triggerSource := None;
     HealthOps.CreateHealthCheck.totalWorkers := Some 3;
     HealthOps.CreateHealthCheck.timeoutAt := None |}.

Definition new_result (uuid run : string) : HealthOps.CreateWorkerHealthCheck.params :=
  {| HealthOps.CreateWorkerHealthCheck.workerCheckUuid := uuid;
     HealthOps.CreateWorkerHealthCheck.healthCheckUuid := run;
     HealthOps.CreateWorkerHealthCheck.workerName := "ui-factory";
     HealthOps.CreateWorkerHealthCheck.workerType := "factory";
     HealthOps.CreateWorkerHealthCheck.workerUrl := None |}.

(** An update that only supplies a score. *)
Definition score_run (uuid : string) (score : Q) : HealthOps.UpdateHealthCheck.params :=
  {| HealthOps.UpdateHealthCheck.healthCheckUuid := uuid;
     HealthOps.UpdateHealthCheck.status := None;
     HealthOps.UpdateHealthCheck.completedWorkers := None;
     HealthOps.UpdateHealthCheck.passedWorkers := None;
     HealthOps.UpdateHealthCheck.failedWorkers := None;
     HealthOps.UpdateHealthCheck.overallHealthScore := Some score;
     HealthOps.UpdateHealthCheck.aiAnalysis := None;
     HealthOps.UpdateHealthCheck.aiRecommendations := None;
     HealthOps.UpdateHealthCheck.completedAt := None |}.

(** An update that names a run and supplies nothing. *)
Definition touch_run (uuid : string) : HealthOps.UpdateHealthCheck.params :=
  {| HealthOps.UpdateHealthCheck.healthCheckUuid := uuid;
     HealthOps.UpdateHealthCheck.status := None;
     HealthOps.UpdateHealthCheck.completedWorkers := None;
     HealthOps.UpdateHealthCheck.passedWorkers := None;
     HealthOps.UpdateHealthCheck.failedWorkers := None;
     HealthOps.UpdateHealthCheck.overallHealthScore := None;
     HealthOps.UpdateHealthCheck.aiAnalysis := None;
     HealthOps.UpdateHealthCheck.aiRecommendations := None;
     HealthOps.UpdateHealthCheck.completedAt := None |}.

Definition score_result (uuid : string) (score : Q)
  : HealthOps.UpdateWorkerHealthCheck.params :=
  {| HealthOps.UpdateWorkerHealthCheck.workerCheckUuid := uuid;
     HealthOps.UpdateWorkerHealthCheck.status := None;
     HealthOps.UpdateWorkerHealthCheck.overallStatus := None;
     HealthOps.UpdateWorkerHealthCheck.healthScore := Some score;
     HealthOps.UpdateWorkerHealthCheck.completedAt := None |}.

(** An update that names a result and supplies nothing. *)
Definition touch_result (uuid : string) : HealthOps.UpdateWorkerHealthCheck.params :=
  {| HealthOps.UpdateWorkerHealthCheck.workerCheckUuid := uuid;
     HealthOps.UpdateWorkerHealthCheck.status := None;
     HealthOps.UpdateWorkerHealthCheck.overallStatus := None;
     HealthOps.UpdateWorkerHealthCheck.healthScore := None;
     HealthOps.UpdateWorkerHealthCheck.completedAt := None |}.

Definition at_time (now : Z) (db : HealthOps.Database) : HealthOps.World :=
  {| HealthOps.health := db; HealthOps.Date_now := now |}.

(** The database after three runs were created at times 10, 20 and 30. *)
Definition three_runs : HealthOps.Database :=
  let create uuid now db :=
    HealthOps.health
      (snd (HealthOps.createHealthCheck healthChecks_stamped (new_run uuid)
              (at_time now db))) in
  create "run-3" 30 (create "run-2" 20 (create "run-1" 10 HealthOps.empty)).

End Samples.

(** ** apps/factories/ui-factory/worker/agents/UiFactoryAgent.ts *)
Module UiFactoryAgent.
Import JS.

#[local] Set Warnings "-register-all".

(** A JavaScript value of type [unknown], as far as the agent inspects it.
    An object is the list of its properties; a property is read from the
    first entry with its key. *)
Inductive Value : Type :=
| VUndefined
| VNull
| VBool (b : bool)
| VNumber (n : Q)
| VString (s : string)
| VArray (items : list Value)
| VObject (props : list (string * Value)).

(** [typeof v === "object"]: objects, arrays and [null]. *)
Definition typeof_object (v : Value) : bool :=
  match v with
  | VNull | VArray _ | VObject _ => true
  | _ => false
  end.

(** Truthiness of a value. *)
Definition truthy (v : Value) : bool :=
  match v with
  | VUndefined | VNull => false
  | VBool b => b
  | VNumber n => negb (Qnum n =? 0)
  | VString s => negb (s =? EmptyString)%string
  | VArray _ | VObject _ => true
  end.

Fixpoint assoc (key : string) (props : list (string * Value)) : Value :=
  match props with
  | [] => VUndefined
  | (k, v) :: rest => if (k =? key)%string then v else assoc key rest
  end.

(** [(v as Record<string, unknown>).key] on a value that is not nullish: a
    value that is not an object with that key gives [undefined]. *)
Definition get (v : Value) (key : string) : Value :=
  match v with
  | VObject props => assoc key props
  | _ => VUndefined
  end.

(** A thrown value: an [Error] with its message, or anything else. *)
Inductive Exception : Type :=
| ThrownError (message : string)
| ThrownValue (v : Value).

Inductive Settled (A : Type) : Type :=
| Fulfilled (a : A)
| Rejected (e : Exception).
Arguments Fulfilled {A} a.
Arguments Rejected {A} e.

Definition FALLBACK_MODEL : string := "@cf/meta/llama-3.3-70b-instruct-fp8-fast".

Record UITaskInput : Type := {
  task : string;
  description : string;
  requirements : option (list string)
}.

Record UIResult : Type := {
  status : string;
  result : string;
  components : option (list string);
  error : option string
}.

(** [UIResultSchema.safeParse]: the zod schema declared in the source is an
    object with [status] one of [complete] and [error], [result] a string,
    [components] an optional array of strings and [error] an optional string;
    other keys are dropped.  [None] stands for [success: false]. *)
Definition as_string (v : Value) : option string :=
  match v with
  | VString s => Some s
  | _ => None
  end.

Definition as_enum (values : list string) (v : Value) : option string :=
  match v with
  | VString s => if existsb (String.eqb s) values then Some s else None
  | _ => None
  end.

Fixpoint as_strings (items : list Value) : option (list string) :=
  match items with
  | [] => Some []
  | v :: rest =>
      match as_string v, as_strings rest with
      | Some s, Some l => Some (s :: l)
      | _, _ => None
      end
  end.

Definition as_string_array (v : Value) : option (list string) :=
  match v with
  | VArray items => as_strings items
  | _ => None
  end.

Definition optional {A : Type} (parse : Value -> option A) (v : Value)
  : option (option A) :=
  match v with
  | VUndefined => Some None
  | _ => option_map Some (parse v)
  end.

Definition UIResultSchema_safeParse (v : Value) : option UIResult :=
  match v with
  | VObject props =>
      match as_enum ["complete"; "error"] (assoc "status" props),
            as_string (assoc "result" props),
            optional as_string_array (assoc "components" props),
            optional as_string (assoc "error" props) with
      | Some s, Some r, Some c, Some e =>
          Some {| status := s; result := r; components := c; error := e |}
      | _, _, _, _ => None
      end
  | _ => None
  end.

(** The object a result is when it is written out as a value. *)
Definition UIResult_value (r : UIResult) : Value :=
  VObject
    ([("status", VString (status r)); ("result", VString (result r))]
     ++ match components r with
        | Some c => [("components", VArray (map VString c))]
        | None => []
        end
     ++ match error r with
        | Some e => [("error", VString e)]
        | None => []
        end)%list.

Definition newline : string := String "010" EmptyString.

(** Backslash and double quote, as the template literal spells a quoted
    key. *)
Definition quoted (key : string) : string :=
  let q := String "092" (String "034" EmptyString) in
  q ++ key ++ q.

Definition buildGenerationPrompt (input : UITaskInput) : string :=
  let requirements :=
    match requirements input with
    | Some l =>
        if (0 <? List.length l)%nat
        then "Additional requirements: " ++ join ", " l ++ "."
        else EmptyString
    | None => EmptyString
    end in
  "You are a UI Factory Agent specialized in generating production-ready React (TypeScript) components using Tailwind CSS."
  ++ newline ++ newline
  ++ "Return a JSON object with keys: " ++ quoted "status" ++ ", "
  ++ quoted "result" ++ ", " ++ quoted "components" ++ ", and optionally "
  ++ quoted "error" ++ "." ++ newline
  ++ "- status must be " ++ quoted "complete"
  ++ " when code generation succeeds or " ++ quoted "error"
  ++ " if you encounter a blocking issue." ++ newline
  ++ "- result must contain the full component implementation (React + Tailwind CSS)."
  ++ newline
  ++ "- components should list the component names declared in the code."
  ++ newline
  ++ "- error should only be present when status is " ++ quoted "error" ++ "."
  ++ newline ++ newline
  ++ "Task: " ++ task input ++ newline
  ++ "Description: " ++ description input ++ newline
  ++ requirements ++ newline ++ newline
  ++ "Ensure the returned value is valid JSON, without additional commentary.".

(** The request object handed to [aiBinding.run]. *)
Record AiRequest : Type := {
  prompt : string;
  temperature : Q;
  max_output_tokens : Z
}.

(** The AI binding: what [run] settles to for a model and a request. *)
Record Ai : Type := {
  run : string -> AiRequest -> Settled Value
}.

Record UIFactoryEnv : Type := {
  AI : option Ai;
  DEFAULT_MODEL : option string
}.

(** One call of [aiBinding.run]: the model name and the request. *)
Definition AiCall : Type := (string * AiRequest)%type.

Section WithJson.
(** [JSON.parse], [None] standing for a thrown [SyntaxError], and the
    message zod attaches to a failed validation: both belong to the
    platform, not to the sources. *)
Variable JSON_parse : string -> option Value.
Variable zod_message : Value -> string.

Definition safeJsonParse (payload : string) : Settled Value :=
  match JSON_parse payload with
  | Some v => Fulfilled v
  | None => Rejected (ThrownError "Failed to parse AI response as JSON")
  end.

Definition no_payload : Exception :=
  ThrownError "AI response did not include a parsable JSON payload".

Definition parseAiStructuredResponse (aiResult : Value) : Settled Value :=
  match aiResult with
  | VString s => safeJsonParse s
  | _ =>
      if truthy aiResult && typeof_object aiResult then
        match get aiResult "response" with
        | VString response => safeJsonParse response
        | _ =>
            match get aiResult "results" with
            | VArray results =>
                let first := nth 0 results VUndefined in
                if truthy first then
                  match get first "response" with
                  | VString response => safeJsonParse response
                  | _ => Rejected no_payload
                  end
                else Rejected no_payload
            | _ => Rejected no_payload
            end
        end
      else Rejected no_payload
  end.

(** The body of the [try] block of [processTask], with the calls of the AI
    binding it makes. *)
Definition attempt (env : option UIFactoryEnv) (prompt : string)
  : Settled UIResult * list AiCall :=
  let envBinding := env in
  let aiBinding :=
    match envBinding with
    | Some e => AI e
    | None => None
    end in
  match aiBinding with
  | None =>
      (Rejected (ThrownError "AI binding is not available for UIFactoryAgent"), [])
  | Some ai =>
      let modelName :=
        match envBinding with
        | Some e => DEFAULT_MODEL e
        | None => None
        end ?? FALLBACK_MODEL in
      let request :=
        {| prompt := prompt; temperature := 2 # 10; max_output_tokens := 1200 |} in
      (match run ai modelName request with
       | Rejected e => Rejected e
       | Fulfilled aiResult =>
           match parseAiStructuredResponse aiResult with
           | Rejected e => Rejected e
           | Fulfilled structured =>
               match UIResultSchema_safeParse structured with
               | None =>
                   Rejected (ThrownError
                     ("AI response failed validation: " ++ zod_message structured))
               | Some data => Fulfilled data
               end
           end
       end,
       [(modelName, request)])
  end.

(** The model name and the request of the call [processTask] makes. *)
Definition model_of (env : UIFactoryEnv) : string :=
  DEFAULT_MODEL env ?? FALLBACK_MODEL.

Definition request_of (input : UITaskInput) : AiRequest :=
  {| prompt := buildGenerationPrompt input;
     temperature := 2 # 10;
     max_output_tokens := 1200 |}.

(** The result the [catch] block of [processTask] builds for a message. *)
Definition error_result (message : string) : UIResult :=
  {| status := "error";
     result := EmptyString;
     components := None;
     error := Some message |}.

(** [error instanceof Error ? error.message : "Unknown error occurred"] *)
Definition caught_message (e : Exception) : string :=
  match e with
  | ThrownError message => message
  | ThrownValue _ => "Unknown error occurred"
  end.

Definition processTask (env : option UIFactoryEnv) (input : UITaskInput)
  : Settled UIResult * list AiCall :=
  let prompt := buildGenerationPrompt input in
  match attempt env prompt with
  | (Fulfilled data, calls) => (Fulfilled data, calls)
  | (Rejected e, calls) =>
      (Fulfilled
         {| status := "error";
            result := EmptyString;
            components := None;
            error := Some match e with
                          | ThrownError message => message
                          | ThrownValue _ => "Unknown error occurred"
                          end |},
       calls)
  end.

End WithJson.

End UiFactoryAgent.

(** ** More sample data *)
Module MoreSamples.

(** The store with three runs after two results were created for run-2 at
    times 31 and 32. *)
Definition runs_with_results : HealthOps.Database :=
  let create uuid now db :=
    HealthOps.health
      (snd (HealthOps.createWorkerHealthCheck Samples.workerHealthChecks_stamped
              (Samples.new_result uuid "run-2") (Samples.at_time now db))) in
  create "chk-2" 32 (create "chk-1" 31 Samples.three_runs).

Definition sample_world : HealthOps.World :=
  Samples.at_time 40 runs_with_results.

(** An update that completes a result with a score. *)
Definition complete_result (uuid : string) (score : Q) (now : Z)
  : HealthOps.UpdateWorkerHealthCheck.params :=
  {| HealthOps.UpdateWorkerHealthCheck.workerCheckUuid := uuid;
     HealthOps.UpdateWorkerHealthCheck.status := Some "completed";
     HealthOps.UpdateWorkerHealthCheck.overallStatus := Some "healthy";
     HealthOps.UpdateWorkerHealthCheck.healthScore := Some score;
     HealthOps.UpdateWorkerHealthCheck.completedAt := Some now |}.

End MoreSamples.

(** ** Sample data for the UI factory agent *)
Module UiSamples.
Import UiFactoryAgent.

Definition login_form : UIResult :=
  {| status := "complete";
     result := "<form/>";
     components := Some ["LoginForm"];
     error := None |}.

(** The JSON text of [login_form]. *)
Definition login_json : string :=
  let dq := String "034" EmptyString in
  "{" ++ dq ++ "status" ++ dq ++ ":" ++ dq ++ "complete" ++ dq ++ ","
  ++ dq ++ "result" ++ dq ++ ":" ++ dq ++ "<form/>" ++ dq ++ ","
  ++ dq ++ "components" ++ dq ++ ":[" ++ dq ++ "LoginForm" ++ dq ++ "]}".

(** A [JSON.parse] that knows two texts: the one above and the empty
    object. *)
Definition JSON_parse (text : string) : option Value :=
  if (text =? login_json)%string then Some (UIResult_value login_form)
  else if (text =? "{}")%string then Some (VObject [])
  else None.

Definition zod_message (_ : Value) : string := "Required".

(** An AI binding that always answers [v], and one whose call fails. *)
Definition answering (v : Value) : Ai :=
  {| run := fun _ _ => Fulfilled v |}.

Definition failing : Ai :=
  {| run := fun _ _ => Rejected (ThrownError "upstream timeout") |}.

Definition env_with (ai : Ai) : UIFactoryEnv :=
  {| AI := Some ai; DEFAULT_MODEL := None |}.

Definition login_task : UITaskInput :=
  {| task := "create_login_form";
     description := "A login form with email and password";
     requirements := Some ["dark mode"; "accessible labels"] |}.

End UiSamples.

(* ===================================================================== *)
(** * Part II: properties *)
(* ===================================================================== *)

(** ** Facts about async computations *)
Module JSFacts.
Import JS.

Lemma bind_returned {W A B : Type} (m : Async W A) (k : A -> Async W B)
  (w w' : W) (a : A) :
  m w = (Returned a, w') -> bind m k w = k a w'.
Proof. intros E. unfold bind. now rewrite E. Qed.

Lemma bind_thrown {W A B : Type} (m : Async W A) (k : A -> Async W B)
  (w w' : W) (e : Error) :
  m w = (Thrown e, w') -> bind m k w = (Thrown e, w').
Proof. intros E. unfold bind. now rewrite E. Qed.

Lemma bind_gets {W A B : Type} (f : W -> A) (k : A -> Async W B) (w : W) :
  bind (gets f) k w = k (f w) w.
Proof. reflexivity. Qed.

End JSFacts.

(** ** Facts about the relational operations *)
Module SqlFacts.

Section OrderBy.
Context {A : Type}.
Variable leb : A -> A -> bool.
Hypothesis leb_total : forall a b, leb a b = false -> leb b a = true.
Hypothesis leb_trans :
  forall a b c, leb a b = true -> leb b c = true -> leb a c = true.

Lemma insert_perm (x : A) (l : list A) :
  Permutation (x :: l) (Sql.insert leb x l).
Proof.
  induction l as [|y t IH]; simpl.
  - apply Permutation_refl.
  - destruct (leb x y).
    + apply Permutation_refl.
    + eapply perm_trans; [apply perm_swap|]. now apply perm_skip.
Qed.

Lemma order_by_perm (l : list A) : Permutation l (Sql.order_by leb l).
Proof.
  induction l as [|x t IH]; simpl.
  - constructor.
  - eapply perm_trans; [apply perm_skip, IH|]. apply insert_perm.
Qed.

Lemma order_by_In (l : list A) (x : A) :
  In x (Sql.order_by leb l) <-> In x l.
Proof.
  split; apply Permutation_in;
    [apply Permutation_sym|]; apply order_by_perm.
Qed.

Lemma order_by_length (l : list A) :
  List.length (Sql.order_by leb l) = List.length l.
Proof. symmetry. apply Permutation_length, order_by_perm. Qed.

Lemma insert_sorted (x : A) (l : list A) :
  StronglySorted (fun a b => leb a b = true) l ->
  StronglySorted (fun a b => leb a b = true) (Sql.insert leb x l).
Proof.
  induction 1 as [|y t Ht IH Hy]; simpl.
  - repeat constructor.
  - destruct (leb x y) eqn:E.
    + constructor; [now constructor|].
      constructor; [exact E|].
      eapply Forall_impl; [|exact Hy].
      intros z Hz. now apply (leb_trans x y z).
    + constructor; [exact IH|].
      apply (Permutation_Forall (insert_perm x t)).
      constructor; [now apply leb_total | exact Hy].
Qed.

Lemma order_by_sorted (l : list A) :
  StronglySorted (fun a b => leb a b = true) (Sql.order_by leb l).
Proof.
  induction l as [|x t IH]; simpl.
  - constructor.
  - now apply insert_sorted.
Qed.

End OrderBy.

Lemma null_leb_total (a b : option Z) :
  Sql.null_leb a b = false -> Sql.null_leb b a = true.
Proof.
  destruct a as [x|], b as [y|]; simpl; try congruence.
  rewrite Z.leb_gt, Z.leb_le. lia.
Qed.

Lemma null_leb_trans (a b c : option Z) :
  Sql.null_leb a b = true -> Sql.null_leb b c = true -> Sql.null_leb a c = true.
Proof.
  destruct a as [x|], b as [y|], c as [z|]; simpl; try congruence.
  rewrite !Z.leb_le. lia.
Qed.

Lemma order_by_asc_sorted {A : Type} (key : A -> option Z) (l : list A) :
  StronglySorted (fun a b => Sql.null_leb (key a) (key b) = true)
    (Sql.order_by (Sql.asc key) l).
Proof.
  apply (order_by_sorted (Sql.asc key)); unfold Sql.asc; intros.
  - now apply null_leb_total.
  - eapply null_leb_trans; eauto.
Qed.

Lemma order_by_desc_sorted {A : Type} (key : A -> option Z) (l : list A) :
  StronglySorted (fun a b => Sql.null_leb (key b) (key a) = true)
    (Sql.order_by (Sql.desc key) l).
Proof.
  apply (order_by_sorted (Sql.desc key)); unfold Sql.desc; intros.
  - now apply null_leb_total.
  - eapply null_leb_trans; eauto.
Qed.

(** Sortedness survives taking a prefix, dropping a prefix and mapping. *)
Lemma sorted_firstn {A : Type} (R : A -> A -> Prop) (n : nat) (l : list A) :
  StronglySorted R l -> StronglySorted R (firstn n l).
Proof.
  intros H. revert n. induction H as [|x t Ht IH Hx]; intros [|n]; simpl;
    try constructor.
  - apply IH.
  - rewrite Forall_forall in *. intros y Hy. apply Hx.
    eapply In_nth_error in Hy. destruct Hy as [i Hi].
    apply nth_error_In with (n := i).
    rewrite nth_error_firstn in Hi.
    destruct (i <? n)%nat; [exact Hi | discriminate].
Qed.

Lemma sorted_skipn {A : Type} (R : A -> A -> Prop) (n : nat) (l : list A) :
  StronglySorted R l -> StronglySorted R (skipn n l).
Proof.
  intros H. revert n. induction H as [|x t Ht IH Hx]; intros [|n]; simpl;
    try constructor; auto.
Qed.

Lemma sorted_map {A B : Type} (R : A -> A -> Prop) (S : B -> B -> Prop)
  (f : A -> B) (l : list A) :
  (forall a b, In a l -> In b l -> R a b -> S (f a) (f b)) ->
  StronglySorted R l -> StronglySorted S (map f l).
Proof.
  intros HRS H. induction H as [|x t Ht IH Hx]; simpl; constructor.
  - apply IH. intros a b Ha Hb. apply HRS; now right.
  - rewrite Forall_forall in *. intros y Hy.
    apply in_map_iff in Hy. destruct Hy as [z [<- Hz]].
    apply HRS; [now left | now right | now apply Hx].
Qed.

Lemma sorted_weaken {A : Type} (R S : A -> A -> Prop) (l : list A) :
  (forall a b, R a b -> S a b) ->
  StronglySorted R l -> StronglySorted S l.
Proof.
  intros HRS H. induction H as [|x t Ht IH Hx]; constructor; trivial.
  eapply Forall_impl; [|exact Hx]. intros y. apply HRS.
Qed.

Lemma limit_sorted {A : Type} (R : A -> A -> Prop) (n : Z) (l : list A) :
  StronglySorted R l -> StronglySorted R (Sql.limit n l).
Proof.
  intros H. unfold Sql.limit. destruct (n <? 0); [exact H|].
  now apply sorted_firstn.
Qed.

Lemma offset_sorted {A : Type} (R : A -> A -> Prop) (n : Z) (l : list A) :
  StronglySorted R l -> StronglySorted R (Sql.offset n l).
Proof. apply sorted_skipn. Qed.

Lemma limit_In {A : Type} (n : Z) (l : list A) (x : A) :
  In x (Sql.limit n l) -> In x l.
Proof.
  unfold Sql.limit. destruct (n <? 0); [trivial|].
  rewrite <- (firstn_skipn (Z.to_nat n) l) at 2.
  intros H. apply in_or_app. now left.
Qed.

Lemma offset_In {A : Type} (n : Z) (l : list A) (x : A) :
  In x (Sql.offset n l) -> In x l.
Proof.
  unfold Sql.offset.
  rewrite <- (firstn_skipn (Z.to_nat n) l) at 2.
  intros H. apply in_or_app. now right.
Qed.

Lemma limit_length {A : Type} (n : Z) (l : list A) :
  0 <= n -> Z.of_nat (List.length (Sql.limit n l)) <= n.
Proof.
  intros Hn. unfold Sql.limit.
  destruct (n <? 0) eqn:E; [apply Z.ltb_lt in E; lia|].
  pose proof (firstn_le_length (Z.to_nat n) l) as H1.
  rewrite length_firstn. lia.
Qed.

Lemma limit_length_le {A : Type} (n : Z) (l : list A) :
  (List.length (Sql.limit n l) <= List.length l)%nat.
Proof.
  unfold Sql.limit. destruct (n <? 0); [lia|].
  rewrite length_firstn. lia.
Qed.

Lemma offset_length_le {A : Type} (n : Z) (l : list A) :
  (List.length (Sql.offset n l) <= List.length l)%nat.
Proof. unfold Sql.offset. rewrite length_skipn. lia. Qed.

Lemma limit_one_first {A : Type} (l : list A) :
  nth_error (Sql.limit 1 l) 0 = nth_error l 0.
Proof. now destruct l. Qed.

End SqlFacts.

(** ** The ops specialist *)
Module OpsSpecialistSpec.
Import JS OpsSpecialist.

Lemma filter_perm {A : Type} (f : A -> bool) (l l' : list A) :
  Permutation l l' -> Permutation (filter f l) (filter f l').
Proof.
  induction 1 as [|x l l' _ IH|x y l|l l' l'' _ IH1 _ IH2]; simpl.
  - constructor.
  - destruct (f x); [now constructor | exact IH].
  - destruct (f x), (f y); try apply Permutation_refl. apply perm_swap.
  - now apply perm_trans with (filter f l').
Qed.

Section WithTracker.
Variable Tracker : Type.
Variable tracker_create :
  RemediationContext -> string -> Tracker -> Outcome unit * Tracker.

Lemma generateDeliveryReport_returns (w : World Tracker) (orderId : string) :
  generateDeliveryReport Tracker orderId w = (Returned (report_of w orderId), w).
Proof. reflexivity. Qed.

Lemma report_followups_In (w : World Tracker) (orderId : string) (f : Followup) :
  In f (report_followups (report_of w orderId)) <->
  In f (followups (DB w)) /\ fu_order_id f = orderId.
Proof.
  unfold report_of; simpl.
  rewrite SqlFacts.order_by_In, filter_In. unfold of_order.
  now rewrite String.eqb_eq.
Qed.

Lemma report_blocked_perm (w : World Tracker) (orderId : string) :
  Permutation (blockers (DB w) orderId)
    (filter is_blocked (report_followups (report_of w orderId))).
Proof. apply filter_perm, SqlFacts.order_by_perm. Qed.

Lemma report_blocked_nonempty (w : World Tracker) (orderId : string) :
  has_blocked (DB w) orderId <->
  filter is_blocked (report_followups (report_of w orderId)) <> [].
Proof.
  split.
  - intros (f & Hin & Ho & Ht) E.
    assert (In f (filter is_blocked (report_followups (report_of w orderId)))) as H.
    { apply filter_In. split.
      - now apply report_followups_In.
      - unfold is_blocked. now apply String.eqb_eq. }
    rewrite E in H. exact H.
  - destruct (filter is_blocked (report_followups (report_of w orderId)))
      as [|f t] eqn:E; [congruence|]. intros _.
    assert (In f (filter is_blocked (report_followups (report_of w orderId)))) as H
      by (rewrite E; now left).
    apply filter_In in H. destruct H as [H1 H2].
    apply report_followups_In in H1. destruct H1 as [H1 H3].
    exists f. repeat split; trivial. now apply String.eqb_eq.
Qed.

(** [finalQA] when nothing is blocked: no call, verdict [passed]. *)
Lemma finalQA_unblocked (w : World Tracker) (orderId : string) :
  filter is_blocked (report_followups (report_of w orderId)) = [] ->
  finalQA Tracker tracker_create orderId w =
    (Returned {| report := report_of w orderId; status := "passed" |}, w).
Proof.
  intros E. unfold finalQA.
  rewrite (JSFacts.bind_returned _ _ _ _ _ (generateDeliveryReport_returns w orderId)).
  cbv zeta. rewrite E. reflexivity.
Qed.

(** [finalQA] when something is blocked: one call, whose outcome decides
    between the verdict [failed] and the propagation of the failure. *)
Lemma finalQA_blocked (w : World Tracker) (orderId : string)
  (first : Followup) (rest : list Followup) :
  filter is_blocked (report_followups (report_of w orderId)) = first :: rest ->
  let call := qa_call orderId first (S (List.length rest)) in
  let res := tracker_create (fst call) (snd call) (tracker w) in
  let w' := {| DB := DB w; clock_iso := clock_iso w; tracker := snd res;
               dispatched := (dispatched w ++ [call])%list |} in
  finalQA Tracker tracker_create orderId w =
    match fst res with
    | Returned _ =>
        (Returned {| report := report_of w orderId; status := "failed" |}, w')
    | Thrown e => (Thrown e, w')
    end.
Proof.
  intros E. unfold finalQA.
  rewrite (JSFacts.bind_returned _ _ _ _ _ (generateDeliveryReport_returns w orderId)).
  cbv zeta. rewrite E. simpl List.length. simpl nth_error.
  unfold bind, createIssue, qa_call. simpl.
  destruct (tracker_create _ _ (tracker w)) as [[u|e] t']; reflexivity.
Qed.

(** C7. For every order, the followups of the delivery report are sorted by
    ascending impact level (lowest impact first), they are exactly the
    followups stored for the order, the operations are the log entries stored
    for the order, and the two counts of the summary are the lengths of the
    two lists of the report.  Building the report leaves the world as it
    was. *)
Theorem generateDeliveryReport_sorted_and_counted
  (w : World Tracker) (orderId : string) :
  exists rep,
    generateDeliveryReport Tracker orderId w = (Returned rep, w) /\
    StronglySorted (fun a b => fu_impact_level a <= fu_impact_level b)
      (report_followups rep) /\
    Permutation (filter (of_order orderId) (followups (DB w)))
      (report_followups rep) /\
    operations rep =
      filter (fun o => (ol_order_id o =? orderId)%string) (operation_logs (DB w)) /\
    issues (summary rep) = List.length (report_followups rep) /\
    ops_count (summary rep) = List.length (operations rep).
Proof.
  exists (report_of w orderId). split; [reflexivity|].
  split; [|split; [|repeat split]].
  - unfold report_of; simpl.
    eapply SqlFacts.sorted_weaken.
    2: apply (SqlFacts.order_by_asc_sorted (fun f => Some (fu_impact_level f))).
    intros a b H. simpl in H. now apply Z.leb_le.
  - apply SqlFacts.order_by_perm.
Qed.

(** C5. For every non-empty list of conflicting files, a conflict-resolution
    call dispatches exactly one remediation issue: its error code is
    [merge_conflict] and its file path is the first file of the list. *)
Theorem resolveConflict_dispatches_one_issue
  (w : World Tracker) (repo branch : string) (conflictFiles : list string) :
  conflictFiles <> [] ->
  exists first call,
    nth_error conflictFiles 0 = Some first /\
    dispatched (snd (resolveConflict Tracker tracker_create repo branch conflictFiles w))
      = (dispatched w ++ [call])%list /\
    ctx_error_code (fst call) = "merge_conflict" /\
    ctx_file_path (fst call) = first.
Proof.
  destruct conflictFiles as [|first rest]; [congruence|]. intros _.
  unfold resolveConflict, createIssue.
  match goal with
  | |- context [tracker_create ?c ?n (tracker w)] =>
      exists first, (c, n); destruct (tracker_create c n (tracker w)) as [r t']
  end.
  repeat split.
Qed.

(** C1 (amended). For every order: a verdict returned by [finalQA] is
    [failed] exactly when a followup of type [blocked] exists for the order,
    and [passed] exactly when none does.  With no blocked followup [finalQA]
    returns [passed] without dispatching anything.  With a blocked followup it
    dispatches one issue whose file path is that of the first blocked item of
    the report (or [unknown] when that item has none) and whose message
    carries the number of blocked followups of the order; it returns [failed]
    when that dispatch returns, and returns no verdict, failing with the
    error of the dispatch, when the dispatch fails. *)
Theorem finalQA_verdict (w : World Tracker) (orderId : string) :
  let out := finalQA Tracker tracker_create orderId w in
  (forall r, fst out = Returned r ->
     (status r = "failed" <-> has_blocked (DB w) orderId) /\
     (status r = "passed" <-> ~ has_blocked (DB w) orderId)) /\
  (~ has_blocked (DB w) orderId ->
     exists r, out = (Returned r, w) /\ status r = "passed") /\
  (has_blocked (DB w) orderId ->
     exists rep first,
       generateDeliveryReport Tracker orderId w = (Returned rep, w) /\
       nth_error (filter is_blocked (report_followups rep)) 0 = Some first /\
       let call :=
         ({| ctx_order_id := Some orderId;
             ctx_file_path := fu_file_path first ?? "unknown";
             ctx_error_code := "final_qa_blocked";
             ctx_message :=
               number_to_string (List.length (blockers (DB w) orderId))
               ++ " unresolved blockers." |},
          "Final QA failed — unresolved followups remain.") in
       dispatched (snd out) = (dispatched w ++ [call])%list /\
       (fst (tracker_create (fst call) (snd call) (tracker w)) = Returned tt ->
        fst out = Returned {| report := rep; status := "failed" |}) /\
       (forall e,
          fst (tracker_create (fst call) (snd call) (tracker w)) = Thrown e ->
          fst out = Thrown e)).
Proof.
  cbv zeta.
  pose proof (report_blocked_nonempty w orderId) as Hne.
  pose proof (report_blocked_perm w orderId) as Hperm.
  destruct (filter is_blocked (report_followups (report_of w orderId)))
    as [|first rest] eqn:E.
  - assert (~ has_blocked (DB w) orderId) as Hno by (rewrite Hne; congruence).
    rewrite (finalQA_unblocked w orderId E). simpl.
    split; [|split].
    + intros r [= <-]. simpl. split; split; try tauto; discriminate.
    + intros _. eexists. split; reflexivity.
    + tauto.
  - assert (has_blocked (DB w) orderId) as Hyes by (rewrite Hne; congruence).
    pose proof (finalQA_blocked w orderId first rest E) as Hqa. cbv zeta in Hqa.
    apply Permutation_length in Hperm. simpl in Hperm.
    unfold qa_call in Hqa. rewrite <- Hperm in Hqa.
    split; [|split].
    + intros r Hr. rewrite Hqa in Hr.
      destruct (fst (tracker_create _ _ (tracker w))); simpl in Hr;
        [|discriminate].
      injection Hr as <-. simpl. split; split; try tauto; discriminate.
    + tauto.
    + intros _. exists (report_of w orderId), first.
      split; [reflexivity|]. split; [now rewrite E|].
      rewrite Hqa. split; [|split].
      * now destruct (fst (tracker_create _ _ (tracker w))).
      * simpl. intros ->. reflexivity.
      * simpl. intros e ->. reflexivity.
Qed.

(** C2 (amended). For every order with at least one blocked followup,
    [finalQA] makes one issue-creation call and its own outcome follows that
    call: when the call fails, [finalQA] fails with the same error and returns
    no verdict; when the call returns, [finalQA] returns the verdict [failed].
    Likewise the outcome of [resolveConflict] is the outcome of its
    issue-creation call. *)
Theorem finalQA_follows_dispatch (w : World Tracker) (orderId : string) :
  (has_blocked (DB w) orderId ->
   exists call,
     dispatched (snd (finalQA Tracker tracker_create orderId w))
       = (dispatched w ++ [call])%list /\
     match fst (tracker_create (fst call) (snd call) (tracker w)) with
     | Thrown e => fst (finalQA Tracker tracker_create orderId w) = Thrown e
     | Returned _ =>
         exists r, fst (finalQA Tracker tracker_create orderId w) = Returned r /\
                   status r = "failed"
     end) /\
  (forall repo branch conflictFiles,
   exists call,
     dispatched (snd (resolveConflict Tracker tracker_create repo branch conflictFiles w))
       = (dispatched w ++ [call])%list /\
     fst (resolveConflict Tracker tracker_create repo branch conflictFiles w)
       = fst (tracker_create (fst call) (snd call) (tracker w))).
Proof.
  split.
  - intros Hb. apply report_blocked_nonempty in Hb.
    destruct (filter is_blocked (report_followups (report_of w orderId)))
      as [|first rest] eqn:E; [congruence|].
    pose proof (finalQA_blocked w orderId first rest E) as Hqa. cbv zeta in Hqa.
    exists (qa_call orderId first (S (List.length rest))).
    rewrite Hqa.
    destruct (fst (tracker_create _ _ (tracker w))) as [u|e]; simpl.
    + split; [reflexivity|]. eexists. split; reflexivity.
    + split; reflexivity.
  - intros repo branch conflictFiles.
    unfold resolveConflict, createIssue.
    match goal with
    | |- context [tracker_create ?c ?n (tracker w)] =>
        exists (c, n); cbn [fst snd];
        destruct (tracker_create c n (tracker w)) as [r t']
    end.
    split; reflexivity.
Qed.

End WithTracker.

(** The report of order ORD-1: the advisory of impact 1, then the blocked
    followups of impact 2 and 3, and one operation. *)
Lemma delivery_report_of_sample_order :
  exists rep,
    generateDeliveryReport nat "ORD-1" Samples.ops_world
      = (Returned rep, Samples.ops_world) /\
    map fu_impact_level (report_followups rep) = [1; 2; 3] /\
    issues (summary rep) = 3%nat /\
    ops_count (summary rep) = 1%nat.
Proof.
  destruct (generateDeliveryReport_sorted_and_counted nat Samples.ops_world "ORD-1")
    as (rep & Hret & _).
  exists rep. split; [exact Hret|].
  injection Hret as <-. repeat split.
Defined.

(** The scenario of the specification: the call with files a.ts and b.ts
    produces exactly one issue, which references a.ts. *)
Lemma resolveConflict_two_files :
  ["a.ts"; "b.ts"] <> [] /\
  exists call,
    dispatched (snd (resolveConflict nat Samples.accepting "acme/app" "main"
                       ["a.ts"; "b.ts"] Samples.ops_world)) = [call] /\
    ctx_error_code (fst call) = "merge_conflict" /\
    ctx_file_path (fst call) = "a.ts".
Proof.
  assert (["a.ts"; "b.ts"] <> []) as Hne by discriminate.
  split; [exact Hne|].
  destruct (resolveConflict_dispatches_one_issue nat Samples.accepting
              Samples.ops_world "acme/app" "main" ["a.ts"; "b.ts"] Hne)
    as (first & call & Hfirst & Hcalls & Hcode & Hpath).
  exists call. injection Hfirst as <-. repeat split; assumption.
Defined.

(** An order with two blocked followups fails and an order with none
    passes. *)
Lemma finalQA_sample_orders :
  has_blocked (DB Samples.ops_world) "ORD-1" /\
  ~ has_blocked (DB Samples.ops_world) "ORD-2" /\
  (exists r,
     fst (finalQA nat Samples.accepting "ORD-1" Samples.ops_world) = Returned r /\
     status r = "failed") /\
  (exists r,
     finalQA nat Samples.accepting "ORD-2" Samples.ops_world
       = (Returned r, Samples.ops_world) /\
     status r = "passed").
Proof.
  assert (has_blocked (DB Samples.ops_world) "ORD-1") as H1.
  { exists (Samples.followup "ORD-1" "blocked" 3 (Some "src/b.ts")).
    simpl. auto. }
  assert (~ has_blocked (DB Samples.ops_world) "ORD-2") as H2.
  { intros (f & Hin & Ho & Ht). simpl in Hin.
    destruct Hin as [<-|[<-|[<-|[<-|[]]]]]; discriminate. }
  split; [exact H1|]. split; [exact H2|]. split.
  - pose proof (finalQA_verdict nat Samples.accepting Samples.ops_world "ORD-1")
      as H. cbv zeta in H. destruct H as (_ & _ & H).
    destruct (H H1) as (rep & first & _ & _ & _ & Hret & _).
    eexists. split; [apply Hret; reflexivity | reflexivity].
  - pose proof (finalQA_verdict nat Samples.accepting Samples.ops_world "ORD-2")
      as H. cbv zeta in H. destruct H as (_ & H & _).
    exact (H H2).
Defined.

(** A blocked followup does not always give the verdict [failed]: order
    ORD-1 has blocked followups, and with an issue tracker that refuses the
    issue [finalQA] returns no verdict, neither [failed] nor [passed]. *)
Lemma finalQA_blocked_order_without_verdict :
  has_blocked (DB Samples.ops_world) "ORD-1" /\
  ~ (exists r,
       fst (finalQA nat Samples.failing "ORD-1" Samples.ops_world) = Returned r /\
       status r = "failed") /\
  exists e, fst (finalQA nat Samples.failing "ORD-1" Samples.ops_world) = Thrown e.
Proof.
  split.
  - exists (Samples.followup "ORD-1" "blocked" 3 (Some "src/b.ts")).
    simpl. auto.
  - split; [intros (r & Hr & _); discriminate Hr|].
    eexists. reflexivity.
Qed.

(** A failed issue creation is not swallowed: order ORD-1 has blocked
    followups, the issue-creation call fails, and [finalQA] returns no
    verdict: it fails with the error of the call. *)
Lemma finalQA_failed_dispatch_is_not_swallowed :
  has_blocked (DB Samples.ops_world) "ORD-1" /\
  (forall ctx note t, fst (Samples.failing ctx note t) = Thrown Samples.remediation_error) /\
  fst (finalQA nat Samples.failing "ORD-1" Samples.ops_world)
    = Thrown Samples.remediation_error /\
  ~ (exists r,
       fst (finalQA nat Samples.failing "ORD-1" Samples.ops_world) = Returned r).
Proof.
  split.
  - exists (Samples.followup "ORD-1" "blocked" 3 (Some "src/b.ts")).
    simpl. auto.
  - split; [reflexivity|]. split; [reflexivity|].
    intros [r Hr]. discriminate Hr.
Qed.

(** At the same order the error of the failed call is the outcome of
    [finalQA], after one call that names the lowest-impact blocked item. *)
Lemma finalQA_follows_dispatch_sample :
  has_blocked (DB Samples.ops_world) "ORD-1" /\
  exists call,
    dispatched (snd (finalQA nat Samples.failing "ORD-1" Samples.ops_world)) = [call] /\
    ctx_file_path (fst call) = "src/a.ts" /\
    ctx_message (fst call) = "2 unresolved blockers." /\
    fst (finalQA nat Samples.failing "ORD-1" Samples.ops_world)
      = Thrown Samples.remediation_error.
Proof.
  assert (has_blocked (DB Samples.ops_world) "ORD-1") as H1.
  { exists (Samples.followup "ORD-1" "blocked" 3 (Some "src/b.ts")).
    simpl. auto. }
  split; [exact H1|].
  destruct (finalQA_follows_dispatch nat Samples.failing Samples.ops_world "ORD-1")
    as [H _].
  destruct (H H1) as (call & Hcalls & Hout).
  exists call. split; [exact Hcalls|].
  assert (call = qa_call "ORD-1" (Samples.followup "ORD-1" "blocked" 2 (Some "src/a.ts")) 2)
    as -> by (injection Hcalls as <-; reflexivity).
  repeat split.
Defined.

End OpsSpecialistSpec.

(** ** The health record store *)
Module HealthOpsSpec.
Import JS HealthOps.

Lemma filter_none {A : Type} (f : A -> bool) (l : list A) :
  filter f l = [] <-> forall x, In x l -> f x = false.
Proof.
  induction l as [|y t IH]; simpl.
  - tauto.
  - destruct (f y) eqn:E.
    + split; [discriminate|]. intros H. specialize (H y (or_introl eq_refl)).
      congruence.
    + rewrite IH. split.
      * intros H x [<-|Hx]; auto.
      * intros H x Hx. apply H. now right.
Qed.

Lemma first_filter {A : Type} (f : A -> bool) (l : list A) (x : A) :
  first (Sql.limit 1 (filter f l)) = Some x -> In x l /\ f x = true.
Proof.
  unfold first. rewrite SqlFacts.limit_one_first. intros H.
  apply nth_error_In in H. now apply filter_In in H.
Qed.

Lemma first_filter_none {A : Type} (f : A -> bool) (l : list A) :
  first (Sql.limit 1 (filter f l)) = None <-> forall x, In x l -> f x = false.
Proof.
  unfold first. rewrite SqlFacts.limit_one_first, <- filter_none.
  destruct (filter f l); simpl; split; congruence.
Qed.

(** The two point lookups, without the monad. *)
Lemma getHealthCheck_eq (w : World) (uuid : string) :
  getHealthCheck uuid w =
    (Returned
       (option_map (toHealthCheckResponse (Date_now w))
          (first (Sql.limit 1 (filter (hasUuid uuid) (healthChecks (health w)))))),
     w).
Proof.
  unfold getHealthCheck. rewrite !JSFacts.bind_gets.
  now destruct (first _).
Qed.

Lemma getWorkerHealthCheck_eq (w : World) (uuid : string) :
  getWorkerHealthCheck uuid w =
    (Returned
       (option_map (toWorkerHealthCheckResponse (Date_now w))
          (first (Sql.limit 1
             (filter (hasWorkerUuid uuid) (workerHealthChecks (health w)))))),
     w).
Proof.
  unfold getWorkerHealthCheck. rewrite !JSFacts.bind_gets.
  now destruct (first _).
Qed.

(** C6. For every identifier, each point lookup returns: it never throws
    and leaves the store as it was; the value it returns is [null] exactly
    when no stored entity has that identifier. *)
Theorem point_lookups_return_null_when_absent (w : World) (uuid : string) :
  (exists o,
     getHealthCheck uuid w = (Returned o, w) /\
     (o = None <->
      forall r, In r (healthChecks (health w)) ->
                schema.healthChecks.healthCheckUuid r <> uuid)) /\
  (exists o,
     getWorkerHealthCheck uuid w = (Returned o, w) /\
     (o = None <->
      forall r, In r (workerHealthChecks (health w)) ->
                schema.workerHealthChecks.workerCheckUuid r <> uuid)).
Proof.
  split.
  - eexists. split; [apply getHealthCheck_eq|].
    pose proof (first_filter_none (hasUuid uuid) (healthChecks (health w))) as H.
    destruct (first _); simpl.
    + split; [discriminate|]. intros Hno. exfalso.
      assert (Some r = None -> False) as Hs by discriminate. apply Hs, H.
      intros x Hx. apply String.eqb_neq. now apply Hno.
    + split; [|reflexivity]. intros _ r Hr.
      apply String.eqb_neq. now apply H.
  - eexists. split; [apply getWorkerHealthCheck_eq|].
    pose proof (first_filter_none (hasWorkerUuid uuid)
                  (workerHealthChecks (health w))) as H.
    destruct (first _); simpl.
    + split; [discriminate|]. intros Hno. exfalso.
      assert (Some r = None -> False) as Hs by discriminate. apply Hs, H.
      intros x Hx. apply String.eqb_neq. now apply Hno.
    + split; [|reflexivity]. intros _ r Hr.
      apply String.eqb_neq. now apply H.
Qed.

Lemma map_unmatched {A : Type} (c : A -> bool) (g : A -> A) (l : list A) :
  (forall r, In r l -> c r = false) ->
  map (fun r => if c r then g r else r) l = l.
Proof.
  intros H. induction l as [|x t IH]; simpl; [reflexivity|].
  rewrite (H x (or_introl eq_refl)). f_equal. apply IH.
  intros r Hr. apply H. now right.
Qed.

Lemma map_preserves {A B : Type} (key : A -> B) (c : A -> bool) (g : A -> A)
  (l : list A) :
  (forall r, key (g r) = key r) ->
  map key (map (fun r => if c r then g r else r) l) = map key l.
Proof.
  intros H. rewrite map_map. apply map_ext. intros r. now destruct (c r).
Qed.

Lemma is_some_true {A : Type} (o : option A) : is_some o = true <-> o <> None.
Proof. destruct o; simpl; split; congruence. Qed.

Lemma supplies_a_field_spec (p : UpdateHealthCheck.params) :
  no_values (updateData_of p) = false <-> supplies_a_field p.
Proof.
  unfold no_values, supplies_a_field, updateData_of. cbn.
  rewrite negb_false_iff, !orb_true_iff, !is_some_true. tauto.
Qed.

Lemma supplies_a_worker_field_spec (p : UpdateWorkerHealthCheck.params) :
  no_worker_values (worker_updateData_of p) = false <-> supplies_a_worker_field p.
Proof.
  unfold no_worker_values, supplies_a_worker_field, worker_updateData_of. cbn.
  rewrite negb_false_iff, !orb_true_iff, !is_some_true. tauto.
Qed.

(** The two updates, without the monad. *)
Lemma updateHealthCheck_eq (w : World) (p : UpdateHealthCheck.params) :
  updateHealthCheck p w =
    if no_values (updateData_of p) then (Thrown no_values_to_set, w)
    else
      (Returned {| ok := true |},
       {| health :=
            {| healthChecks :=
                 map (fun r => if hasUuid (UpdateHealthCheck.healthCheckUuid p) r
                               then set_healthCheck (updateData_of p) r else r)
                     (healthChecks (health w));
               workerHealthChecks := workerHealthChecks (health w) |};
          Date_now := Date_now w |}).
Proof.
  unfold updateHealthCheck, update_healthChecks, bind.
  fold (updateData_of p). now destruct (no_values (updateData_of p)).
Qed.

Lemma updateWorkerHealthCheck_eq (w : World) (p : UpdateWorkerHealthCheck.params) :
  updateWorkerHealthCheck p w =
    if no_worker_values (worker_updateData_of p) then (Thrown no_values_to_set, w)
    else
      (Returned {| ok := true |},
       {| health :=
            {| healthChecks := healthChecks (health w);
               workerHealthChecks :=
                 map (fun r =>
                        if hasWorkerUuid (UpdateWorkerHealthCheck.workerCheckUuid p) r
                        then set_workerHealthCheck (worker_updateData_of p) r else r)
                     (workerHealthChecks (health w)) |};
          Date_now := Date_now w |}).
Proof.
  unfold updateWorkerHealthCheck, update_workerHealthChecks, bind.
  fold (worker_updateData_of p).
  now destruct (no_worker_values (worker_updateData_of p)).
Qed.

(** C10 (amended). For every identifier, including one no row has, an
    update that supplies at least one field returns [{ok: true}]; it creates
    no row and changes no row identifier, and when no row has the identifier
    the whole store is left as it was.  An update that supplies no field does
    not return: it throws [No values to set] and leaves the store as it
    was. *)
Theorem updates_return_ok_when_a_field_is_supplied :
  (forall (w : World) (p : UpdateHealthCheck.params),
     (supplies_a_field p ->
      exists w',
        updateHealthCheck p w = (Returned {| ok := true |}, w') /\
        map schema.healthChecks.id (healthChecks (health w'))
          = map schema.healthChecks.id (healthChecks (health w)) /\
        workerHealthChecks (health w') = workerHealthChecks (health w) /\
        ((forall r, In r (healthChecks (health w)) ->
            schema.healthChecks.healthCheckUuid r
              <> UpdateHealthCheck.healthCheckUuid p) ->
         w' = w)) /\
     (~ supplies_a_field p ->
      updateHealthCheck p w = (Thrown no_values_to_set, w))) /\
  (forall (w : World) (p : UpdateWorkerHealthCheck.params),
     (supplies_a_worker_field p ->
      exists w',
        updateWorkerHealthCheck p w = (Returned {| ok := true |}, w') /\
        map schema.workerHealthChecks.id (workerHealthChecks (health w'))
          = map schema.workerHealthChecks.id (workerHealthChecks (health w)) /\
        healthChecks (health w') = healthChecks (health w) /\
        ((forall r, In r (workerHealthChecks (health w)) ->
            schema.workerHealthChecks.workerCheckUuid r
              <> UpdateWorkerHealthCheck.workerCheckUuid p) ->
         w' = w)) /\
     (~ supplies_a_worker_field p ->
      updateWorkerHealthCheck p w = (Thrown no_values_to_set, w))).
Proof.
  split; intros [[runs results] now] p.
  - rewrite updateHealthCheck_eq.
    pose proof (supplies_a_field_spec p) as Hs.
    destruct (no_values (updateData_of p)); split; intros H.
    + apply Hs in H. discriminate.
    + reflexivity.
    + eexists. split; [reflexivity|]. cbn [health healthChecks workerHealthChecks].
      split; [now apply map_preserves|]. split; [reflexivity|].
      intros Hno. rewrite map_unmatched; [reflexivity|].
      intros r Hr. apply String.eqb_neq. now apply Hno.
    + exfalso. apply H. now apply Hs.
  - rewrite updateWorkerHealthCheck_eq.
    pose proof (supplies_a_worker_field_spec p) as Hs.
    destruct (no_worker_values (worker_updateData_of p)); split; intros H.
    + apply Hs in H. discriminate.
    + reflexivity.
    + eexists. split; [reflexivity|]. cbn [health healthChecks workerHealthChecks].
      split; [now apply map_preserves|]. split; [reflexivity|].
      intros Hno. rewrite map_unmatched; [reflexivity|].
      intros r Hr. apply String.eqb_neq. now apply Hno.
    + exfalso. apply H. now apply Hs.
Qed.

(** Updates that supply a score for an identifier no row has, of a run on a
    store with three runs and of a result on the sample store: each returns
    and the store is as before.  The update of run-1 that supplies nothing
    throws. *)
Lemma scored_update_of_unknown_run :
  supplies_a_field (Samples.score_run "run-404" (1 # 2)) /\
  (forall r, In r (healthChecks Samples.three_runs) ->
     schema.healthChecks.healthCheckUuid r <> "run-404") /\
  updateHealthCheck (Samples.score_run "run-404" (1 # 2))
      (Samples.at_time 40 Samples.three_runs)
    = (Returned {| ok := true |}, Samples.at_time 40 Samples.three_runs) /\
  supplies_a_worker_field (Samples.score_result "chk-404" (1 # 2)) /\
  (forall r, In r (workerHealthChecks (health MoreSamples.sample_world)) ->
     schema.workerHealthChecks.workerCheckUuid r <> "chk-404") /\
  updateWorkerHealthCheck (Samples.score_result "chk-404" (1 # 2))
      MoreSamples.sample_world
    = (Returned {| ok := true |}, MoreSamples.sample_world) /\
  ~ supplies_a_field (Samples.touch_run "run-1") /\
  updateHealthCheck (Samples.touch_run "run-1")
      (Samples.at_time 40 Samples.three_runs)
    = (Thrown no_values_to_set, Samples.at_time 40 Samples.three_runs).
Proof.
  assert (supplies_a_field (Samples.score_run "run-404" (1 # 2))) as Hs
    by (apply supplies_a_field_spec; reflexivity).
  assert (forall r, In r (healthChecks Samples.three_runs) ->
            schema.healthChecks.healthCheckUuid r <> "run-404") as Hno.
  { intros r Hr. simpl in Hr.
    destruct Hr as [<-|[<-|[<-|[]]]]; discriminate. }
  assert (supplies_a_worker_field (Samples.score_result "chk-404" (1 # 2))) as Hs'
    by (apply supplies_a_worker_field_spec; reflexivity).
  assert (forall r, In r (workerHealthChecks (health MoreSamples.sample_world)) ->
            schema.workerHealthChecks.workerCheckUuid r <> "chk-404") as Hno'.
  { intros r Hr. simpl in Hr. destruct Hr as [<-|[<-|[]]]; discriminate. }
  assert (~ supplies_a_field (Samples.touch_run "run-1")) as Hnone.
  { intros H. apply supplies_a_field_spec in H. discriminate H. }
  destruct updates_return_ok_when_a_field_is_supplied as [Hruns Hresults].
  split; [exact Hs|]. split; [exact Hno|]. split.
  { destruct (Hruns (Samples.at_time 40 Samples.three_runs)
                (Samples.score_run "run-404" (1 # 2))) as [Hret _].
    destruct (Hret Hs) as (w' & Hok & _ & _ & Hsame).
    rewrite Hok. now rewrite (Hsame Hno). }
  split; [exact Hs'|]. split; [exact Hno'|]. split.
  { destruct (Hresults MoreSamples.sample_world
                (Samples.score_result "chk-404" (1 # 2))) as [Hret _].
    destruct (Hret Hs') as (w' & Hok & _ & _ & Hsame).
    rewrite Hok. now rewrite (Hsame Hno'). }
  split; [exact Hnone|].
  destruct (Hruns (Samples.at_time 40 Samples.three_runs)
              (Samples.touch_run "run-1")) as [_ Hthrow].
  exact (Hthrow Hnone).
Defined.

(** An update that names an identifier and nothing else does not return
    [{ok: true}]: it throws, for an identifier no row has and for one a row
    has alike, on runs and on results. *)
Lemma identifier_only_update_throws :
  updateHealthCheck (Samples.touch_run "run-404")
      (Samples.at_time 40 Samples.three_runs)
    = (Thrown no_values_to_set, Samples.at_time 40 Samples.three_runs) /\
  updateHealthCheck (Samples.touch_run "run-1")
      (Samples.at_time 40 Samples.three_runs)
    = (Thrown no_values_to_set, Samples.at_time 40 Samples.three_runs) /\
  updateWorkerHealthCheck (Samples.touch_result "chk-1") MoreSamples.sample_world
    = (Thrown no_values_to_set, MoreSamples.sample_world) /\
  ~ (exists w',
       updateHealthCheck (Samples.touch_run "run-404")
           (Samples.at_time 40 Samples.three_runs)
         = (Returned {| ok := true |}, w')) /\
  ~ (exists w',
       updateWorkerHealthCheck (Samples.touch_result "chk-1")
           MoreSamples.sample_world
         = (Returned {| ok := true |}, w')).
Proof.
  split; [reflexivity|]. split; [reflexivity|]. split; [reflexivity|].
  split; intros [w' H]; discriminate H.
Qed.

(** What the filter of the run listing keeps: a row passes when it agrees
    with every filter that was supplied (an empty string counts as not
    supplied). *)
Lemma where_conditions (triggerType status : option string)
  (r : schema.healthChecks.Row) :
  where_ (conditions triggerType status) r = true <->
  (truthy triggerType = true -> Some (schema.healthChecks.triggerType r) = triggerType) /\
  (truthy status = true -> schema.healthChecks.status r = status).
Proof.
  unfold where_, conditions.
  destruct triggerType as [t|], status as [s|]; simpl;
    try destruct (negb (t =? EmptyString)%string) eqn:Et;
    try destruct (negb (s =? EmptyString)%string) eqn:Es; simpl;
    rewrite ?andb_true_r, ?andb_true_iff, ?String.eqb_eq;
    unfold Sql.eq_text;
    try destruct (schema.healthChecks.status r) as [v|];
    rewrite ?String.eqb_eq;
    intuition (try congruence; try discriminate).
Qed.

(** The page of a listing: its rows come from the matching rows, and there
    are at most [limit] of them when [limit] is not negative. *)
Lemma page_In {A : Type} (leb : A -> A -> bool) (limit offset : Z)
  (matching : list A) (r : A) :
  In r (Sql.limit limit (Sql.offset offset (Sql.order_by leb matching))) ->
  In r matching.
Proof.
  intros H. apply SqlFacts.limit_In, SqlFacts.offset_In in H.
  now apply SqlFacts.order_by_In in H.
Qed.

Lemma page_length_le {A : Type} (leb : A -> A -> bool) (limit offset : Z)
  (matching : list A) :
  (List.length (Sql.limit limit (Sql.offset offset (Sql.order_by leb matching)))
   <= List.length matching)%nat.
Proof.
  eapply Nat.le_trans; [apply SqlFacts.limit_length_le|].
  eapply Nat.le_trans; [apply SqlFacts.offset_length_le|].
  now rewrite SqlFacts.order_by_length.
Qed.

(** Which statements the store accepts. *)
Lemma accepted_spec (lim off : Z) :
  (lim <? 0) && negb (off =? 0) = false <-> 0 <= lim \/ off = 0.
Proof.
  rewrite andb_false_iff, negb_false_iff, Z.ltb_ge, Z.eqb_eq. tauto.
Qed.

Lemma rejected_spec (lim off : Z) :
  (lim <? 0) && negb (off =? 0) = true <-> lim < 0 /\ off <> 0.
Proof.
  rewrite andb_true_iff, negb_true_iff, Z.ltb_lt, Z.eqb_neq. tauto.
Qed.

(** The listings, without the monad. *)
Lemma getHealthChecks_eq (w : World) (triggerType status : option string)
  (lim off : option Z) :
  getHealthChecks triggerType status lim off w =
    if (lim ?? 50 <? 0) && negb (off ?? 0 =? 0)
    then (Thrown query_rejected, w)
    else (Returned (healthChecks_listing w triggerType status (lim ?? 50) (off ?? 0)),
          w).
Proof.
  unfold getHealthChecks, bind, paged.
  now destruct ((lim ?? 50 <? 0) && negb (off ?? 0 =? 0)).
Qed.

Lemma getWorkerHealthChecks_eq (w : World) (healthCheckUuid : string)
  (lim off : option Z) :
  getWorkerHealthChecks healthCheckUuid lim off w =
    if (lim ?? 100 <? 0) && negb (off ?? 0 =? 0)
    then (Thrown query_rejected, w)
    else (Returned
            (workerHealthChecks_listing w healthCheckUuid (lim ?? 100) (off ?? 0)),
          w).
Proof.
  unfold getWorkerHealthChecks, bind, paged.
  now destruct ((lim ?? 100 <? 0) && negb (off ?? 0 =? 0)).
Qed.

Lemma getHealthChecks_accepted (w : World) (triggerType status : option string)
  (lim off : option Z) :
  0 <= lim ?? 50 \/ off ?? 0 = 0 ->
  getHealthChecks triggerType status lim off w =
    (Returned (healthChecks_listing w triggerType status (lim ?? 50) (off ?? 0)), w).
Proof.
  intros H. apply accepted_spec in H. now rewrite getHealthChecks_eq, H.
Qed.

Lemma getWorkerHealthChecks_accepted (w : World) (healthCheckUuid : string)
  (lim off : option Z) :
  0 <= lim ?? 100 \/ off ?? 0 = 0 ->
  getWorkerHealthChecks healthCheckUuid lim off w =
    (Returned (workerHealthChecks_listing w healthCheckUuid (lim ?? 100) (off ?? 0)),
     w).
Proof.
  intros H. apply accepted_spec in H. now rewrite getWorkerHealthChecks_eq, H.
Qed.

Lemma getHealthChecks_rejected (w : World) (triggerType status : option string)
  (lim off : option Z) :
  lim ?? 50 < 0 /\ off ?? 0 <> 0 ->
  getHealthChecks triggerType status lim off w = (Thrown query_rejected, w).
Proof.
  intros H. apply rejected_spec in H. now rewrite getHealthChecks_eq, H.
Qed.

Lemma getWorkerHealthChecks_rejected (w : World) (healthCheckUuid : string)
  (lim off : option Z) :
  lim ?? 100 < 0 /\ off ?? 0 <> 0 ->
  getWorkerHealthChecks healthCheckUuid lim off w = (Thrown query_rejected, w).
Proof.
  intros H. apply rejected_spec in H. now rewrite getWorkerHealthChecks_eq, H.
Qed.

(** C3 (amended). A listing call is rejected by the store when its limit is
    negative and its offset is not zero, and returns otherwise.  For every
    listing call that returns, with any filter: [hasMore] equals
    [offset + limit < total]; [total] counts the rows that pass the filter of
    the call, and every row of the returned page passes that same filter, so
    the page is never longer than [total]; the page is never longer than
    [limit] when [limit] is not negative. *)
Theorem pagination_invariant_of_accepted_listings :
  (forall (w : World) (triggerType status : option string) (lim off : option Z),
     (lim ?? 50 < 0 /\ off ?? 0 <> 0 ->
      getHealthChecks triggerType status lim off w = (Thrown query_rejected, w)) /\
     (0 <= lim ?? 50 \/ off ?? 0 = 0 ->
      exists resp,
        getHealthChecks triggerType status lim off w = (Returned resp, w) /\
        let matching :=
          filter (where_ (conditions triggerType status)) (healthChecks (health w)) in
        limit (pagination resp) = lim ?? 50 /\
        offset (pagination resp) = off ?? 0 /\
        hasMore (pagination resp)
          = (offset (pagination resp) + limit (pagination resp)
             <? total (pagination resp)) /\
        total (pagination resp) = Z.of_nat (List.length matching) /\
        (exists page,
           data resp = map (toHealthCheckResponse (Date_now w)) page /\
           forall r, In r page -> In r matching) /\
        Z.of_nat (List.length (data resp)) <= total (pagination resp) /\
        (0 <= limit (pagination resp) ->
         Z.of_nat (List.length (data resp)) <= limit (pagination resp)))) /\
  (forall (w : World) (healthCheckUuid : string) (lim off : option Z),
     (lim ?? 100 < 0 /\ off ?? 0 <> 0 ->
      getWorkerHealthChecks healthCheckUuid lim off w = (Thrown query_rejected, w)) /\
     (0 <= lim ?? 100 \/ off ?? 0 = 0 ->
      exists resp,
        getWorkerHealthChecks healthCheckUuid lim off w = (Returned resp, w) /\
        let matching :=
          filter (ofRun healthCheckUuid) (workerHealthChecks (health w)) in
        limit (pagination resp) = lim ?? 100 /\
        offset (pagination resp) = off ?? 0 /\
        hasMore (pagination resp)
          = (offset (pagination resp) + limit (pagination resp)
             <? total (pagination resp)) /\
        total (pagination resp) = Z.of_nat (List.length matching) /\
        (exists page,
           data resp = map (toWorkerHealthCheckResponse (Date_now w)) page /\
           forall r, In r page -> In r matching) /\
        Z.of_nat (List.length (data resp)) <= total (pagination resp) /\
        (0 <= limit (pagination resp) ->
         Z.of_nat (List.length (data resp)) <= limit (pagination resp)))).
Proof.
  split; intros; (split; [first [apply getHealthChecks_rejected
                               | apply getWorkerHealthChecks_rejected]|]);
    intros Hacc; eexists;
    (split; [first [apply (getHealthChecks_accepted _ _ _ _ _ Hacc)
                   | apply (getWorkerHealthChecks_accepted _ _ _ _ Hacc)]|]);
    cbv zeta; unfold healthChecks_listing, workerHealthChecks_listing;
    cbn [data pagination limit offset total hasMore];
    (repeat split; try reflexivity).
  - eexists. split; [reflexivity|]. apply page_In.
  - rewrite length_map. apply inj_le, page_length_le.
  - intros Hl. rewrite length_map. now apply SqlFacts.limit_length.
  - eexists. split; [reflexivity|]. apply page_In.
  - rewrite length_map. apply inj_le, page_length_le.
  - intros Hl. rewrite length_map. now apply SqlFacts.limit_length.
Qed.

(** A page of two of the three stored runs, and a page of one of the two
    results of run-2. *)
Lemma pagination_first_page :
  (0 <= Some 2 ?? 50 \/ None ?? 0 = 0) /\
  (0 <= Some 1 ?? 100 \/ None ?? 0 = 0) /\
  (exists resp,
     getHealthChecks None None (Some 2) None (Samples.at_time 40 Samples.three_runs)
       = (Returned resp, Samples.at_time 40 Samples.three_runs) /\
     total (pagination resp) = 3 /\
     hasMore (pagination resp) = true /\
     Z.of_nat (List.length (data resp)) <= 2) /\
  (exists resp,
     getWorkerHealthChecks "run-2" (Some 1) None MoreSamples.sample_world
       = (Returned resp, MoreSamples.sample_world) /\
     total (pagination resp) = 2 /\
     hasMore (pagination resp) = true /\
     Z.of_nat (List.length (data resp)) <= 1).
Proof.
  assert (0 <= Some 2 ?? 50 \/ None ?? 0 = 0) as Hacc by (left; simpl; lia).
  assert (0 <= Some 1 ?? 100 \/ None ?? 0 = 0) as Hacc' by (left; simpl; lia).
  split; [exact Hacc|]. split; [exact Hacc'|].
  destruct pagination_invariant_of_accepted_listings as [H H'].
  split.
  - destruct (H (Samples.at_time 40 Samples.three_runs) None None (Some 2) None)
      as [_ H2].
    destruct (H2 Hacc)
      as (resp & Hret & Hlim & Hoff & Hmore & Htotal & _ & _ & Hlen).
    exists resp. split; [exact Hret|].
    cbv zeta in *. simpl in Hlim, Hoff, Htotal.
    rewrite Hmore, Hlim, Hoff, Htotal. rewrite Hlim in Hlen.
    repeat split. apply Hlen. lia.
  - destruct (H' MoreSamples.sample_world "run-2" (Some 1) None) as [_ H2].
    destruct (H2 Hacc')
      as (resp & Hret & Hlim & Hoff & Hmore & Htotal & _ & _ & Hlen).
    exists resp. split; [exact Hret|].
    cbv zeta in *. simpl in Hlim, Hoff, Htotal.
    rewrite Hmore, Hlim, Hoff, Htotal. rewrite Hlim in Hlen.
    repeat split. apply Hlen. lia.
Defined.

(** A negative limit is read by the store as no bound: the call with limit
    -1 returns all three runs, more than the limit. *)
Lemma negative_limit_page_exceeds_limit :
  exists resp,
    getHealthChecks None None (Some (-1)) None (Samples.at_time 40 Samples.three_runs)
      = (Returned resp, Samples.at_time 40 Samples.three_runs) /\
    limit (pagination resp) = -1 /\
    List.length (data resp) = 3%nat /\
    ~ (Z.of_nat (List.length (data resp)) <= limit (pagination resp)).
Proof.
  eexists. split.
  - apply getHealthChecks_accepted. now right.
  - simpl. repeat split. lia.
Qed.

Lemma null_leb_some (a b : option Z) (d : Z) :
  a <> None -> b <> None -> Sql.null_leb b a = true -> b ?? d <= a ?? d.
Proof.
  destruct a as [x|], b as [y|]; simpl; try congruence.
  intros _ _. apply Z.leb_le.
Qed.

(** The filter of the run listing, written out. *)
Lemma where_written_out (triggerType status : option string)
  (r : schema.healthChecks.Row) :
  where_ (conditions triggerType status) r =
    (if JS.truthy triggerType
     then (schema.healthChecks.triggerType r =? triggerType ?? EmptyString)%string
     else true)
    && (if JS.truthy status
        then match schema.healthChecks.status r with
             | Some v => (v =? status ?? EmptyString)%string
             | None => false
             end
        else true).
Proof.
  unfold where_, conditions.
  destruct (JS.truthy triggerType), (JS.truthy status); simpl;
    rewrite ?andb_true_r; reflexivity.
Qed.

(** C8 (amended). A listing call is rejected by the store when its limit is
    negative and its offset is not zero.  For every other filter and
    pagination choice, the run listing returns the runs that pass the filter
    in descending order of their stored start time, and the result listing
    returns the results of the run in descending order of their stored
    creation time, a row without a stored time coming last: the page is the
    slice, past the offset and up to the limit (all of it when the limit is
    negative), of the matching rows so ordered.  When every stored row has its
    time, the times in the response are in descending order. *)
Theorem listings_ordered_descending_when_accepted :
  (forall (w : World) (triggerType status : option string) (lim off : option Z),
     (lim ?? 50 < 0 /\ off ?? 0 <> 0 ->
      getHealthChecks triggerType status lim off w = (Thrown query_rejected, w)) /\
     (0 <= lim ?? 50 \/ off ?? 0 = 0 ->
      exists resp sorted,
        getHealthChecks triggerType status lim off w = (Returned resp, w) /\
        Permutation
          (filter (fun r =>
             (if JS.truthy triggerType
              then (schema.healthChecks.triggerType r
                      =? triggerType ?? EmptyString)%string
              else true)
             && (if JS.truthy status
                 then match schema.healthChecks.status r with
                      | Some v => (v =? status ?? EmptyString)%string
                      | None => false
                      end
                 else true))
             (healthChecks (health w)))
          sorted /\
        StronglySorted
          (fun a b => Sql.null_leb (schema.healthChecks.startedAt b)
                                   (schema.healthChecks.startedAt a) = true) sorted /\
        data resp =
          map (toHealthCheckResponse (Date_now w))
            (if lim ?? 50 <? 0 then sorted
             else firstn (Z.to_nat (lim ?? 50)) (skipn (Z.to_nat (off ?? 0)) sorted)) /\
        ((forall r, In r (healthChecks (health w)) ->
                    schema.healthChecks.startedAt r <> None) ->
         StronglySorted
           (fun a b => HealthCheckResponse.startedAt b
                       <= HealthCheckResponse.startedAt a)
           (data resp)))) /\
  (forall (w : World) (healthCheckUuid : string) (lim off : option Z),
     (lim ?? 100 < 0 /\ off ?? 0 <> 0 ->
      getWorkerHealthChecks healthCheckUuid lim off w = (Thrown query_rejected, w)) /\
     (0 <= lim ?? 100 \/ off ?? 0 = 0 ->
      exists resp sorted,
        getWorkerHealthChecks healthCheckUuid lim off w = (Returned resp, w) /\
        Permutation
          (filter (fun r =>
             (schema.workerHealthChecks.healthCheckUuid r =? healthCheckUuid)%string)
             (workerHealthChecks (health w)))
          sorted /\
        StronglySorted
          (fun a b => Sql.null_leb (schema.workerHealthChecks.createdAt b)
                                   (schema.workerHealthChecks.createdAt a) = true)
          sorted /\
        data resp =
          map (toWorkerHealthCheckResponse (Date_now w))
            (if lim ?? 100 <? 0 then sorted
             else firstn (Z.to_nat (lim ?? 100))
                    (skipn (Z.to_nat (off ?? 0)) sorted)) /\
        ((forall r, In r (workerHealthChecks (health w)) ->
                    schema.workerHealthChecks.createdAt r <> None) ->
         StronglySorted
           (fun a b => WorkerHealthCheckResponse.createdAt b
                       <= WorkerHealthCheckResponse.createdAt a)
           (data resp)))).
Proof.
  assert (forall (A : Type) (lim off : Z) (l : list A),
            0 <= lim \/ off = 0 ->
            Sql.limit lim (Sql.offset off l)
              = if lim <? 0 then l
                else firstn (Z.to_nat lim) (skipn (Z.to_nat off) l)) as Hslice.
  { intros A lim off l Hacc. unfold Sql.limit, Sql.offset.
    destruct (lim <? 0) eqn:E; [|reflexivity].
    apply Z.ltb_lt in E. destruct Hacc as [H| ->]; [lia | reflexivity]. }
  split; intros.
  - split; [apply getHealthChecks_rejected|]. intros Hacc.
    exists (healthChecks_listing w triggerType status (lim ?? 50) (off ?? 0)).
    exists (Sql.order_by (Sql.desc schema.healthChecks.startedAt)
              (filter (where_ (conditions triggerType status))
                      (healthChecks (health w)))).
    split; [now apply getHealthChecks_accepted|].
    split.
    { rewrite (filter_ext _ _ (fun r => eq_sym (where_written_out triggerType status r))).
      apply SqlFacts.order_by_perm. }
    split; [apply SqlFacts.order_by_desc_sorted|].
    unfold healthChecks_listing. cbn [data].
    rewrite (Hslice _ _ _ _ Hacc). split; [reflexivity|].
    intros Hall. rewrite <- (Hslice _ _ _ _ Hacc).
    eapply SqlFacts.sorted_map.
    2: apply SqlFacts.limit_sorted, SqlFacts.offset_sorted,
         SqlFacts.order_by_desc_sorted.
    intros a b Ha Hb Hab. simpl.
    apply page_In, filter_In in Ha. apply page_In, filter_In in Hb.
    apply null_leb_some; [apply Hall, Ha | apply Hall, Hb | exact Hab].
  - split; [apply getWorkerHealthChecks_rejected|]. intros Hacc.
    exists (workerHealthChecks_listing w healthCheckUuid (lim ?? 100) (off ?? 0)).
    exists (Sql.order_by (Sql.desc schema.workerHealthChecks.createdAt)
              (filter (ofRun healthCheckUuid) (workerHealthChecks (health w)))).
    split; [now apply getWorkerHealthChecks_accepted|].
    split; [apply SqlFacts.order_by_perm|].
    split; [apply SqlFacts.order_by_desc_sorted|].
    unfold workerHealthChecks_listing. cbn [data].
    rewrite (Hslice _ _ _ _ Hacc). split; [reflexivity|].
    intros Hall. rewrite <- (Hslice _ _ _ _ Hacc).
    eapply SqlFacts.sorted_map.
    2: apply SqlFacts.limit_sorted, SqlFacts.offset_sorted,
         SqlFacts.order_by_desc_sorted.
    intros a b Ha Hb Hab. simpl.
    apply page_In, filter_In in Ha. apply page_In, filter_In in Hb.
    apply null_leb_some; [apply Hall, Ha | apply Hall, Hb | exact Hab].
Qed.

(** On the sample store the three runs, created at times 10, 20 and 30, are
    listed newest first, and so are the two results of run-2, created at
    times 31 and 32. *)
Lemma listings_newest_first :
  (0 <= None ?? 50 \/ None ?? 0 = 0) /\
  (0 <= None ?? 100 \/ None ?? 0 = 0) /\
  (exists resp,
     getHealthChecks None None None None MoreSamples.sample_world
       = (Returned resp, MoreSamples.sample_world) /\
     map HealthCheckResponse.healthCheckUuid (data resp)
       = ["run-3"; "run-2"; "run-1"] /\
     map HealthCheckResponse.startedAt (data resp) = [30; 20; 10]) /\
  (exists resp,
     getWorkerHealthChecks "run-2" None None MoreSamples.sample_world
       = (Returned resp, MoreSamples.sample_world) /\
     map WorkerHealthCheckResponse.workerCheckUuid (data resp) = ["chk-2"; "chk-1"] /\
     map WorkerHealthCheckResponse.createdAt (data resp) = [32; 31]).
Proof.
  assert (0 <= None ?? 50 \/ None ?? 0 = 0) as H1 by now right.
  assert (0 <= None ?? 100 \/ None ?? 0 = 0) as H2 by now right.
  split; [exact H1|]. split; [exact H2|].
  destruct listings_ordered_descending_when_accepted as [Hruns Hresults].
  split.
  - destruct (Hruns MoreSamples.sample_world None None None None) as [_ H].
    destruct (H H1) as (resp & sorted & Hret & _).
    exists resp. split; [exact Hret|].
    rewrite getHealthChecks_accepted in Hret by exact H1.
    injection Hret as <-. split; reflexivity.
  - destruct (Hresults MoreSamples.sample_world "run-2" None None) as [_ H].
    destruct (H H2) as (resp & sorted & Hret & _).
    exists resp. split; [exact Hret|].
    rewrite getWorkerHealthChecks_accepted in Hret by exact H2.
    injection Hret as <-. split; reflexivity.
Defined.

(** For the pagination choice limit -1, offset 1 neither listing returns
    anything: the store rejects the statement. *)
Lemma listings_rejected_for_negative_limit_with_offset :
  getHealthChecks None None (Some (-1)) (Some 1) MoreSamples.sample_world
    = (Thrown query_rejected, MoreSamples.sample_world) /\
  getWorkerHealthChecks "run-2" (Some (-1)) (Some 1) MoreSamples.sample_world
    = (Thrown query_rejected, MoreSamples.sample_world) /\
  ~ (exists resp,
       fst (getHealthChecks None None (Some (-1)) (Some 1) MoreSamples.sample_world)
         = Returned resp) /\
  ~ (exists resp,
       fst (getWorkerHealthChecks "run-2" (Some (-1)) (Some 1)
              MoreSamples.sample_world)
         = Returned resp).
Proof.
  split; [reflexivity|]. split; [reflexivity|].
  split; intros [resp H]; discriminate H.
Qed.

Section WithSchemaDefaults.
Variable healthChecks_defaults : Z -> schema.healthChecks.Row.
Variable workerHealthChecks_defaults : Z -> schema.workerHealthChecks.Row.

#[local] Abbreviation perform :=
  (HealthOps.perform healthChecks_defaults workerHealthChecks_defaults).

(** What the two creations do: rejected by a constraint, with the store as
    it was, or a new row appended and its identifier returned. *)
Lemma createHealthCheck_outcome (w : World) (p : CreateHealthCheck.params) :
  if existsb (hasUuid (CreateHealthCheck.healthCheckUuid p)) (healthChecks (health w))
  then createHealthCheck healthChecks_defaults p w
         = (Thrown (constraint_failed "UNIQUE"), w)
  else
    exists row,
      createHealthCheck healthChecks_defaults p w =
        (Returned {| id := schema.healthChecks.id row |},
         {| health := {| healthChecks := (healthChecks (health w) ++ [row])%list;
                         workerHealthChecks := workerHealthChecks (health w) |};
            Date_now := Date_now w |}) /\
      schema.healthChecks.id row
        = next_id (map schema.healthChecks.id (healthChecks (health w))) /\
      schema.healthChecks.healthCheckUuid row = CreateHealthCheck.healthCheckUuid p /\
      schema.healthChecks.triggerType row = CreateHealthCheck.triggerType p /\
      schema.healthChecks.triggerSource row = CreateHealthCheck.triggerSource p /\
      schema.healthChecks.status row = Some "running" /\
      schema.healthChecks.totalWorkers row
        = Some (CreateHealthCheck.totalWorkers p ?? 0) /\
      schema.healthChecks.timeoutAt row = CreateHealthCheck.timeoutAt p /\
      schema.healthChecks.startedAt row
        = schema.healthChecks.startedAt (healthChecks_defaults (Date_now w)).
Proof.
  unfold createHealthCheck, insert_healthCheck, bind.
  destruct (existsb _ (healthChecks (health w))); [reflexivity|].
  eexists. split; [reflexivity|]. repeat split.
Qed.

Lemma createWorkerHealthCheck_outcome (w : World) (p : CreateWorkerHealthCheck.params) :
  if existsb (hasWorkerUuid (CreateWorkerHealthCheck.workerCheckUuid p))
       (workerHealthChecks (health w))
  then createWorkerHealthCheck workerHealthChecks_defaults p w
         = (Thrown (constraint_failed "UNIQUE"), w)
  else if negb (existsb (hasUuid (CreateWorkerHealthCheck.healthCheckUuid p))
                  (healthChecks (health w)))
  then createWorkerHealthCheck workerHealthChecks_defaults p w
         = (Thrown (constraint_failed "FOREIGN KEY"), w)
  else
    exists row,
      createWorkerHealthCheck workerHealthChecks_defaults p w =
        (Returned {| id := schema.workerHealthChecks.id row |},
         {| health := {| healthChecks := healthChecks (health w);
                         workerHealthChecks :=
                           (workerHealthChecks (health w) ++ [row])%list |};
            Date_now := Date_now w |}) /\
      schema.workerHealthChecks.id row
        = next_id (map schema.workerHealthChecks.id (workerHealthChecks (health w))) /\
      schema.workerHealthChecks.workerCheckUuid row
        = CreateWorkerHealthCheck.workerCheckUuid p /\
      schema.workerHealthChecks.healthCheckUuid row
        = CreateWorkerHealthCheck.healthCheckUuid p /\
      schema.workerHealthChecks.workerName row = CreateWorkerHealthCheck.workerName p /\
      schema.workerHealthChecks.workerType row = CreateWorkerHealthCheck.workerType p /\
      schema.workerHealthChecks.workerUrl row = CreateWorkerHealthCheck.workerUrl p /\
      schema.workerHealthChecks.status row = Some "pending" /\
      schema.workerHealthChecks.createdAt row
        = schema.workerHealthChecks.createdAt
            (workerHealthChecks_defaults (Date_now w)).
Proof.
  unfold createWorkerHealthCheck, insert_workerHealthCheck, bind.
  destruct (existsb _ (workerHealthChecks (health w))); [reflexivity|].
  destruct (negb _); [reflexivity|].
  eexists. split; [reflexivity|]. repeat split.
Qed.

Lemma stored_run_spec (uuid : string) (runs : list schema.healthChecks.Row) :
  existsb (hasUuid uuid) runs = true <->
  exists run, In run runs /\ schema.healthChecks.healthCheckUuid run = uuid.
Proof.
  rewrite existsb_exists. unfold hasUuid.
  split; intros (run & Hin & H); exists run; (split; [exact Hin|]);
    now apply String.eqb_eq.
Qed.

(** The tables after a write: the stored rows, those the write selects
    updated in place, followed by the rows the write adds. *)
Lemma runs_after_write (op : Write) (w : World) :
  exists (c : schema.healthChecks.Row -> bool) updateData added,
    healthChecks (health (perform op w)) =
      (map (fun r => if c r then set_healthCheck updateData r else r)
           (healthChecks (health w)) ++ added)%list /\
    forall r, In r added ->
      schema.healthChecks.startedAt r
        = schema.healthChecks.startedAt (healthChecks_defaults (Date_now w)).
Proof.
  pose (none := updateData_of (Samples.touch_run EmptyString)).
  assert (forall l : list schema.healthChecks.Row,
            l = (map (fun r => if (fun _ => false) r
                               then set_healthCheck none r else r) l ++ [])%list)
    as Hsame by (intros l; cbv beta iota; now rewrite map_id, app_nil_r).
  destruct op as [p|p|p|p]; cbn [HealthOps.perform].
  - pose proof (createHealthCheck_outcome w p) as H.
    destruct (existsb _ (healthChecks (health w))).
    + rewrite H. exists (fun _ => false), none, []. now split.
    + destruct H as (row & -> & H). exists (fun _ => false), none, [row].
      cbv beta iota. rewrite map_id. split; [reflexivity|].
      intros r [<-|[]]. apply H.
  - rewrite updateHealthCheck_eq. destruct (no_values _).
    + exists (fun _ => false), none, []. now split.
    + eexists _, _, []. rewrite app_nil_r. now split.
  - pose proof (createWorkerHealthCheck_outcome w p) as H.
    destruct (existsb _ (workerHealthChecks (health w)));
      [|destruct (negb _); [|destruct H as (row & H & _)]];
      rewrite H; exists (fun _ => false), none, []; now split.
  - rewrite updateWorkerHealthCheck_eq. destruct (no_worker_values _);
      exists (fun _ => false), none, []; now split.
Qed.

Lemma results_after_write (op : Write) (w : World) :
  exists (c : schema.workerHealthChecks.Row -> bool) updateData added,
    workerHealthChecks (health (perform op w)) =
      (map (fun r => if c r then set_workerHealthCheck updateData r else r)
           (workerHealthChecks (health w)) ++ added)%list /\
    forall r, In r added ->
      schema.workerHealthChecks.createdAt r
        = schema.workerHealthChecks.createdAt
            (workerHealthChecks_defaults (Date_now w)) /\
      exists run, In run (healthChecks (health w)) /\
        schema.healthChecks.healthCheckUuid run
          = schema.workerHealthChecks.healthCheckUuid r.
Proof.
  pose (none := worker_updateData_of (Samples.score_result EmptyString 0)).
  assert (forall l : list schema.workerHealthChecks.Row,
            l = (map (fun r => if (fun _ => false) r
                               then set_workerHealthCheck none r else r) l ++ [])%list)
    as Hsame by (intros l; cbv beta iota; now rewrite map_id, app_nil_r).
  destruct op as [p|p|p|p]; cbn [HealthOps.perform].
  - pose proof (createHealthCheck_outcome w p) as H.
    destruct (existsb _ (healthChecks (health w)));
      [|destruct H as (row & H & _)];
      rewrite H; exists (fun _ => false), none, []; now split.
  - rewrite updateHealthCheck_eq. destruct (no_values _);
      exists (fun _ => false), none, []; now split.
  - pose proof (createWorkerHealthCheck_outcome w p) as H.
    destruct (existsb _ (workerHealthChecks (health w))).
    + rewrite H. exists (fun _ => false), none, []. now split.
    + destruct (negb _) eqn:Hfk.
      * rewrite H. exists (fun _ => false), none, []. now split.
      * destruct H as (row & -> & H). exists (fun _ => false), none, [row].
        cbv beta iota. rewrite map_id. split; [reflexivity|].
        intros r [<-|[]]. split; [apply H|].
        apply negb_false_iff, stored_run_spec in Hfk.
        destruct Hfk as (run & Hin & Hu). exists run. split; [exact Hin|].
        destruct H as (_ & _ & -> & _). exact Hu.
  - rewrite updateWorkerHealthCheck_eq. destruct (no_worker_values _).
    + exists (fun _ => false), none, []. now split.
    + eexists _, _, []. rewrite app_nil_r. now split.
Qed.

Lemma clock_after_write (op : Write) (w : World) :
  Date_now (perform op w) = Date_now w.
Proof.
  destruct op as [p|p|p|p]; cbn [HealthOps.perform].
  - pose proof (createHealthCheck_outcome w p) as H.
    destruct (existsb _ _); [|destruct H as (row & H & _)]; now rewrite H.
  - rewrite updateHealthCheck_eq. now destruct (no_values _).
  - pose proof (createWorkerHealthCheck_outcome w p) as H.
    destruct (existsb _ _); [|destruct (negb _); [|destruct H as (row & H & _)]];
      now rewrite H.
  - rewrite updateWorkerHealthCheck_eq. now destruct (no_worker_values _).
Qed.



Lemma assign_some {A : Type} (v : A) (old : option A) : assign (Some v) old = Some v.
Proof. reflexivity. Qed.

(** C9 (amended). The store keeps score and status apart.  A lookup that
    finds a row surfaces a number as its score: the stored score, or 0 when
    none is stored, next to the stored status ([running] for a run and
    [pending] for a result when none is stored).  An update that supplies a
    score stores it in every row with the identifier, whatever the status of
    the row, and leaves the status as it was unless it supplies one. *)
Theorem lookups_surface_stored_score_or_zero :
  (forall (w w' : World) (uuid : string) (resp : HealthCheckResponse.t),
     getHealthCheck uuid w = (Returned (Some resp), w') ->
     exists row,
       In row (healthChecks (health w)) /\
       schema.healthChecks.healthCheckUuid row = uuid /\
       HealthCheckResponse.status resp = schema.healthChecks.status row ?? "running" /\
       HealthCheckResponse.overallHealthScore resp
         = schema.healthChecks.overallHealthScore row ?? 0%Q) /\
  (forall (w w' : World) (uuid : string) (resp : WorkerHealthCheckResponse.t),
     getWorkerHealthCheck uuid w = (Returned (Some resp), w') ->
     exists row,
       In row (workerHealthChecks (health w)) /\
       schema.workerHealthChecks.workerCheckUuid row = uuid /\
       WorkerHealthCheckResponse.status resp
         = schema.workerHealthChecks.status row ?? "pending" /\
       WorkerHealthCheckResponse.healthScore resp
         = schema.workerHealthChecks.healthScore row ?? 0%Q) /\
  (forall (w : World) (p : UpdateHealthCheck.params) (score : Q)
          (row : schema.healthChecks.Row),
     UpdateHealthCheck.overallHealthScore p = Some score ->
     In row (healthChecks (health w)) ->
     schema.healthChecks.healthCheckUuid row = UpdateHealthCheck.healthCheckUuid p ->
     exists row',
       In row' (healthChecks (health (snd (updateHealthCheck p w)))) /\
       schema.healthChecks.id row' = schema.healthChecks.id row /\
       schema.healthChecks.overallHealthScore row' = Some score /\
       schema.healthChecks.status row'
         = assign (UpdateHealthCheck.status p) (schema.healthChecks.status row)) /\
  (forall (w : World) (p : UpdateWorkerHealthCheck.params) (score : Q)
          (row : schema.workerHealthChecks.Row),
     UpdateWorkerHealthCheck.healthScore p = Some score ->
     In row (workerHealthChecks (health w)) ->
     schema.workerHealthChecks.workerCheckUuid row
       = UpdateWorkerHealthCheck.workerCheckUuid p ->
     exists row',
       In row' (workerHealthChecks (health (snd (updateWorkerHealthCheck p w)))) /\
       schema.workerHealthChecks.id row' = schema.workerHealthChecks.id row /\
       schema.workerHealthChecks.healthScore row' = Some score /\
       schema.workerHealthChecks.status row'
         = assign (UpdateWorkerHealthCheck.status p)
                  (schema.workerHealthChecks.status row)).
Proof.
  split; [|split; [|split]].
  - intros w w' uuid resp H. rewrite getHealthCheck_eq in H.
    injection H as H _.
    destruct (first _) as [row|] eqn:E; [|discriminate].
    injection H as <-. apply first_filter in E. destruct E as [Hin Hu].
    exists row. repeat split; trivial. now apply String.eqb_eq.
  - intros w w' uuid resp H. rewrite getWorkerHealthCheck_eq in H.
    injection H as H _.
    destruct (first _) as [row|] eqn:E; [|discriminate].
    injection H as <-. apply first_filter in E. destruct E as [Hin Hu].
    exists row. repeat split; trivial. now apply String.eqb_eq.
  - intros w p score row Hs Hin Hu.
    assert (no_values (updateData_of p) = false) as Hv.
    { apply supplies_a_field_spec. do 4 right. left. congruence. }
    rewrite updateHealthCheck_eq, Hv. cbn [snd health healthChecks].
    exists (set_healthCheck (updateData_of p) row). split.
    + apply in_map_iff. exists row. split; [|exact Hin].
      unfold hasUuid. apply String.eqb_eq in Hu. now rewrite Hu.
    + cbn. rewrite Hs. repeat split.
  - intros w p score row Hs Hin Hu.
    assert (no_worker_values (worker_updateData_of p) = false) as Hv.
    { apply supplies_a_worker_field_spec. do 2 right. left. congruence. }
    rewrite updateWorkerHealthCheck_eq, Hv. cbn [snd health workerHealthChecks].
    exists (set_workerHealthCheck (worker_updateData_of p) row). split.
    + apply in_map_iff. exists row. split; [|exact Hin].
      unfold hasWorkerUuid. apply String.eqb_eq in Hu. now rewrite Hu.
    + cbn. rewrite Hs. repeat split.
Qed.

End WithSchemaDefaults.



(** A run is created and given the score 9/10 without a change of status, a
    result likewise; the state is reachable, the stored run is [running] with
    a score and the stored result [pending] with a score, and the lookups
    surface these scores. *)
Lemma running_run_and_pending_result_with_score :
  let w1 := snd (createHealthCheck Samples.healthChecks_null
                   (Samples.new_run "run-1") (Samples.at_time 10 empty)) in
  let w2 := snd (createWorkerHealthCheck Samples.workerHealthChecks_null
                   (Samples.new_result "chk-1" "run-1") w1) in
  let w3 := snd (updateHealthCheck (Samples.score_run "run-1" (9 # 10)) w2) in
  let w4 := snd (updateWorkerHealthCheck (Samples.score_result "chk-1" (9 # 10)) w3) in
  reachable Samples.healthChecks_null Samples.workerHealthChecks_null (health w4) /\
  (exists row,
     In row (healthChecks (health w4)) /\
     schema.healthChecks.status row = Some "running" /\
     schema.healthChecks.overallHealthScore row = Some (9 # 10)) /\
  (exists row,
     In row (workerHealthChecks (health w4)) /\
     schema.workerHealthChecks.status row = Some "pending" /\
     schema.workerHealthChecks.healthScore row = Some (9 # 10)) /\
  (exists resp,
     fst (getHealthCheck "run-1" w4) = Returned (Some resp) /\
     HealthCheckResponse.status resp = "running" /\
     HealthCheckResponse.overallHealthScore resp = 9 # 10) /\
  (exists resp,
     fst (getWorkerHealthCheck "chk-1" w4) = Returned (Some resp) /\
     WorkerHealthCheckResponse.status resp = "pending" /\
     WorkerHealthCheckResponse.healthScore resp = 9 # 10).
Proof.
  intros w1 w2 w3 w4. split.
  - set (hd := Samples.healthChecks_null).
    set (wd := Samples.workerHealthChecks_null).
    apply (reachable_write hd wd (health w3) 10
             (WUpdateWorkerHealthCheck (Samples.score_result "chk-1" (9 # 10)))).
    apply (reachable_write hd wd (health w2) 10
             (WUpdateHealthCheck (Samples.score_run "run-1" (9 # 10)))).
    apply (reachable_write hd wd (health w1) 10
             (WCreateWorkerHealthCheck (Samples.new_result "chk-1" "run-1"))).
    apply (reachable_write hd wd empty 10
             (WCreateHealthCheck (Samples.new_run "run-1"))).
    apply reachable_empty.
  - repeat split; eexists; (split; [try (left; reflexivity); reflexivity|]);
      split; reflexivity.
Qed.

(** On a freshly created run the lookup finds the row and surfaces the
    score 0 next to the status [running]. *)
Lemma fresh_run_surfaces_zero :
  let w := snd (createHealthCheck Samples.healthChecks_null
                  (Samples.new_run "run-1") (Samples.at_time 10 empty)) in
  exists resp row,
    getHealthCheck "run-1" w = (Returned (Some resp), w) /\
    In row (healthChecks (health w)) /\
    HealthCheckResponse.status resp = "running" /\
    HealthCheckResponse.overallHealthScore resp = 0%Q.
Proof.
  cbv zeta.
  destruct lookups_surface_stored_score_or_zero as (H & _).
  pose proof (getHealthCheck_eq
    (snd (createHealthCheck Samples.healthChecks_null
            (Samples.new_run "run-1") (Samples.at_time 10 empty))) "run-1") as E.
  simpl in E.
  destruct (H _ _ _ _ E) as (row & Hin & Hu & Hst & Hsc).
  eexists. exists row. split; [exact E|]. split; [exact Hin|].
  simpl in Hin. destruct Hin as [<-|[]].
  split; reflexivity.
Defined.


(** Probing the store with three runs: run-404 is absent and the lookup
    returns [null]; run-2 is present and the lookup returns it. *)
Lemma lookup_of_absent_and_present_run :
  getHealthCheck "run-404" (Samples.at_time 40 Samples.three_runs)
    = (Returned None, Samples.at_time 40 Samples.three_runs) /\
  exists resp,
    getHealthCheck "run-2" (Samples.at_time 40 Samples.three_runs)
      = (Returned (Some resp), Samples.at_time 40 Samples.three_runs) /\
    HealthCheckResponse.startedAt resp = 20.
Proof.
  split.
  - destruct (point_lookups_return_null_when_absent
                (Samples.at_time 40 Samples.three_runs) "run-404")
      as [(o & Hret & Hnone) _].
    rewrite Hret. f_equal. f_equal. apply Hnone.
    intros r Hr. simpl in Hr.
    destruct Hr as [<-|[<-|[<-|[]]]]; discriminate.
  - eexists. split; reflexivity.
Defined.

(** Under a schema that stamps the time of the insert, every stored run has
    a start time and every stored result a creation time: no write operation
    clears or omits them. *)
Lemma reachable_rows_stamped
  (healthChecks_defaults : Z -> schema.healthChecks.Row)
  (workerHealthChecks_defaults : Z -> schema.workerHealthChecks.Row)
  (db : Database) :
  (forall now, schema.healthChecks.startedAt (healthChecks_defaults now) <> None) ->
  (forall now,
     schema.workerHealthChecks.createdAt (workerHealthChecks_defaults now) <> None) ->
  reachable healthChecks_defaults workerHealthChecks_defaults db ->
  (forall r, In r (healthChecks db) -> schema.healthChecks.startedAt r <> None) /\
  (forall r, In r (workerHealthChecks db) ->
             schema.workerHealthChecks.createdAt r <> None).
Proof.
  intros Hh Hw Hreach.
  induction Hreach as [|db now op _ [IHh IHw]].
  - split; intros r [].
  - destruct (runs_after_write healthChecks_defaults workerHealthChecks_defaults
                op {| health := db; Date_now := now |})
      as (c & u & added & -> & Hadded).
    destruct (results_after_write healthChecks_defaults workerHealthChecks_defaults
                op {| health := db; Date_now := now |})
      as (c' & u' & added' & -> & Hadded').
    split; intros r Hr; apply in_app_or in Hr; destruct Hr as [Hr|Hr].
    + apply in_map_iff in Hr. destruct Hr as (r0 & <- & Hr0).
      destruct (c r0); [simpl|]; now apply IHh.
    + rewrite (Hadded r Hr). apply Hh.
    + apply in_map_iff in Hr. destruct Hr as (r0 & <- & Hr0).
      destruct (c' r0); [simpl|]; now apply IHw.
    + rewrite (proj1 (Hadded' r Hr)). apply Hw.
Qed.

End HealthOpsSpec.

(** ** More on the health record store: round trips, frames and pages *)
Module HealthOpsMore.
Import JS HealthOps.

Lemma filter_snoc {A : Type} (f : A -> bool) (l : list A) (x : A) :
  filter f (l ++ [x]) = (filter f l ++ if f x then [x] else [])%list.
Proof. rewrite filter_app. simpl. now destruct (f x). Qed.

Lemma first_app {A : Type} (l l' : list A) (x : A) :
  first l = Some x -> first (l ++ l') = Some x.
Proof. destruct l; simpl; [discriminate | trivial]. Qed.

Lemma first_limit_one {A : Type} (l : list A) :
  first (Sql.limit 1 l) = first l.
Proof. apply SqlFacts.limit_one_first. Qed.

Section WithSchemaDefaults.
Variable healthChecks_defaults : Z -> schema.healthChecks.Row.
Variable workerHealthChecks_defaults : Z -> schema.workerHealthChecks.Row.

(** X1. Creating a run under an identifier no stored run has, then looking
    that identifier up, returns the run just created: the row identifier the
    creation returned, the given identifier, trigger type, trigger source and
    timeout, the status [running] and the given worker total, 0 when none
    was given. *)
Theorem createHealthCheck_then_getHealthCheck
  (w : World) (p : CreateHealthCheck.params) :
  (forall r, In r (healthChecks (health w)) ->
     schema.healthChecks.healthCheckUuid r <> CreateHealthCheck.healthCheckUuid p) ->
  exists i w' resp,
    createHealthCheck healthChecks_defaults p w = (Returned {| id := i |}, w') /\
    getHealthCheck (CreateHealthCheck.healthCheckUuid p) w'
      = (Returned (Some resp), w') /\
    HealthCheckResponse.id resp = i /\
    HealthCheckResponse.healthCheckUuid resp = CreateHealthCheck.healthCheckUuid p /\
    HealthCheckResponse.triggerType resp = CreateHealthCheck.triggerType p /\
    HealthCheckResponse.triggerSource resp = CreateHealthCheck.triggerSource p /\
    HealthCheckResponse.status resp = "running" /\
    HealthCheckResponse.totalWorkers resp = CreateHealthCheck.totalWorkers p ?? 0 /\
    HealthCheckResponse.timeoutAt resp = CreateHealthCheck.timeoutAt p.
Proof.
  intros Hfresh.
  assert (forall r, In r (healthChecks (health w)) ->
            hasUuid (CreateHealthCheck.healthCheckUuid p) r = false) as Hno.
  { intros r Hr. apply String.eqb_neq. now apply Hfresh. }
  assert (filter (hasUuid (CreateHealthCheck.healthCheckUuid p))
            (healthChecks (health w)) = []) as Hnone
    by now apply HealthOpsSpec.filter_none.
  assert (existsb (hasUuid (CreateHealthCheck.healthCheckUuid p))
            (healthChecks (health w)) = false) as Hex.
  { apply not_true_is_false. intros E. apply existsb_exists in E.
    destruct E as (r & Hr & E). rewrite (Hno r Hr) in E. discriminate. }
  pose proof (HealthOpsSpec.createHealthCheck_outcome healthChecks_defaults w p) as H.
  rewrite Hex in H.
  destruct H as (row & Hc & _ & Hu & Ht & Hts & Hst & Htw & Hto & _).
  eexists _, _, _. split; [exact Hc|].
  split.
  - rewrite HealthOpsSpec.getHealthCheck_eq. cbn [health healthChecks Date_now].
    rewrite first_limit_one, filter_snoc, Hnone.
    unfold hasUuid at 1. rewrite Hu, String.eqb_refl. reflexivity.
  - cbn. rewrite Hu, Ht, Hts, Hst, Htw, Hto. repeat split.
Qed.

(** X2. Creating a worker result for a stored run, under a check identifier
    no stored result has, then looking that identifier up, returns the result
    just created: the row identifier the creation returned, the given
    identifiers, name, type and endpoint, and the status [pending]. *)
Theorem createWorkerHealthCheck_then_getWorkerHealthCheck
  (w : World) (p : CreateWorkerHealthCheck.params) :
  (exists run, In run (healthChecks (health w)) /\
     schema.healthChecks.healthCheckUuid run
       = CreateWorkerHealthCheck.healthCheckUuid p) ->
  (forall r, In r (workerHealthChecks (health w)) ->
     schema.workerHealthChecks.workerCheckUuid r
       <> CreateWorkerHealthCheck.workerCheckUuid p) ->
  exists i w' resp,
    createWorkerHealthCheck workerHealthChecks_defaults p w
      = (Returned {| id := i |}, w') /\
    getWorkerHealthCheck (CreateWorkerHealthCheck.workerCheckUuid p) w'
      = (Returned (Some resp), w') /\
    WorkerHealthCheckResponse.id resp = i /\
    WorkerHealthCheckResponse.workerCheckUuid resp
      = CreateWorkerHealthCheck.workerCheckUuid p /\
    WorkerHealthCheckResponse.healthCheckUuid resp
      = CreateWorkerHealthCheck.healthCheckUuid p /\
    WorkerHealthCheckResponse.workerName resp = CreateWorkerHealthCheck.workerName p /\
    WorkerHealthCheckResponse.workerType resp = CreateWorkerHealthCheck.workerType p /\
    WorkerHealthCheckResponse.workerUrl resp = CreateWorkerHealthCheck.workerUrl p /\
    WorkerHealthCheckResponse.status resp = "pending".
Proof.
  intros Hrun Hfresh.
  assert (forall r, In r (workerHealthChecks (health w)) ->
            hasWorkerUuid (CreateWorkerHealthCheck.workerCheckUuid p) r = false)
    as Hno.
  { intros r Hr. apply String.eqb_neq. now apply Hfresh. }
  assert (filter (hasWorkerUuid (CreateWorkerHealthCheck.workerCheckUuid p))
            (workerHealthChecks (health w)) = []) as Hnone
    by now apply HealthOpsSpec.filter_none.
  assert (existsb (hasWorkerUuid (CreateWorkerHealthCheck.workerCheckUuid p))
            (workerHealthChecks (health w)) = false) as Hex.
  { apply not_true_is_false. intros E. apply existsb_exists in E.
    destruct E as (r & Hr & E). rewrite (Hno r Hr) in E. discriminate. }
  apply HealthOpsSpec.stored_run_spec in Hrun.
  pose proof (HealthOpsSpec.createWorkerHealthCheck_outcome
                workerHealthChecks_defaults w p) as H.
  rewrite Hex, Hrun in H. cbn [negb] in H.
  destruct H as (row & Hc & _ & Hu & Hr & Hn & Ht & Hl & Hst & _).
  eexists _, _, _. split; [exact Hc|].
  split.
  - rewrite HealthOpsSpec.getWorkerHealthCheck_eq.
    cbn [health workerHealthChecks Date_now].
    rewrite first_limit_one, filter_snoc, Hnone.
    unfold hasWorkerUuid at 1. rewrite Hu, String.eqb_refl. reflexivity.
  - cbn. rewrite Hu, Hr, Hn, Ht, Hl, Hst. repeat split.
Qed.

End WithSchemaDefaults.

Lemma filter_map_update {A : Type} (c : A -> bool) (g : A -> A) (l : list A) :
  (forall r, c (g r) = c r) ->
  filter c (map (fun r => if c r then g r else r) l) = map g (filter c l).
Proof.
  intros Hc. induction l as [|x t IH]; simpl; [reflexivity|].
  destruct (c x) eqn:E; simpl.
  - rewrite Hc, E. simpl. now rewrite IH.
  - now rewrite E.
Qed.

Lemma filter_map_other {A : Type} (c c' : A -> bool) (g : A -> A) (l : list A) :
  (forall r, c r = true -> c' r = false /\ c' (g r) = false) ->
  filter c' (map (fun r => if c r then g r else r) l) = filter c' l.
Proof.
  intros Hc. induction l as [|x t IH]; simpl; [reflexivity|].
  destruct (c x) eqn:E.
  - destruct (Hc x E) as [-> ->]. exact IH.
  - destruct (c' x); now rewrite IH.
Qed.

Lemma first_map {A B : Type} (f : A -> B) (l : list A) :
  first (map f l) = option_map f (first l).
Proof. now destruct l. Qed.

Lemma assign_nullish {A : Type} (new old : option A) (d : A) :
  assign new old ?? d = new ?? (old ?? d).
Proof. now destruct new. Qed.

Lemma assign_idem {A : Type} (new old : option A) :
  assign new (assign new old) = assign new old.
Proof. now destruct new. Qed.

(** X3. Updating, with at least one field supplied, a run that a lookup
    finds, then looking it up again, returns the same run with every supplied
    field replaced and every other field as before; the row identifier, the
    identifier, the trigger, the worker total and the start, timeout and
    creation times are not changeable. *)
Theorem updateHealthCheck_then_getHealthCheck
  (w : World) (p : UpdateHealthCheck.params) (resp : HealthCheckResponse.t) :
  supplies_a_field p ->
  getHealthCheck (UpdateHealthCheck.healthCheckUuid p) w = (Returned (Some resp), w) ->
  exists w' resp',
    updateHealthCheck p w = (Returned {| ok := true |}, w') /\
    getHealthCheck (UpdateHealthCheck.healthCheckUuid p) w'
      = (Returned (Some resp'), w') /\
    HealthCheckResponse.status resp'
      = UpdateHealthCheck.status p ?? HealthCheckResponse.status resp /\
    HealthCheckResponse.completedWorkers resp'
      = UpdateHealthCheck.completedWorkers p ?? HealthCheckResponse.completedWorkers resp /\
    HealthCheckResponse.passedWorkers resp'
      = UpdateHealthCheck.passedWorkers p ?? HealthCheckResponse.passedWorkers resp /\
    HealthCheckResponse.failedWorkers resp'
      = UpdateHealthCheck.failedWorkers p ?? HealthCheckResponse.failedWorkers resp /\
    HealthCheckResponse.overallHealthScore resp'
      = UpdateHealthCheck.overallHealthScore p
          ?? HealthCheckResponse.overallHealthScore resp /\
    HealthCheckResponse.aiAnalysis resp'
      = assign (UpdateHealthCheck.aiAnalysis p) (HealthCheckResponse.aiAnalysis resp) /\
    HealthCheckResponse.aiRecommendations resp'
      = assign (UpdateHealthCheck.aiRecommendations p)
               (HealthCheckResponse.aiRecommendations resp) /\
    HealthCheckResponse.completedAt resp'
      = assign (UpdateHealthCheck.completedAt p) (HealthCheckResponse.completedAt resp) /\
    HealthCheckResponse.id resp' = HealthCheckResponse.id resp /\
    HealthCheckResponse.healthCheckUuid resp' = HealthCheckResponse.healthCheckUuid resp /\
    HealthCheckResponse.triggerType resp' = HealthCheckResponse.triggerType resp /\
    HealthCheckResponse.triggerSource resp' = HealthCheckResponse.triggerSource resp /\
    HealthCheckResponse.totalWorkers resp' = HealthCheckResponse.totalWorkers resp /\
    HealthCheckResponse.startedAt resp' = HealthCheckResponse.startedAt resp /\
    HealthCheckResponse.timeoutAt resp' = HealthCheckResponse.timeoutAt resp /\
    HealthCheckResponse.createdAt resp' = HealthCheckResponse.createdAt resp.
Proof.
  intros Hs Hget. apply HealthOpsSpec.supplies_a_field_spec in Hs.
  rewrite HealthOpsSpec.getHealthCheck_eq in Hget.
  injection Hget as Hget.
  destruct (first _) as [row|] eqn:Hrow; [|discriminate].
  injection Hget as <-.
  eexists _, _.
  split; [rewrite HealthOpsSpec.updateHealthCheck_eq, Hs; reflexivity|]. split.
  - rewrite HealthOpsSpec.getHealthCheck_eq. cbn [health healthChecks snd Date_now].
    rewrite first_limit_one in *.
    rewrite filter_map_update by reflexivity.
    rewrite first_map, Hrow. reflexivity.
  - cbn. rewrite !assign_nullish. repeat split.
Qed.

(** X4. The same for a worker result and an update that supplies at least
    one field: the supplied status, overall status, score and completion time
    replace the stored ones, the other fields stay. *)
Theorem updateWorkerHealthCheck_then_getWorkerHealthCheck
  (w : World) (p : UpdateWorkerHealthCheck.params)
  (resp : WorkerHealthCheckResponse.t) :
  supplies_a_worker_field p ->
  getWorkerHealthCheck (UpdateWorkerHealthCheck.workerCheckUuid p) w
    = (Returned (Some resp), w) ->
  exists w' resp',
    updateWorkerHealthCheck p w = (Returned {| ok := true |}, w') /\
    getWorkerHealthCheck (UpdateWorkerHealthCheck.workerCheckUuid p) w'
      = (Returned (Some resp'), w') /\
    WorkerHealthCheckResponse.status resp'
      = UpdateWorkerHealthCheck.status p ?? WorkerHealthCheckResponse.status resp /\
    WorkerHealthCheckResponse.overallStatus resp'
      = assign (UpdateWorkerHealthCheck.overallStatus p)
               (WorkerHealthCheckResponse.overallStatus resp) /\
    WorkerHealthCheckResponse.healthScore resp'
      = UpdateWorkerHealthCheck.healthScore p ?? WorkerHealthCheckResponse.healthScore resp /\
    WorkerHealthCheckResponse.completedAt resp'
      = assign (UpdateWorkerHealthCheck.completedAt p)
               (WorkerHealthCheckResponse.completedAt resp) /\
    WorkerHealthCheckResponse.id resp' = WorkerHealthCheckResponse.id resp /\
    WorkerHealthCheckResponse.workerCheckUuid resp'
      = WorkerHealthCheckResponse.workerCheckUuid resp /\
    WorkerHealthCheckResponse.healthCheckUuid resp'
      = WorkerHealthCheckResponse.healthCheckUuid resp /\
    WorkerHealthCheckResponse.workerName resp' = WorkerHealthCheckResponse.workerName resp /\
    WorkerHealthCheckResponse.workerType resp' = WorkerHealthCheckResponse.workerType resp /\
    WorkerHealthCheckResponse.workerUrl resp' = WorkerHealthCheckResponse.workerUrl resp /\
    WorkerHealthCheckResponse.createdAt resp' = WorkerHealthCheckResponse.createdAt resp.
Proof.
  intros Hs Hget. apply HealthOpsSpec.supplies_a_worker_field_spec in Hs.
  rewrite HealthOpsSpec.getWorkerHealthCheck_eq in Hget.
  injection Hget as Hget.
  destruct (first _) as [row|] eqn:Hrow; [|discriminate].
  injection Hget as <-.
  eexists _, _.
  split; [rewrite HealthOpsSpec.updateWorkerHealthCheck_eq, Hs; reflexivity|]. split.
  - rewrite HealthOpsSpec.getWorkerHealthCheck_eq.
    cbn [health workerHealthChecks snd Date_now].
    rewrite first_limit_one in *.
    rewrite filter_map_update by reflexivity.
    rewrite first_map, Hrow. reflexivity.
  - cbn. rewrite !assign_nullish. repeat split.
Qed.

(** X5. Updates are idempotent: applying the same update a second time
    leaves the store as the first application left it. *)
Theorem updates_idempotent :
  (forall (w : World) (p : UpdateHealthCheck.params),
     snd (updateHealthCheck p (snd (updateHealthCheck p w)))
       = snd (updateHealthCheck p w)) /\
  (forall (w : World) (p : UpdateWorkerHealthCheck.params),
     snd (updateWorkerHealthCheck p (snd (updateWorkerHealthCheck p w)))
       = snd (updateWorkerHealthCheck p w)).
Proof.
  split; intros w p.
  - rewrite !HealthOpsSpec.updateHealthCheck_eq.
    destruct (no_values (updateData_of p)); [reflexivity|].
    cbn [snd health healthChecks workerHealthChecks Date_now].
    do 2 f_equal. rewrite map_map. apply map_ext. intros r.
    destruct (hasUuid _ r) eqn:E.
    + change (hasUuid (UpdateHealthCheck.healthCheckUuid p)
                (set_healthCheck (updateData_of p) r))
        with (hasUuid (UpdateHealthCheck.healthCheckUuid p) r).
      rewrite E. unfold set_healthCheck. cbn. now rewrite !assign_idem.
    + now rewrite E.
  - rewrite !HealthOpsSpec.updateWorkerHealthCheck_eq.
    destruct (no_worker_values (worker_updateData_of p)); [reflexivity|].
    cbn [snd health healthChecks workerHealthChecks Date_now].
    do 2 f_equal. rewrite map_map. apply map_ext. intros r.
    destruct (hasWorkerUuid _ r) eqn:E.
    + change (hasWorkerUuid (UpdateWorkerHealthCheck.workerCheckUuid p)
                (set_workerHealthCheck (worker_updateData_of p) r))
        with (hasWorkerUuid (UpdateWorkerHealthCheck.workerCheckUuid p) r).
      rewrite E. unfold set_workerHealthCheck. cbn. now rewrite !assign_idem.
    + now rewrite E.
Qed.

Lemma first_filter_update {A : Type} (c c' : A -> bool) (g : A -> A)
  (l : list A) (x : A) :
  (forall r, c' (g r) = c' r) ->
  first (filter c' l) = Some x ->
  first (filter c' (map (fun r => if c r then g r else r) l))
    = Some (if c x then g x else x).
Proof.
  intros Hc. induction l as [|y t IH]; simpl; [discriminate|].
  assert (c' (if c y then g y else y) = c' y) as -> by (destruct (c y); auto).
  destruct (c' y); [|exact IH].
  intros [= ->]. reflexivity.
Qed.

Section Writes.
Variable healthChecks_defaults : Z -> schema.healthChecks.Row.
Variable workerHealthChecks_defaults : Z -> schema.workerHealthChecks.Row.

#[local] Abbreviation perform :=
  (HealthOps.perform healthChecks_defaults workerHealthChecks_defaults).

(** X6. A write under one identifier leaves the lookup of every other
    identifier as it was: a creation or update of a run changes the lookup
    of no other run and of no result, and a creation or update of a result
    changes the lookup of no other result and of no run. *)
Theorem writes_leave_other_lookups (op : Write) (w : World) (uuid : string) :
  (~ writes_run op uuid ->
   fst (getHealthCheck uuid (perform op w)) = fst (getHealthCheck uuid w)) /\
  (~ writes_result op uuid ->
   fst (getWorkerHealthCheck uuid (perform op w))
     = fst (getWorkerHealthCheck uuid w)).
Proof.
  rewrite !HealthOpsSpec.getHealthCheck_eq, !HealthOpsSpec.getWorkerHealthCheck_eq.
  cbn [fst]. rewrite !first_limit_one, HealthOpsSpec.clock_after_write.
  split; intros Hother; destruct op as [p|p|p|p]; simpl in Hother;
    cbn [HealthOps.perform].
  - pose proof (HealthOpsSpec.createHealthCheck_outcome healthChecks_defaults w p) as H.
    destruct (existsb _ _); [now rewrite H|].
    destruct H as (row & -> & _ & Hu & _). cbn [snd health healthChecks].
    rewrite filter_snoc. unfold hasUuid at 2. rewrite Hu.
    apply String.eqb_neq in Hother. rewrite Hother. now rewrite app_nil_r.
  - rewrite HealthOpsSpec.updateHealthCheck_eq.
    destruct (no_values _); [reflexivity|]. cbn [snd health healthChecks].
    rewrite filter_map_other; [reflexivity|].
    intros r Hr. apply String.eqb_eq in Hr.
    assert (hasUuid uuid r = false) as E
      by (apply String.eqb_neq; congruence).
    split; [exact E | exact E].
  - pose proof (HealthOpsSpec.createWorkerHealthCheck_outcome
                  workerHealthChecks_defaults w p) as H.
    destruct (existsb _ _); [now rewrite H|].
    destruct (negb _); [now rewrite H|].
    destruct H as (row & -> & _). reflexivity.
  - rewrite HealthOpsSpec.updateWorkerHealthCheck_eq.
    now destruct (no_worker_values _).
  - pose proof (HealthOpsSpec.createHealthCheck_outcome healthChecks_defaults w p) as H.
    destruct (existsb _ _); [now rewrite H|].
    destruct H as (row & -> & _). reflexivity.
  - rewrite HealthOpsSpec.updateHealthCheck_eq.
    now destruct (no_values _).
  - pose proof (HealthOpsSpec.createWorkerHealthCheck_outcome
                  workerHealthChecks_defaults w p) as H.
    destruct (existsb _ _); [now rewrite H|].
    destruct (negb _); [now rewrite H|].
    destruct H as (row & -> & _ & Hu & _). cbn [snd health workerHealthChecks].
    rewrite filter_snoc. unfold hasWorkerUuid at 2. rewrite Hu.
    apply String.eqb_neq in Hother. rewrite Hother. now rewrite app_nil_r.
  - rewrite HealthOpsSpec.updateWorkerHealthCheck_eq.
    destruct (no_worker_values _); [reflexivity|].
    cbn [snd health workerHealthChecks].
    rewrite filter_map_other; [reflexivity|].
    intros r Hr. apply String.eqb_eq in Hr.
    assert (hasWorkerUuid uuid r = false) as E
      by (apply String.eqb_neq; congruence).
    split; [exact E | exact E].
Qed.

(** X7. No write makes a stored entity disappear or changes its identity:
    a run that a lookup finds is still found after any write, with the same
    row identifier, identifier, trigger, worker total and start, timeout and
    creation times; a result that a lookup finds is still found, with the
    same row identifier, identifiers, worker name, type and endpoint and
    creation time. *)
Theorem writes_keep_entities (op : Write) (w : World) (uuid : string) :
  (forall resp,
     fst (getHealthCheck uuid w) = Returned (Some resp) ->
     exists resp',
       fst (getHealthCheck uuid (perform op w)) = Returned (Some resp') /\
       HealthCheckResponse.id resp' = HealthCheckResponse.id resp /\
       HealthCheckResponse.healthCheckUuid resp' = uuid /\
       HealthCheckResponse.triggerType resp' = HealthCheckResponse.triggerType resp /\
       HealthCheckResponse.triggerSource resp' = HealthCheckResponse.triggerSource resp /\
       HealthCheckResponse.totalWorkers resp' = HealthCheckResponse.totalWorkers resp /\
       HealthCheckResponse.startedAt resp' = HealthCheckResponse.startedAt resp /\
       HealthCheckResponse.timeoutAt resp' = HealthCheckResponse.timeoutAt resp /\
       HealthCheckResponse.createdAt resp' = HealthCheckResponse.createdAt resp) /\
  (forall resp,
     fst (getWorkerHealthCheck uuid w) = Returned (Some resp) ->
     exists resp',
       fst (getWorkerHealthCheck uuid (perform op w)) = Returned (Some resp') /\
       WorkerHealthCheckResponse.id resp' = WorkerHealthCheckResponse.id resp /\
       WorkerHealthCheckResponse.workerCheckUuid resp' = uuid /\
       WorkerHealthCheckResponse.healthCheckUuid resp'
         = WorkerHealthCheckResponse.healthCheckUuid resp /\
       WorkerHealthCheckResponse.workerName resp'
         = WorkerHealthCheckResponse.workerName resp /\
       WorkerHealthCheckResponse.workerType resp'
         = WorkerHealthCheckResponse.workerType resp /\
       WorkerHealthCheckResponse.workerUrl resp'
         = WorkerHealthCheckResponse.workerUrl resp /\
       WorkerHealthCheckResponse.createdAt resp'
         = WorkerHealthCheckResponse.createdAt resp).
Proof.
  rewrite !HealthOpsSpec.getHealthCheck_eq, !HealthOpsSpec.getWorkerHealthCheck_eq.
  cbn [fst]. rewrite !first_limit_one, HealthOpsSpec.clock_after_write.
  destruct (HealthOpsSpec.runs_after_write healthChecks_defaults
              workerHealthChecks_defaults op w) as (c & u & added & -> & _).
  destruct (HealthOpsSpec.results_after_write healthChecks_defaults
              workerHealthChecks_defaults op w) as (c' & u' & added' & -> & _).
  split; intros resp Hget; injection Hget as Hget;
    destruct (first _) as [row|] eqn:Hrow; try discriminate;
    injection Hget as <-;
    pose proof Hrow as Huuid;
    rewrite <- first_limit_one in Huuid;
    apply HealthOpsSpec.first_filter in Huuid; destruct Huuid as [_ Huuid];
    apply String.eqb_eq in Huuid;
    rewrite filter_app;
    erewrite first_app
      by (apply first_filter_update; [reflexivity | exact Hrow]);
    eexists; (split; [reflexivity|]).
  - destruct (c row); now repeat split.
  - destruct (c' row); now repeat split.
Qed.

End Writes.

Lemma page_length {A : Type} (lim off : Z) (l : list A) :
  0 <= lim -> 0 <= off ->
  Z.of_nat (List.length (Sql.limit lim (Sql.offset off l)))
    = Z.min lim (Z.max 0 (Z.of_nat (List.length l) - off)).
Proof.
  intros Hl Ho. unfold Sql.limit, Sql.offset.
  destruct (lim <? 0) eqn:E; [apply Z.ltb_lt in E; lia|].
  rewrite length_firstn, length_skipn. lia.
Qed.

Lemma firstn_plus {A : Type} (n k : nat) (l : list A) :
  firstn (n + k) l = (firstn n l ++ firstn k (skipn n l))%list.
Proof.
  revert l. induction n as [|n IH]; intros [|x t]; simpl;
    rewrite ?firstn_nil; trivial.
  now rewrite IH.
Qed.

Lemma page_app {A : Type} (l1 l2 off : Z) (l : list A) :
  0 <= l1 -> 0 <= l2 -> 0 <= off ->
  (Sql.limit l1 (Sql.offset off l) ++ Sql.limit l2 (Sql.offset (off + l1) l))%list
    = Sql.limit (l1 + l2) (Sql.offset off l).
Proof.
  intros H1 H2 Ho. unfold Sql.limit, Sql.offset.
  destruct (l1 <? 0) eqn:E1; [apply Z.ltb_lt in E1; lia|].
  destruct (l2 <? 0) eqn:E2; [apply Z.ltb_lt in E2; lia|].
  destruct (l1 + l2 <? 0) eqn:E3; [apply Z.ltb_lt in E3; lia|].
  rewrite !Z2Nat.inj_add by lia.
  rewrite firstn_plus, skipn_skipn.
  now rewrite (Nat.add_comm (Z.to_nat l1)).
Qed.

(** X8. With a limit and an offset that are not negative, a listing returns
    exactly min(limit, max(0, total - offset)) items, and [hasMore] is true
    exactly when matching rows remain after the returned page. *)
Theorem page_size_and_hasMore (w : World) (lim off : option Z) :
  (forall triggerType status,
     0 <= lim ?? 50 -> 0 <= off ?? 0 ->
     exists resp,
       getHealthChecks triggerType status lim off w = (Returned resp, w) /\
       Z.of_nat (List.length (data resp))
         = Z.min (limit (pagination resp))
                 (Z.max 0 (total (pagination resp) - offset (pagination resp))) /\
       (hasMore (pagination resp) = true <->
        offset (pagination resp) + Z.of_nat (List.length (data resp))
          < total (pagination resp))) /\
  (forall healthCheckUuid,
     0 <= lim ?? 100 -> 0 <= off ?? 0 ->
     exists resp,
       getWorkerHealthChecks healthCheckUuid lim off w = (Returned resp, w) /\
       Z.of_nat (List.length (data resp))
         = Z.min (limit (pagination resp))
                 (Z.max 0 (total (pagination resp) - offset (pagination resp))) /\
       (hasMore (pagination resp) = true <->
        offset (pagination resp) + Z.of_nat (List.length (data resp))
          < total (pagination resp))).
Proof.
  split; intros; eexists;
    (split; [first [apply HealthOpsSpec.getHealthChecks_accepted
                   | apply HealthOpsSpec.getWorkerHealthChecks_accepted];
             now left|]);
    unfold healthChecks_listing, workerHealthChecks_listing;
    cbn [data pagination limit offset total hasMore];
    rewrite length_map, page_length, SqlFacts.order_by_length by assumption;
    rewrite Z.ltb_lt; lia.
Qed.

(** X9. Consecutive pages join: with limits and an offset that are not
    negative, the page at [offset] of size [l1] followed by the page at
    [offset + l1] of size [l2] is the page at [offset] of size [l1 + l2]. *)
Theorem consecutive_pages_join (w : World) (l1 l2 off : Z) :
  0 <= l1 -> 0 <= l2 -> 0 <= off ->
  (forall triggerType status,
   exists r1 r2 r12,
     getHealthChecks triggerType status (Some l1) (Some off) w = (Returned r1, w) /\
     getHealthChecks triggerType status (Some l2) (Some (off + l1)) w
       = (Returned r2, w) /\
     getHealthChecks triggerType status (Some (l1 + l2)) (Some off) w
       = (Returned r12, w) /\
     (data r1 ++ data r2)%list = data r12) /\
  (forall healthCheckUuid,
   exists r1 r2 r12,
     getWorkerHealthChecks healthCheckUuid (Some l1) (Some off) w = (Returned r1, w) /\
     getWorkerHealthChecks healthCheckUuid (Some l2) (Some (off + l1)) w
       = (Returned r2, w) /\
     getWorkerHealthChecks healthCheckUuid (Some (l1 + l2)) (Some off) w
       = (Returned r12, w) /\
     (data r1 ++ data r2)%list = data r12).
Proof.
  intros H1 H2 Ho.
  assert (forall l d, 0 <= l -> 0 <= Some l ?? d) as Hl by (intros; assumption).
  split; intros; eexists _, _, _;
    (split; [first [apply HealthOpsSpec.getHealthChecks_accepted
                   | apply HealthOpsSpec.getWorkerHealthChecks_accepted];
             left; apply Hl; lia|]);
    (split; [first [apply HealthOpsSpec.getHealthChecks_accepted
                   | apply HealthOpsSpec.getWorkerHealthChecks_accepted];
             left; apply Hl; lia|]);
    (split; [first [apply HealthOpsSpec.getHealthChecks_accepted
                   | apply HealthOpsSpec.getWorkerHealthChecks_accepted];
             left; apply Hl; lia|]);
    unfold healthChecks_listing, workerHealthChecks_listing;
    cbn [data nullish]; rewrite <- map_app; f_equal; now apply page_app.
Qed.

(** X10. A listing from offset 0 whose limit is negative or at least the
    total returns every matching row exactly once; with such a limit that is
    not negative, [hasMore] is false. *)
Theorem full_listing_is_complete (w : World) (lim : option Z) :
  (forall triggerType status,
     let matching :=
       filter (where_ (conditions triggerType status)) (healthChecks (health w)) in
     lim ?? 50 < 0 \/ Z.of_nat (List.length matching) <= lim ?? 50 ->
     exists resp,
       getHealthChecks triggerType status lim None w = (Returned resp, w) /\
       Permutation (map (toHealthCheckResponse (Date_now w)) matching) (data resp) /\
       (0 <= lim ?? 50 -> hasMore (pagination resp) = false)) /\
  (forall healthCheckUuid,
     let matching :=
       filter (ofRun healthCheckUuid) (workerHealthChecks (health w)) in
     lim ?? 100 < 0 \/ Z.of_nat (List.length matching) <= lim ?? 100 ->
     exists resp,
       getWorkerHealthChecks healthCheckUuid lim None w = (Returned resp, w) /\
       Permutation (map (toWorkerHealthCheckResponse (Date_now w)) matching)
                   (data resp) /\
       (0 <= lim ?? 100 -> hasMore (pagination resp) = false)).
Proof.
  assert (forall (A : Type) (leb : A -> A -> bool) (n : Z) (l : list A),
            n < 0 \/ Z.of_nat (List.length l) <= n ->
            Sql.limit n (Sql.offset 0 (Sql.order_by leb l)) = Sql.order_by leb l)
    as Hall.
  { intros A leb n l Hn. unfold Sql.limit, Sql.offset. simpl.
    destruct (n <? 0) eqn:E; [reflexivity|]. apply Z.ltb_ge in E.
    apply firstn_all2. rewrite SqlFacts.order_by_length. lia. }
  split; intros; eexists;
    (split; [first [apply HealthOpsSpec.getHealthChecks_accepted
                   | apply HealthOpsSpec.getWorkerHealthChecks_accepted];
             now right|]);
    unfold healthChecks_listing, workerHealthChecks_listing;
    cbn [data pagination hasMore]; change (None ?? 0) with 0;
    (rewrite Hall by assumption); (split;
      [apply Permutation_map, SqlFacts.order_by_perm
      | intros Hl; apply Z.ltb_ge; subst matching; lia]).
Qed.

(** X11. Listings respect their filters: every run a listing returns has
    the trigger type and the status that were asked for, an empty string
    asking for nothing; every result a listing returns belongs to the run
    that was asked for. *)
Theorem listings_respect_filters (w : World) (lim off : option Z) :
  (forall triggerType status resp item,
     getHealthChecks triggerType status lim off w = (Returned resp, w) ->
     In item (data resp) ->
     (JS.truthy triggerType = true ->
      Some (HealthCheckResponse.triggerType item) = triggerType) /\
     (JS.truthy status = true -> Some (HealthCheckResponse.status item) = status)) /\
  (forall status,
     getHealthChecks (Some EmptyString) status lim off w
       = getHealthChecks None status lim off w) /\
  (forall triggerType,
     getHealthChecks triggerType (Some EmptyString) lim off w
       = getHealthChecks triggerType None lim off w) /\
  (forall healthCheckUuid resp item,
     getWorkerHealthChecks healthCheckUuid lim off w = (Returned resp, w) ->
     In item (data resp) ->
     WorkerHealthCheckResponse.healthCheckUuid item = healthCheckUuid).
Proof.
  split; [|split; [reflexivity|split]].
  - intros triggerType status resp item Hret Hin.
    rewrite HealthOpsSpec.getHealthChecks_eq in Hret.
    destruct (_ && _); [discriminate|]. injection Hret as <-.
    cbn [data healthChecks_listing] in Hin. apply in_map_iff in Hin.
    destruct Hin as (row & <- & Hrow).
    apply HealthOpsSpec.page_In, filter_In in Hrow. destruct Hrow as [_ Hrow].
    apply HealthOpsSpec.where_conditions in Hrow. destruct Hrow as [Ht Hs].
    split; [exact Ht|]. intros Hst. specialize (Hs Hst).
    cbn. rewrite Hs. now destruct status.
  - intros triggerType. unfold getHealthChecks, conditions.
    destruct triggerType as [t|]; reflexivity.
  - intros healthCheckUuid resp item Hret Hin.
    rewrite HealthOpsSpec.getWorkerHealthChecks_eq in Hret.
    destruct (_ && _); [discriminate|]. injection Hret as <-.
    cbn [data workerHealthChecks_listing] in Hin. apply in_map_iff in Hin.
    destruct Hin as (row & <- & Hrow).
    apply HealthOpsSpec.page_In, filter_In in Hrow. destruct Hrow as [_ Hrow].
    now apply String.eqb_eq in Hrow.
Qed.

Lemma filter_map_same {A : Type} (c : A -> bool) (f : A -> A) (l : list A) :
  (forall r, c (f r) = c r) ->
  List.length (filter c (map f l)) = List.length (filter c l).
Proof.
  intros Hc. induction l as [|x t IH]; simpl; [reflexivity|].
  rewrite Hc. destruct (c x); simpl; now rewrite IH.
Qed.

Section Totals.
Variable healthChecks_defaults : Z -> schema.healthChecks.Row.
Variable workerHealthChecks_defaults : Z -> schema.workerHealthChecks.Row.

#[local] Abbreviation perform :=
  (HealthOps.perform healthChecks_defaults workerHealthChecks_defaults).

(** X12. The total of a run's result listing counts the results created
    for that run.  For pagination choices the store accepts (a limit that is
    not negative, or offset 0): a write raises the total by one when it is a
    creation of a result for the run that returns, and leaves it as it was
    otherwise, so a refused creation and an update change no total.  A
    creation returns exactly when no stored result has its check identifier
    and a stored run has its run identifier. *)
Theorem result_total_after_write
  (op : Write) (w : World) (healthCheckUuid : string) (lim off : option Z) :
  0 <= lim ?? 100 \/ off ?? 0 = 0 ->
  (exists before after,
     getWorkerHealthChecks healthCheckUuid lim off w = (Returned before, w) /\
     getWorkerHealthChecks healthCheckUuid lim off (perform op w)
       = (Returned after, perform op w) /\
     total (pagination after) =
       total (pagination before) +
       match op with
       | WCreateWorkerHealthCheck p =>
           match fst (createWorkerHealthCheck workerHealthChecks_defaults p w) with
           | Returned _ =>
               if (CreateWorkerHealthCheck.healthCheckUuid p =? healthCheckUuid)%string
               then 1 else 0
           | Thrown _ => 0
           end
       | _ => 0
       end) /\
  (forall p,
     (exists i, fst (createWorkerHealthCheck workerHealthChecks_defaults p w)
                  = Returned i) <->
     (forall r, In r (workerHealthChecks (health w)) ->
        schema.workerHealthChecks.workerCheckUuid r
          <> CreateWorkerHealthCheck.workerCheckUuid p) /\
     (exists run, In run (healthChecks (health w)) /\
        schema.healthChecks.healthCheckUuid run
          = CreateWorkerHealthCheck.healthCheckUuid p)).
Proof.
  intros Hacc. split.
  - eexists _, _.
    split; [now apply HealthOpsSpec.getWorkerHealthChecks_accepted|].
    split; [now apply HealthOpsSpec.getWorkerHealthChecks_accepted|].
    unfold workerHealthChecks_listing. cbn [pagination total].
    destruct op as [p|p|p|p]; cbn [HealthOps.perform].
    + pose proof (HealthOpsSpec.createHealthCheck_outcome
                    healthChecks_defaults w p) as H.
      destruct (existsb _ _); [rewrite H; cbn [snd]; lia|].
      destruct H as (row & -> & _). cbn [snd health workerHealthChecks]. lia.
    + rewrite HealthOpsSpec.updateHealthCheck_eq.
      destruct (no_values _); cbn [snd health workerHealthChecks]; lia.
    + pose proof (HealthOpsSpec.createWorkerHealthCheck_outcome
                    workerHealthChecks_defaults w p) as H.
      destruct (existsb _ _); [rewrite H; cbn [fst snd]; lia|].
      destruct (negb _); [rewrite H; cbn [fst snd]; lia|].
      destruct H as (row & -> & _ & _ & Hr & _).
      cbn [fst snd health workerHealthChecks].
      rewrite filter_snoc, length_app. unfold ofRun at 2. rewrite Hr.
      destruct (_ =? _)%string; simpl List.length; lia.
    + rewrite HealthOpsSpec.updateWorkerHealthCheck_eq.
      destruct (no_worker_values _); cbn [snd health workerHealthChecks]; [lia|].
      rewrite filter_map_same; [lia|].
      intros r. now destruct (hasWorkerUuid _ r).
  - intros p. rewrite <- HealthOpsSpec.stored_run_spec.
    pose proof (HealthOpsSpec.createWorkerHealthCheck_outcome
                  workerHealthChecks_defaults w p) as H.
    destruct (existsb _ (workerHealthChecks (health w))) eqn:Ex.
    + rewrite H. cbn [fst]. split; [intros [i Hi]; discriminate|].
      intros [Hfresh _]. apply existsb_exists in Ex.
      destruct Ex as (r & Hr & E). apply String.eqb_eq in E.
      now destruct (Hfresh r Hr).
    + assert (forall r, In r (workerHealthChecks (health w)) ->
                schema.workerHealthChecks.workerCheckUuid r
                  <> CreateWorkerHealthCheck.workerCheckUuid p) as Hfresh.
      { intros r Hr E. apply not_true_iff_false in Ex. apply Ex.
        apply existsb_exists. exists r. split; [exact Hr|].
        now apply String.eqb_eq. }
      destruct (existsb _ (healthChecks (health w))); cbn [negb] in H.
      * destruct H as (row & -> & _). cbn [fst].
        split; [now split | intros _; now eexists].
      * rewrite H. cbn [fst].
        split; [intros [i Hi]; discriminate | intros [_ Hrun]; discriminate].
Qed.

End Totals.

(** *** The properties above on the sample store *)

Lemma sample_run_ids (uuid : string) :
  In uuid ["run-1"; "run-2"; "run-3"] \/
  forall r, In r (healthChecks (health MoreSamples.sample_world)) ->
            schema.healthChecks.healthCheckUuid r <> uuid.
Proof.
  destruct (in_dec string_dec uuid ["run-1"; "run-2"; "run-3"]) as [H|H];
    [now left | right].
  intros r Hr <-. apply H. simpl in Hr.
  destruct Hr as [<-|[<-|[<-|[]]]]; simpl; auto.
Qed.

Lemma create_run_then_get_sample :
  (forall r, In r (healthChecks (health MoreSamples.sample_world)) ->
     schema.healthChecks.healthCheckUuid r <> "run-4") /\
  exists w' resp,
    createHealthCheck Samples.healthChecks_stamped (Samples.new_run "run-4")
        MoreSamples.sample_world
      = (Returned {| id := 4 |}, w') /\
    getHealthCheck "run-4" w' = (Returned (Some resp), w') /\
    HealthCheckResponse.id resp = 4 /\
    HealthCheckResponse.status resp = "running" /\
    HealthCheckResponse.totalWorkers resp = 3.
Proof.
  assert (forall r, In r (healthChecks (health MoreSamples.sample_world)) ->
            schema.healthChecks.healthCheckUuid r <> "run-4") as Hfresh.
  { destruct (sample_run_ids "run-4") as [[H|[H|[H|[]]]]|H];
      try discriminate H. exact H. }
  split; [exact Hfresh|].
  destruct (createHealthCheck_then_getHealthCheck Samples.healthChecks_stamped
              MoreSamples.sample_world (Samples.new_run "run-4") Hfresh)
    as (i & w' & resp & Hc & Hg & Hi & _ & _ & _ & Hs & Ht & _).
  exists w', resp.
  assert (i = 4) as -> by (injection Hc as <- _; reflexivity).
  repeat split; assumption.
Defined.

Lemma create_result_then_get_sample :
  (exists run, In run (healthChecks (health MoreSamples.sample_world)) /\
     schema.healthChecks.healthCheckUuid run = "run-1") /\
  (forall r, In r (workerHealthChecks (health MoreSamples.sample_world)) ->
     schema.workerHealthChecks.workerCheckUuid r <> "chk-3") /\
  exists w' resp,
    createWorkerHealthCheck Samples.workerHealthChecks_stamped
        (Samples.new_result "chk-3" "run-1") MoreSamples.sample_world
      = (Returned {| id := 3 |}, w') /\
    getWorkerHealthCheck "chk-3" w' = (Returned (Some resp), w') /\
    WorkerHealthCheckResponse.healthCheckUuid resp = "run-1" /\
    WorkerHealthCheckResponse.status resp = "pending".
Proof.
  assert (forall r, In r (workerHealthChecks (health MoreSamples.sample_world)) ->
            schema.workerHealthChecks.workerCheckUuid r <> "chk-3") as Hfresh.
  { intros r Hr. simpl in Hr. destruct Hr as [<-|[<-|[]]]; discriminate. }
  assert (exists run, In run (healthChecks (health MoreSamples.sample_world)) /\
            schema.healthChecks.healthCheckUuid run = "run-1") as Hrun
    by (apply HealthOpsSpec.stored_run_spec; reflexivity).
  split; [exact Hrun|]. split; [exact Hfresh|].
  destruct (createWorkerHealthCheck_then_getWorkerHealthCheck
              Samples.workerHealthChecks_stamped
              MoreSamples.sample_world (Samples.new_result "chk-3" "run-1")
              Hrun Hfresh)
    as (i & w' & resp & Hc & Hg & _ & _ & Hr & _ & _ & _ & Hs).
  exists w', resp.
  assert (i = 3) as -> by (injection Hc as <- _; reflexivity).
  repeat split; assumption.
Defined.

Lemma update_run_then_get_sample :
  supplies_a_field (Samples.score_run "run-1" (1 # 2)) /\
  exists resp w' resp',
    getHealthCheck "run-1" MoreSamples.sample_world
      = (Returned (Some resp), MoreSamples.sample_world) /\
    updateHealthCheck (Samples.score_run "run-1" (1 # 2)) MoreSamples.sample_world
      = (Returned {| ok := true |}, w') /\
    getHealthCheck "run-1" w' = (Returned (Some resp'), w') /\
    HealthCheckResponse.overallHealthScore resp = 0%Q /\
    HealthCheckResponse.overallHealthScore resp' = 1 # 2 /\
    HealthCheckResponse.status resp' = "running" /\
    HealthCheckResponse.startedAt resp' = 10.
Proof.
  assert (supplies_a_field (Samples.score_run "run-1" (1 # 2))) as Hs
    by (apply HealthOpsSpec.supplies_a_field_spec; reflexivity).
  split; [exact Hs|].
  eexists.
  assert (getHealthCheck "run-1" MoreSamples.sample_world
            = (Returned (Some _), MoreSamples.sample_world)) as Hget
    by reflexivity.
  destruct (updateHealthCheck_then_getHealthCheck MoreSamples.sample_world
              (Samples.score_run "run-1" (1 # 2)) _ Hs Hget)
    as (w' & resp' & Hu & Hg & Hst & _ & _ & _ & Hsc & _ & _ & _ & _ & _ & _ & _
        & _ & Hsa & _).
  exists w', resp'. repeat split; assumption.
Defined.

Lemma update_result_then_get_sample :
  supplies_a_worker_field (MoreSamples.complete_result "chk-1" (3 # 4) 41) /\
  exists resp w' resp',
    getWorkerHealthCheck "chk-1" MoreSamples.sample_world
      = (Returned (Some resp), MoreSamples.sample_world) /\
    updateWorkerHealthCheck (MoreSamples.complete_result "chk-1" (3 # 4) 41)
        MoreSamples.sample_world
      = (Returned {| ok := true |}, w') /\
    getWorkerHealthCheck "chk-1" w' = (Returned (Some resp'), w') /\
    WorkerHealthCheckResponse.status resp = "pending" /\
    WorkerHealthCheckResponse.status resp' = "completed" /\
    WorkerHealthCheckResponse.healthScore resp' = 3 # 4 /\
    WorkerHealthCheckResponse.completedAt resp' = Some 41 /\
    WorkerHealthCheckResponse.healthCheckUuid resp' = "run-2".
Proof.
  assert (supplies_a_worker_field
            (MoreSamples.complete_result "chk-1" (3 # 4) 41)) as Hs
    by (apply HealthOpsSpec.supplies_a_worker_field_spec; reflexivity).
  split; [exact Hs|].
  eexists.
  assert (getWorkerHealthCheck "chk-1" MoreSamples.sample_world
            = (Returned (Some _), MoreSamples.sample_world)) as Hget
    by reflexivity.
  destruct (updateWorkerHealthCheck_then_getWorkerHealthCheck
              MoreSamples.sample_world
              (MoreSamples.complete_result "chk-1" (3 # 4) 41) _ Hs Hget)
    as (w' & resp' & Hu & Hg & Hst & _ & Hsc & Hc & _ & _ & Hr & _).
  exists w', resp'. repeat split; assumption.
Defined.

Lemma update_leaves_other_run_sample :
  ~ writes_run (WUpdateHealthCheck (Samples.score_run "run-1" (1 # 2))) "run-2" /\
  fst (getHealthCheck "run-2"
         (HealthOps.perform Samples.healthChecks_stamped
            Samples.workerHealthChecks_stamped
            (WUpdateHealthCheck (Samples.score_run "run-1" (1 # 2)))
            MoreSamples.sample_world))
    = fst (getHealthCheck "run-2" MoreSamples.sample_world).
Proof.
  assert (~ writes_run (WUpdateHealthCheck (Samples.score_run "run-1" (1 # 2)))
            "run-2") as Hother by (simpl; discriminate).
  split; [exact Hother|].
  exact (proj1 (writes_leave_other_lookups Samples.healthChecks_stamped
                  Samples.workerHealthChecks_stamped _
                  MoreSamples.sample_world "run-2") Hother).
Defined.

(** A creation under the stored identifier run-2 is refused, and the lookup
    still returns row 2. *)
Lemma duplicate_run_keeps_first_sample :
  exists resp resp',
    fst (getHealthCheck "run-2" MoreSamples.sample_world) = Returned (Some resp) /\
    fst (getHealthCheck "run-2"
           (HealthOps.perform Samples.healthChecks_stamped
              Samples.workerHealthChecks_stamped
              (WCreateHealthCheck (Samples.new_run "run-2"))
              MoreSamples.sample_world))
      = Returned (Some resp') /\
    HealthCheckResponse.id resp = 2 /\
    HealthCheckResponse.id resp' = 2 /\
    HealthCheckResponse.startedAt resp' = 20.
Proof.
  eexists.
  assert (fst (getHealthCheck "run-2" MoreSamples.sample_world)
            = Returned (Some _)) as Hget by reflexivity.
  destruct (proj1 (writes_keep_entities Samples.healthChecks_stamped
                     Samples.workerHealthChecks_stamped
                     (WCreateHealthCheck (Samples.new_run "run-2"))
                     MoreSamples.sample_world "run-2") _ Hget)
    as (resp' & Hg & Hid & _ & _ & _ & _ & Hsa & _).
  exists resp'. repeat split; assumption.
Defined.

Lemma page_size_sample :
  0 <= 2 /\ 0 <= 1 /\
  exists resp,
    getHealthChecks None None (Some 2) (Some 1) MoreSamples.sample_world
      = (Returned resp, MoreSamples.sample_world) /\
    Z.of_nat (List.length (data resp)) = 2 /\
    hasMore (pagination resp) = false.
Proof.
  assert (0 <= 2) as H2 by lia. assert (0 <= 1) as H1 by lia.
  split; [exact H2|]. split; [exact H1|].
  destruct (proj1 (page_size_and_hasMore MoreSamples.sample_world (Some 2) (Some 1))
              None None H2 H1) as (resp & Hret & Hlen & Hmore).
  exists resp. split; [exact Hret|].
  rewrite HealthOpsSpec.getHealthChecks_eq in Hret. injection Hret as <-.
  split; reflexivity.
Defined.

Lemma consecutive_pages_sample :
  0 <= 1 /\ 0 <= 2 /\ 0 <= 0 /\
  exists r1 r2 r12,
    getHealthChecks None None (Some 1) (Some 0) MoreSamples.sample_world
      = (Returned r1, MoreSamples.sample_world) /\
    getHealthChecks None None (Some 2) (Some 1) MoreSamples.sample_world
      = (Returned r2, MoreSamples.sample_world) /\
    getHealthChecks None None (Some 3) (Some 0) MoreSamples.sample_world
      = (Returned r12, MoreSamples.sample_world) /\
    (data r1 ++ data r2)%list = data r12 /\
    map HealthCheckResponse.healthCheckUuid (data r12) = ["run-3"; "run-2"; "run-1"].
Proof.
  assert (0 <= 1) as H1 by lia. assert (0 <= 2) as H2 by lia.
  assert (0 <= 0) as H0 by lia.
  split; [exact H1|]. split; [exact H2|]. split; [exact H0|].
  destruct (proj1 (consecutive_pages_join MoreSamples.sample_world 1 2 0 H1 H2 H0)
              None None) as (r1 & r2 & r12 & Hr1 & Hr2 & Hr12 & Hjoin).
  exists r1, r2, r12. repeat split; try assumption.
  change (1 + 2) with 3 in Hr12.
  rewrite HealthOpsSpec.getHealthChecks_eq in Hr12. injection Hr12 as <-.
  reflexivity.
Defined.

Lemma full_listing_sample :
  (None ?? 50 < 0 \/
   Z.of_nat (List.length
     (filter (where_ (conditions None (Some "running")))
             (healthChecks (health MoreSamples.sample_world)))) <= None ?? 50) /\
  exists resp,
    getHealthChecks None (Some "running") None None MoreSamples.sample_world
      = (Returned resp, MoreSamples.sample_world) /\
    List.length (data resp) = 3%nat /\
    hasMore (pagination resp) = false.
Proof.
  assert (None ?? 50 < 0 \/
          Z.of_nat (List.length
            (filter (where_ (conditions None (Some "running")))
                    (healthChecks (health MoreSamples.sample_world)))) <= None ?? 50)
    as Hall by (right; simpl; lia).
  split; [exact Hall|].
  destruct (proj1 (full_listing_is_complete MoreSamples.sample_world None)
              None (Some "running") Hall) as (resp & Hret & Hperm & Hmore).
  exists resp. split; [exact Hret|]. split.
  - apply Permutation_length in Hperm. rewrite <- Hperm. reflexivity.
  - apply Hmore. simpl. lia.
Defined.

Lemma filtered_listing_sample :
  exists resp,
    getHealthChecks (Some "manual") (Some "running") None None
        MoreSamples.sample_world
      = (Returned resp, MoreSamples.sample_world) /\
    forall item, In item (data resp) ->
      HealthCheckResponse.triggerType item = "manual" /\
      HealthCheckResponse.status item = "running".
Proof.
  eexists.
  assert (getHealthChecks (Some "manual") (Some "running") None None
            MoreSamples.sample_world
          = (Returned _, MoreSamples.sample_world)) as Hret
    by (apply HealthOpsSpec.getHealthChecks_accepted; now right).
  split; [exact Hret|].
  intros item Hin.
  destruct (proj1 (listings_respect_filters MoreSamples.sample_world None None)
              (Some "manual") (Some "running") _ item Hret Hin) as [Ht Hs].
  specialize (Ht eq_refl). specialize (Hs eq_refl).
  injection Ht as Ht. injection Hs as Hs. now split.
Defined.

Lemma result_total_sample :
  (0 <= None ?? 100 \/ None ?? 0 = 0) /\
  exists before after refused,
    getWorkerHealthChecks "run-2" None None MoreSamples.sample_world
      = (Returned before, MoreSamples.sample_world) /\
    total (pagination before) = 2 /\
    fst (getWorkerHealthChecks "run-2" None None
           (HealthOps.perform Samples.healthChecks_stamped
              Samples.workerHealthChecks_stamped
              (WCreateWorkerHealthCheck (Samples.new_result "chk-3" "run-2"))
              MoreSamples.sample_world))
      = Returned after /\
    total (pagination after) = 3 /\
    fst (getWorkerHealthChecks "run-2" None None
           (HealthOps.perform Samples.healthChecks_stamped
              Samples.workerHealthChecks_stamped
              (WCreateWorkerHealthCheck (Samples.new_result "chk-1" "run-2"))
              MoreSamples.sample_world))
      = Returned refused /\
    total (pagination refused) = 2.
Proof.
  assert (0 <= None ?? 100 \/ None ?? 0 = 0) as Hacc by (left; simpl; lia).
  split; [exact Hacc|].
  destruct (proj1 (result_total_after_write Samples.healthChecks_stamped
                     Samples.workerHealthChecks_stamped
                     (WCreateWorkerHealthCheck (Samples.new_result "chk-3" "run-2"))
                     MoreSamples.sample_world "run-2" None None Hacc))
    as (before & after & Hb & Ha & Ht).
  destruct (proj1 (result_total_after_write Samples.healthChecks_stamped
                     Samples.workerHealthChecks_stamped
                     (WCreateWorkerHealthCheck (Samples.new_result "chk-1" "run-2"))
                     MoreSamples.sample_world "run-2" None None Hacc))
    as (before' & refused & Hb' & Hr & Ht').
  rewrite Hb in Hb'. injection Hb' as <-.
  assert (total (pagination before) = 2) as Hb2
    by (rewrite HealthOpsSpec.getWorkerHealthChecks_eq in Hb;
        injection Hb as <-; reflexivity).
  exists before, after, refused.
  split; [exact Hb|]. split; [exact Hb2|].
  split; [now rewrite Ha|]. split; [rewrite Ht, Hb2; reflexivity|].
  split; [now rewrite Hr|]. rewrite Ht', Hb2. reflexivity.
Defined.

(** X24. Lookups and listings agree: a run that a lookup returns is an item
    of the unfiltered listing with no bound, and a result that a lookup
    returns is an item of the unbounded listing of its run. *)
Theorem lookup_is_listed (w : World) (uuid : string) :
  (forall resp,
     getHealthCheck uuid w = (Returned (Some resp), w) ->
     exists listing,
       getHealthChecks None None (Some (-1)) None w = (Returned listing, w) /\
       In resp (data listing)) /\
  (forall resp,
     getWorkerHealthCheck uuid w = (Returned (Some resp), w) ->
     exists listing,
       getWorkerHealthChecks (WorkerHealthCheckResponse.healthCheckUuid resp)
         (Some (-1)) None w = (Returned listing, w) /\
       In resp (data listing)).
Proof.
  split; intros resp Hget.
  - rewrite HealthOpsSpec.getHealthCheck_eq in Hget. injection Hget as Hget.
    destruct (first _) as [row|] eqn:Hrow; [|discriminate].
    injection Hget as <-. apply HealthOpsSpec.first_filter in Hrow.
    destruct Hrow as [Hin _].
    eexists. split; [apply HealthOpsSpec.getHealthChecks_accepted; now right|].
    cbn [data healthChecks_listing]. apply in_map. unfold Sql.limit, Sql.offset. simpl.
    apply SqlFacts.order_by_In, filter_In. now split.
  - rewrite HealthOpsSpec.getWorkerHealthCheck_eq in Hget. injection Hget as Hget.
    destruct (first _) as [row|] eqn:Hrow; [|discriminate].
    injection Hget as <-. apply HealthOpsSpec.first_filter in Hrow.
    destruct Hrow as [Hin _].
    eexists.
    split; [apply HealthOpsSpec.getWorkerHealthChecks_accepted; now right|].
    cbn [data workerHealthChecks_listing]. apply in_map. unfold Sql.limit, Sql.offset. simpl.
    apply SqlFacts.order_by_In, filter_In. split; [exact Hin|].
    apply String.eqb_refl.
Qed.

Lemma lookup_is_listed_sample :
  exists resp listing,
    getWorkerHealthCheck "chk-2" MoreSamples.sample_world
      = (Returned (Some resp), MoreSamples.sample_world) /\
    getWorkerHealthChecks "run-2" (Some (-1)) None MoreSamples.sample_world
      = (Returned listing, MoreSamples.sample_world) /\
    In resp (data listing).
Proof.
  eexists.
  assert (getWorkerHealthCheck "chk-2" MoreSamples.sample_world
            = (Returned (Some _), MoreSamples.sample_world)) as Hget
    by reflexivity.
  destruct (proj2 (lookup_is_listed MoreSamples.sample_world "chk-2") _ Hget)
    as (listing & Hlist & Hin).
  exists listing. repeat split; assumption.
Defined.

End HealthOpsMore.

(** ** More on the ops specialist: edge cases and effects *)
Module OpsSpecialistMore.
Import JS OpsSpecialist.

Lemma sorted_filter {A : Type} (R : A -> A -> Prop) (f : A -> bool) (l : list A) :
  StronglySorted R l -> StronglySorted R (filter f l).
Proof.
  induction 1 as [|x t Ht IH Hx]; simpl; [constructor|].
  destruct (f x); [|exact IH]. constructor; [exact IH|].
  rewrite Forall_forall in *. intros y Hy. apply Hx.
  now apply filter_In in Hy.
Qed.

Section WithTracker.
Variable Tracker : Type.
Variable tracker_create :
  RemediationContext -> string -> Tracker -> Outcome unit * Tracker.

(** X13. On any list of files, the empty list included, a
    conflict-resolution call dispatches exactly one issue and leaves the
    database alone: the issue carries no order identifier, its file path is
    the first file, or [unknown] for the empty list, and its message names
    the repository, the branch and all the files, joined by commas. *)
Theorem resolveConflict_on_any_list
  (w : World Tracker) (repo branch : string) (conflictFiles : list string) :
  exists call,
    dispatched (snd (resolveConflict Tracker tracker_create repo branch conflictFiles w))
      = (dispatched w ++ [call])%list /\
    DB (snd (resolveConflict Tracker tracker_create repo branch conflictFiles w))
      = DB w /\
    ctx_order_id (fst call) = None /\
    ctx_file_path (fst call)
      = match conflictFiles with
        | [] => "unknown"
        | file :: _ => file
        end /\
    ctx_message (fst call)
      = "Conflict detected in " ++ repo ++ ":" ++ branch ++ " → "
        ++ String.concat ", " conflictFiles.
Proof.
  unfold resolveConflict, createIssue.
  match goal with
  | |- context [tracker_create ?c ?n (tracker w)] =>
      exists (c, n); destruct (tracker_create c n (tracker w)) as [r t']
  end.
  cbn [fst snd dispatched DB ctx_order_id ctx_file_path ctx_message].
  repeat split. now destruct conflictFiles.
Qed.

(** X14. The issue of a failed final QA names the least severe blocker:
    the followup whose file path it carries is a blocked followup of the
    order, and no blocked followup of the order has a lower impact level. *)
Theorem finalQA_names_lowest_impact_blocker (w : World Tracker) (orderId : string) :
  has_blocked (DB w) orderId ->
  exists first call,
    dispatched (snd (finalQA Tracker tracker_create orderId w))
      = (dispatched w ++ [call])%list /\
    ctx_file_path (fst call) = fu_file_path first ?? "unknown" /\
    In first (followups (DB w)) /\
    fu_order_id first = orderId /\
    fu_type first = "blocked" /\
    forall f, In f (followups (DB w)) -> fu_order_id f = orderId ->
              fu_type f = "blocked" ->
              fu_impact_level first <= fu_impact_level f.
Proof.
  intros Hb. apply OpsSpecialistSpec.report_blocked_nonempty in Hb.
  destruct (filter is_blocked (report_followups (report_of w orderId)))
    as [|first rest] eqn:E; [congruence|].
  pose proof (OpsSpecialistSpec.finalQA_blocked Tracker tracker_create
                w orderId first rest E) as Hqa. cbv zeta in Hqa.
  exists first, (qa_call orderId first (S (List.length rest))).
  assert (forall f, In f (first :: rest) <->
            In f (followups (DB w)) /\ fu_order_id f = orderId /\
            fu_type f = "blocked") as Hin.
  { intros f. rewrite <- E, filter_In, OpsSpecialistSpec.report_followups_In.
    unfold is_blocked. rewrite String.eqb_eq. tauto. }
  assert (StronglySorted (fun a b => fu_impact_level a <= fu_impact_level b)
            (first :: rest)) as Hsorted.
  { rewrite <- E. apply sorted_filter. unfold report_of. cbn [report_followups].
    eapply SqlFacts.sorted_weaken.
    2: apply (SqlFacts.order_by_asc_sorted (fun f => Some (fu_impact_level f))).
    intros a b H. now apply Z.leb_le. }
  destruct (proj1 (Hin first) (or_introl eq_refl)) as (H1 & H2 & H3).
  split.
  - rewrite Hqa. now destruct (fst (tracker_create _ _ (tracker w))).
  - split; [reflexivity|]. repeat split; trivial.
    intros f Hf Ho Ht.
    assert (In f (first :: rest)) as [<-|Hrest] by (apply Hin; auto).
    + lia.
    + apply StronglySorted_inv in Hsorted. destruct Hsorted as [_ Hall].
      rewrite Forall_forall in Hall. now apply Hall.
Qed.

(** X15. A final QA never writes to the database and dispatches at most
    one issue, none exactly when nothing is blocked; the report inside a
    returned result is the delivery report of the order, and the verdict is
    [failed] exactly when that report lists a blocked followup. *)
Theorem finalQA_effects (w : World Tracker) (orderId : string) :
  DB (snd (finalQA Tracker tracker_create orderId w)) = DB w /\
  clock_iso (snd (finalQA Tracker tracker_create orderId w)) = clock_iso w /\
  (exists calls,
     dispatched (snd (finalQA Tracker tracker_create orderId w))
       = (dispatched w ++ calls)%list /\
     (List.length calls <= 1)%nat /\
     (calls = [] <-> ~ has_blocked (DB w) orderId)) /\
  (forall r,
     fst (finalQA Tracker tracker_create orderId w) = Returned r ->
     generateDeliveryReport Tracker orderId w = (Returned (report r), w) /\
     (status r = "failed" <->
      exists f, In f (report_followups (report r)) /\ fu_type f = "blocked")).
Proof.
  pose proof (OpsSpecialistSpec.report_blocked_nonempty Tracker w orderId) as Hne.
  destruct (filter is_blocked (report_followups (report_of w orderId)))
    as [|first rest] eqn:E.
  - rewrite (OpsSpecialistSpec.finalQA_unblocked Tracker tracker_create w orderId E).
    cbn [fst snd]. repeat split.
    + exists []. rewrite app_nil_r. repeat split; auto.
      intros _. rewrite Hne. congruence.
    + injection H as <-. reflexivity.
    + injection H as <-. discriminate.
    + injection H as <-. cbn [report]. intros (f & Hf & Ht).
      assert (In f (filter is_blocked (report_followups (report_of w orderId))))
        as Hin by (apply filter_In; split;
                   [exact Hf | now apply String.eqb_eq]).
      rewrite E in Hin. destruct Hin.
  - rewrite (OpsSpecialistSpec.finalQA_blocked Tracker tracker_create
               w orderId first rest E). cbv zeta.
    destruct (fst (tracker_create _ _ (tracker w))) as [u|e]; cbn [fst snd DB clock_iso dispatched];
      repeat split; try discriminate.
    + exists [qa_call orderId first (S (List.length rest))].
      repeat split; auto; try discriminate.
      intros Hno. exfalso. apply Hno, Hne. congruence.
    + injection H as <-. reflexivity.
    + injection H as <-. intros _.
      assert (In first (filter is_blocked (report_followups (report_of w orderId))))
        as Hin by (rewrite E; now left).
      apply filter_In in Hin. destruct Hin as [Hf Ht].
      exists first. split; [exact Hf | now apply String.eqb_eq].
    + injection H as <-. reflexivity.
    + exists [qa_call orderId first (S (List.length rest))].
      repeat split; auto; try discriminate.
      intros Hno. exfalso. apply Hno, Hne. congruence.
Qed.

(** X16. An order without followups passes: its report lists no followup
    and counts none, and final QA returns [passed] without calling the issue
    tracker, so whatever the tracker would answer. *)
Theorem order_without_followups_passes (w : World Tracker) (orderId : string) :
  (forall f, In f (followups (DB w)) -> fu_order_id f <> orderId) ->
  exists rep,
    generateDeliveryReport Tracker orderId w = (Returned rep, w) /\
    report_followups rep = [] /\
    issues (summary rep) = 0%nat /\
    finalQA Tracker tracker_create orderId w
      = (Returned {| report := rep; status := "passed" |}, w).
Proof.
  intros Hnone. exists (report_of w orderId).
  assert (filter (of_order orderId) (followups (DB w)) = []) as Hempty.
  { apply HealthOpsSpec.filter_none. intros f Hf.
    apply String.eqb_neq. now apply Hnone. }
  assert (report_followups (report_of w orderId) = []) as Hrep
    by (unfold report_of; cbn [report_followups]; now rewrite Hempty).
  split; [reflexivity|]. split; [exact Hrep|]. split.
  - unfold report_of. cbn [summary issues]. now rewrite Hempty.
  - apply OpsSpecialistSpec.finalQA_unblocked. now rewrite Hrep.
Qed.

End WithTracker.

Lemma lowest_impact_blocker_sample :
  has_blocked (DB Samples.ops_world) "ORD-1" /\
  exists call,
    dispatched (snd (finalQA nat Samples.accepting "ORD-1" Samples.ops_world))
      = [call] /\
    ctx_file_path (fst call) = "src/a.ts".
Proof.
  assert (has_blocked (DB Samples.ops_world) "ORD-1") as Hb.
  { exists (Samples.followup "ORD-1" "blocked" 3 (Some "src/b.ts")).
    simpl. auto. }
  split; [exact Hb|].
  destruct (finalQA_names_lowest_impact_blocker nat Samples.accepting
              Samples.ops_world "ORD-1" Hb)
    as (first & call & Hcalls & Hpath & _).
  exists call. split; [exact Hcalls|].
  injection Hcalls as <-. reflexivity.
Defined.

Lemma finalQA_effects_sample :
  exists r,
    fst (finalQA nat Samples.accepting "ORD-1" Samples.ops_world) = Returned r /\
    status r = "failed" /\
    exists f, In f (report_followups (report r)) /\ fu_type f = "blocked".
Proof.
  eexists.
  assert (fst (finalQA nat Samples.accepting "ORD-1" Samples.ops_world)
            = Returned _) as Hret by reflexivity.
  split; [exact Hret|].
  destruct (finalQA_effects nat Samples.accepting Samples.ops_world "ORD-1")
    as (_ & _ & _ & H).
  destruct (H _ Hret) as [_ Hiff].
  split; [reflexivity|]. apply Hiff. reflexivity.
Defined.

Lemma unknown_order_passes_sample :
  (forall f, In f (followups (DB Samples.ops_world)) -> fu_order_id f <> "ORD-3") /\
  exists rep,
    finalQA nat Samples.failing "ORD-3" Samples.ops_world
      = (Returned {| report := rep; status := "passed" |}, Samples.ops_world).
Proof.
  assert (forall f, In f (followups (DB Samples.ops_world)) ->
            fu_order_id f <> "ORD-3") as Hnone.
  { intros f Hf. simpl in Hf.
    destruct Hf as [<-|[<-|[<-|[<-|[]]]]]; discriminate. }
  split; [exact Hnone|].
  destruct (order_without_followups_passes nat Samples.failing
              Samples.ops_world "ORD-3" Hnone) as (rep & _ & _ & _ & Hqa).
  exists rep. exact Hqa.
Defined.

End OpsSpecialistMore.

(** ** The UI factory agent *)
Module UiFactoryAgentSpec.
Import UiFactoryAgent.

Ltac break_match :=
  match goal with
  | |- context [match ?x with _ => _ end] => destruct x eqn:?
  | H : context [match ?x with _ => _ end] |- _ => destruct x eqn:?
  end.

Lemma as_strings_map (l : list string) : as_strings (map VString l) = Some l.
Proof. induction l as [|x t IH]; simpl; [reflexivity | now rewrite IH]. Qed.

Lemma as_enum_spec (values : list string) (v : Value) (s : string) :
  as_enum values v = Some s <-> v = VString s /\ In s values.
Proof.
  destruct v as [| |b|n|t|items|props]; simpl;
    try (split; [discriminate | intros [H _]; discriminate]).
  destruct (existsb _ values) eqn:E.
  - apply existsb_exists in E. destruct E as (x & Hx & Hs).
    apply String.eqb_eq in Hs. subst x.
    split; [intros [= <-]; auto | intros [[= <-] _]; reflexivity].
  - split; [discriminate|]. intros [[= ->] Hin].
    assert (existsb (String.eqb s) values = true) as E'
      by (apply existsb_exists; exists s; split;
          [exact Hin | apply String.eqb_refl]).
    congruence.
Qed.

Lemma safeParse_of_value (r : UIResult) :
  status r = "complete" \/ status r = "error" ->
  UIResultSchema_safeParse (UIResult_value r) = Some r.
Proof.
  destruct r as [s res c e]. intros Hs. cbn in Hs.
  unfold UIResult_value, UIResultSchema_safeParse.
  cbn [status result components error].
  assert (as_enum ["complete"; "error"] (VString s) = Some s) as Henum
    by (apply as_enum_spec; split; [reflexivity | simpl; intuition]).
  destruct c as [c|], e as [e|]; cbn -[as_enum]; rewrite Henum;
    rewrite ?as_strings_map; reflexivity.
Qed.

Lemma safeParse_status (v : Value) (r : UIResult) :
  UIResultSchema_safeParse v = Some r ->
  status r = "complete" \/ status r = "error".
Proof.
  intros H. unfold UIResultSchema_safeParse in H.
  destruct v; try discriminate.
  destruct (as_enum _ _) as [s|] eqn:Es; [|discriminate].
  apply as_enum_spec in Es. destruct Es as [_ Hin].
  repeat break_match; try discriminate.
  injection H as <-. cbn. simpl in Hin. intuition.
Qed.

(** X19. Validation round trip: a result whose status is [complete] or
    [error], written out as an object, validates to itself; whatever
    validates has one of these two statuses; and a value that is not an
    object, or whose [result] is not a string, does not validate. *)
Theorem UIResultSchema_round_trip :
  (forall r,
     status r = "complete" \/ status r = "error" ->
     UIResultSchema_safeParse (UIResult_value r) = Some r) /\
  (forall v r,
     UIResultSchema_safeParse v = Some r ->
     status r = "complete" \/ status r = "error") /\
  (forall v r,
     UIResultSchema_safeParse v = Some r ->
     exists props,
       v = VObject props /\
       assoc "status" props = VString (status r) /\
       assoc "result" props = VString (result r)).
Proof.
  split; [exact safeParse_of_value|]. split; [exact safeParse_status|].
  intros v r H. unfold UIResultSchema_safeParse in H.
  destruct v as [| |b|n|t|items|props]; try discriminate.
  exists props. split; [reflexivity|].
  destruct (as_enum _ _) as [s|] eqn:Es; [|discriminate].
  apply as_enum_spec in Es. destruct Es as [Es _].
  destruct (as_string _) as [res|] eqn:Er; [|discriminate].
  destruct (assoc "result" props); try discriminate. injection Er as ->.
  repeat break_match; try discriminate.
  injection H as <-. cbn. now split.
Qed.

Section WithJson.
Variable JSON_parse : string -> option Value.
Variable zod_message : Value -> string.

#[local] Abbreviation parse := (parseAiStructuredResponse JSON_parse).
#[local] Abbreviation process := (processTask JSON_parse zod_message).

(** X17. The three shapes of an AI answer carry the same payload: a bare
    string, an object whose [response] is a string, and an object whose
    [response] is not a string but whose [results] start with an object
    whose [response] is a string are all parsed as the JSON text of that
    string; [response] wins over [results]. *)
Theorem parseAiStructuredResponse_shapes (payload : string) :
  parse (VString payload) = safeJsonParse JSON_parse payload /\
  (forall props,
     assoc "response" props = VString payload ->
     parse (VObject props) = safeJsonParse JSON_parse payload) /\
  (forall props first rest,
     (forall s, assoc "response" props <> VString s) ->
     assoc "results" props = VArray (first :: rest) ->
     get first "response" = VString payload ->
     parse (VObject props) = safeJsonParse JSON_parse payload).
Proof.
  split; [reflexivity|]. split.
  - intros props Hr. unfold parseAiStructuredResponse. cbn. now rewrite Hr.
  - intros props first rest Hno Hres Hfirst.
    unfold parseAiStructuredResponse. cbn.
    destruct (assoc "response" props) eqn:E;
      try (exfalso; eapply Hno; reflexivity);
      rewrite Hres; cbn; rewrite Hfirst;
      (destruct first; cbn in Hfirst; try discriminate; reflexivity).
Qed.

(** X18. Parsing an AI answer fails in two ways only, both with an
    [Error]: no payload string was found, or a payload string was found that
    is not JSON.  An answer that is [undefined], [null], a boolean, a number
    or an array never has a payload.  A parsed answer is always the JSON
    value of some text. *)
Theorem parseAiStructuredResponse_failures (aiResult : Value) :
  (forall e, parse aiResult = Rejected e ->
     e = no_payload \/
     (e = ThrownError "Failed to parse AI response as JSON" /\
      exists payload, JSON_parse payload = None)) /\
  (forall structured, parse aiResult = Fulfilled structured ->
     exists payload, JSON_parse payload = Some structured) /\
  match aiResult with
  | VString _ | VObject _ => True
  | _ => parse aiResult = Rejected no_payload
  end.
Proof.
  unfold parseAiStructuredResponse, safeJsonParse.
  split; [|split].
  - intros e H. repeat break_match; try discriminate;
      injection H as <-; eauto.
  - intros x H. repeat break_match; try discriminate;
      injection H as <-; eauto.
  - destruct aiResult; trivial; cbn; rewrite ?andb_false_r; reflexivity.
Qed.

(** What [processTask] does once the AI binding is there: one call, whose
    outcome is parsed and validated, every failure becoming an error
    result. *)
Lemma processTask_with_binding (e : UIFactoryEnv) (ai : Ai) (input : UITaskInput) :
  AI e = Some ai ->
  process (Some e) input =
    (Fulfilled
       match run ai (model_of e) (request_of input) with
       | Rejected x => error_result (caught_message x)
       | Fulfilled aiResult =>
           match parse aiResult with
           | Rejected x => error_result (caught_message x)
           | Fulfilled structured =>
               match UIResultSchema_safeParse structured with
               | None =>
                   error_result
                     ("AI response failed validation: " ++ zod_message structured)
               | Some data => data
               end
           end
       end,
     [(model_of e, request_of input)]).
Proof.
  intros Hai. unfold processTask, attempt. rewrite Hai.
  fold (model_of e). fold (request_of input).
  destruct (run ai (model_of e) (request_of input)) as [v|x];
    [|now destruct x].
  destruct (parseAiStructuredResponse JSON_parse v) as [y|x];
    [|now destruct x].
  now destruct (UIResultSchema_safeParse y).
Qed.

Lemma processTask_without_binding (env : option UIFactoryEnv) (input : UITaskInput) :
  (forall e, env = Some e -> AI e = None) ->
  process env input =
    (Fulfilled (error_result "AI binding is not available for UIFactoryAgent"), []).
Proof.
  intros Hno. unfold processTask, attempt.
  destruct env as [e|]; [rewrite (Hno e eq_refl)|]; reflexivity.
Qed.

(** X20. [processTask] never throws: whatever the environment, the AI
    binding and the input, it returns a result whose status is [complete] or
    [error].  It calls the AI binding at most once, not at all exactly when
    the binding is missing, and a call names the configured model, or the
    fallback model when none is configured, and carries the prompt built
    from the input. *)
Theorem processTask_always_answers (env : option UIFactoryEnv) (input : UITaskInput) :
  exists r calls,
    process env input = (Fulfilled r, calls) /\
    (status r = "complete" \/ status r = "error") /\
    (List.length calls <= 1)%nat /\
    (calls = [] <-> forall e, env = Some e -> AI e = None) /\
    (forall call, In call calls ->
       exists e, env = Some e /\
         fst call = DEFAULT_MODEL e ?? FALLBACK_MODEL /\
         prompt (snd call) = buildGenerationPrompt input).
Proof.
  destruct env as [e|].
  - destruct (AI e) as [ai|] eqn:Hai.
    + eexists _, _. split; [apply (processTask_with_binding e ai input Hai)|].
      split.
      * repeat break_match; auto. eapply safeParse_status; eassumption.
      * split; [simpl; lia|]. split.
        -- split; [discriminate|]. intros H. specialize (H e eq_refl). congruence.
        -- intros call [<-|[]]. exists e. repeat split.
    + eexists _, _. split.
      * apply processTask_without_binding. now intros e' [= <-].
      * split; [now right|]. split; [simpl; lia|]. split.
        -- split; [|reflexivity]. now intros _ e' [= <-].
        -- intros call [].
  - eexists _, _. split.
    + apply processTask_without_binding. discriminate.
    + split; [now right|]. split; [simpl; lia|]. split.
      * split; [|reflexivity]. discriminate.
      * intros call [].
Qed.

(** X21. Every failure becomes an error result with an empty [result] and
    a message that tells the cause: a missing AI binding; the message of the
    [Error] the AI call threw, or [Unknown error occurred] when it threw
    something else; an answer without a payload; a payload that is not JSON;
    a JSON value that fails validation. *)
Theorem processTask_error_results (input : UITaskInput) :
  (forall env,
     (forall e, env = Some e -> AI e = None) ->
     fst (process env input)
       = Fulfilled (error_result "AI binding is not available for UIFactoryAgent")) /\
  (forall e ai,
     AI e = Some ai ->
     (forall message,
        run ai (model_of e) (request_of input) = Rejected (ThrownError message) ->
        fst (process (Some e) input) = Fulfilled (error_result message)) /\
     (forall v,
        run ai (model_of e) (request_of input) = Rejected (ThrownValue v) ->
        fst (process (Some e) input)
          = Fulfilled (error_result "Unknown error occurred")) /\
     (forall aiResult,
        run ai (model_of e) (request_of input) = Fulfilled aiResult ->
        parse aiResult = Rejected no_payload ->
        fst (process (Some e) input)
          = Fulfilled (error_result
              "AI response did not include a parsable JSON payload")) /\
     (forall aiResult,
        run ai (model_of e) (request_of input) = Fulfilled aiResult ->
        parse aiResult
          = Rejected (ThrownError "Failed to parse AI response as JSON") ->
        fst (process (Some e) input)
          = Fulfilled (error_result "Failed to parse AI response as JSON")) /\
     (forall aiResult structured,
        run ai (model_of e) (request_of input) = Fulfilled aiResult ->
        parse aiResult = Fulfilled structured ->
        UIResultSchema_safeParse structured = None ->
        fst (process (Some e) input)
          = Fulfilled (error_result
              ("AI response failed validation: " ++ zod_message structured)))).
Proof.
  split.
  - intros env Hno. now rewrite processTask_without_binding.
  - intros e ai Hai. rewrite (processTask_with_binding e ai input Hai). cbn [fst].
    repeat split.
    + intros message ->. reflexivity.
    + intros v ->. reflexivity.
    + intros aiResult -> ->. reflexivity.
    + intros aiResult -> ->. reflexivity.
    + intros aiResult structured -> -> ->. reflexivity.
Qed.

(** X22. The agent never makes up a success: a result with status
    [complete] is always the validated JSON payload of the answer the AI
    binding gave to the one call. *)
Theorem processTask_complete_is_validated
  (env : option UIFactoryEnv) (input : UITaskInput) (r : UIResult) :
  fst (process env input) = Fulfilled r ->
  status r = "complete" ->
  exists e ai aiResult structured,
    env = Some e /\ AI e = Some ai /\
    run ai (model_of e) (request_of input) = Fulfilled aiResult /\
    parse aiResult = Fulfilled structured /\
    UIResultSchema_safeParse structured = Some r.
Proof.
  intros Hret Hs.
  destruct env as [e|].
  2: { rewrite processTask_without_binding in Hret by discriminate.
       injection Hret as <-. discriminate Hs. }
  destruct (AI e) as [ai|] eqn:Hai.
  2: { rewrite processTask_without_binding in Hret
         by (intros e' [= <-]; exact Hai).
       injection Hret as <-. discriminate Hs. }
  rewrite (processTask_with_binding e ai input Hai) in Hret. cbn [fst] in Hret.
  destruct (run ai _ _) as [aiResult|x] eqn:Hrun;
    [|injection Hret as <-; discriminate Hs].
  destruct (parseAiStructuredResponse JSON_parse aiResult) as [structured|x] eqn:Hparse;
    [|injection Hret as <-; discriminate Hs].
  destruct (UIResultSchema_safeParse structured) as [data|] eqn:Hval;
    [|injection Hret as <-; discriminate Hs].
  injection Hret as <-.
  exists e, ai, aiResult, structured. repeat split; assumption.
Qed.

(** X23. End to end: when the AI binding answers the call with the JSON
    text of a result whose status is [complete] or [error], as a bare string
    or as the [response] of an object, [processTask] returns exactly that
    result. *)
Theorem processTask_returns_valid_answer
  (e : UIFactoryEnv) (ai : Ai) (input : UITaskInput) (payload : string)
  (r : UIResult) :
  AI e = Some ai ->
  JSON_parse payload = Some (UIResult_value r) ->
  status r = "complete" \/ status r = "error" ->
  (run ai (model_of e) (request_of input) = Fulfilled (VString payload) \/
   exists props,
     run ai (model_of e) (request_of input) = Fulfilled (VObject props) /\
     assoc "response" props = VString payload) ->
  process (Some e) input = (Fulfilled r, [(model_of e, request_of input)]).
Proof.
  intros Hai Hjson Hs Hrun.
  rewrite (processTask_with_binding e ai input Hai).
  assert (exists aiResult,
            run ai (model_of e) (request_of input) = Fulfilled aiResult /\
            parse aiResult = Fulfilled (UIResult_value r)) as (aiResult & -> & ->).
  { destruct Hrun as [Hrun|(props & Hrun & Hresp)]; eexists; (split; [exact Hrun|]).
    - unfold parseAiStructuredResponse, safeJsonParse. now rewrite Hjson.
    - unfold parseAiStructuredResponse, safeJsonParse. cbn.
      now rewrite Hresp, Hjson. }
  now rewrite (safeParse_of_value r Hs).
Qed.

End WithJson.

Lemma results_shape_sample :
  (forall s, assoc "response" [("results",
       VArray [VObject [("response", VString UiSamples.login_json)]])]
     <> VString s) /\
  parseAiStructuredResponse UiSamples.JSON_parse
    (VObject [("results",
       VArray [VObject [("response", VString UiSamples.login_json)]])])
    = Fulfilled (UIResult_value UiSamples.login_form).
Proof.
  assert (forall s, assoc "response" [("results",
            VArray [VObject [("response", VString UiSamples.login_json)]])]
          <> VString s) as Hno by (intros s; discriminate).
  split; [exact Hno|].
  destruct (parseAiStructuredResponse_shapes UiSamples.JSON_parse UiSamples.login_json)
    as (_ & _ & H).
  rewrite (H _ _ [] Hno eq_refl eq_refl). reflexivity.
Defined.

Lemma not_json_sample :
  parseAiStructuredResponse UiSamples.JSON_parse
    (VObject [("response", VString "sorry, no code today")])
    = Rejected (ThrownError "Failed to parse AI response as JSON") /\
  exists payload, UiSamples.JSON_parse payload = None.
Proof.
  assert (parseAiStructuredResponse UiSamples.JSON_parse
            (VObject [("response", VString "sorry, no code today")])
          = Rejected (ThrownError "Failed to parse AI response as JSON")) as Hrej
    by reflexivity.
  split; [exact Hrej|].
  destruct (parseAiStructuredResponse_failures UiSamples.JSON_parse
              (VObject [("response", VString "sorry, no code today")]))
    as (H & _ & _).
  destruct (H _ Hrej) as [Habs|[_ Hp]]; [discriminate Habs | exact Hp].
Defined.

Lemma login_form_validates :
  (status UiSamples.login_form = "complete" \/ status UiSamples.login_form = "error") /\
  UIResultSchema_safeParse (UIResult_value UiSamples.login_form)
    = Some UiSamples.login_form.
Proof.
  assert (status UiSamples.login_form = "complete" \/
          status UiSamples.login_form = "error") as Hs by (left; reflexivity).
  split; [exact Hs|].
  exact (proj1 UIResultSchema_round_trip _ Hs).
Defined.

Lemma no_binding_sample :
  exists r,
    processTask UiSamples.JSON_parse UiSamples.zod_message None UiSamples.login_task
      = (Fulfilled r, []) /\
    status r = "error".
Proof.
  destruct (processTask_always_answers UiSamples.JSON_parse UiSamples.zod_message
              None UiSamples.login_task)
    as (r & calls & Hret & _ & _ & Hcalls & _).
  assert (calls = []) as -> by (apply Hcalls; discriminate).
  exists r. split; [exact Hret|].
  injection Hret as <-. reflexivity.
Defined.

Lemma failing_binding_sample :
  AI (UiSamples.env_with UiSamples.failing) = Some UiSamples.failing /\
  fst (processTask UiSamples.JSON_parse UiSamples.zod_message
         (Some (UiSamples.env_with UiSamples.failing)) UiSamples.login_task)
    = Fulfilled (error_result "upstream timeout").
Proof.
  split; [reflexivity|].
  destruct (processTask_error_results UiSamples.JSON_parse UiSamples.zod_message
              UiSamples.login_task) as [_ H].
  destruct (H (UiSamples.env_with UiSamples.failing) UiSamples.failing eq_refl)
    as (Herr & _).
  exact (Herr "upstream timeout" eq_refl).
Defined.

Lemma complete_answer_sample :
  exists r aiResult structured,
    fst (processTask UiSamples.JSON_parse UiSamples.zod_message
           (Some (UiSamples.env_with (UiSamples.answering (VString UiSamples.login_json))))
           UiSamples.login_task) = Fulfilled r /\
    status r = "complete" /\
    aiResult = VString UiSamples.login_json /\
    parseAiStructuredResponse UiSamples.JSON_parse aiResult = Fulfilled structured /\
    UIResultSchema_safeParse structured = Some r.
Proof.
  exists UiSamples.login_form.
  assert (fst (processTask UiSamples.JSON_parse UiSamples.zod_message
                 (Some (UiSamples.env_with
                    (UiSamples.answering (VString UiSamples.login_json))))
                 UiSamples.login_task) = Fulfilled UiSamples.login_form) as Hret
    by reflexivity.
  destruct (processTask_complete_is_validated UiSamples.JSON_parse
              UiSamples.zod_message _ _ _ Hret eq_refl)
    as (e & ai & aiResult & structured & He & Hai & Hrun & Hparse & Hval).
  exists aiResult, structured.
  injection He as <-. injection Hai as <-. injection Hrun as <-.
  repeat split; assumption.
Defined.

Lemma end_to_end_sample :
  processTask UiSamples.JSON_parse UiSamples.zod_message
    (Some (UiSamples.env_with
       (UiSamples.answering (VObject [("response", VString UiSamples.login_json)]))))
    UiSamples.login_task
  = (Fulfilled UiSamples.login_form,
     [(FALLBACK_MODEL, request_of UiSamples.login_task)]).
Proof.
  exact (processTask_returns_valid_answer UiSamples.JSON_parse UiSamples.zod_message
           (UiSamples.env_with
              (UiSamples.answering
                 (VObject [("response", VString UiSamples.login_json)])))
           (UiSamples.answering (VObject [("response", VString UiSamples.login_json)]))
           UiSamples.login_task UiSamples.login_json UiSamples.login_form
           eq_refl eq_refl (or_introl eq_refl)
           (or_intror (ex_intro _ [("response", VString UiSamples.login_json)]
                         (conj eq_refl eq_refl)))).
Defined.

End UiFactoryAgentSpec.
